(** * AI-RM banking chatbot: context aggregation, chat endpoint, bulk import

    A shallow embedding of [chatbot/data_service.py], [chatbot/gemini_service.py]
    and [chatbot/views.py].

    Conventions of the model:
    - decimals and Python floats are exact rationals ([Q]); equalities between
      amounts are stated with [==];
    - a date is its day number ([Z]), so that [(d1 - d2).days] is [d1 - d2];
    - strings are ASCII text: the casing and whitespace tables below cover the
      ASCII range, other bytes are uncased and are no whitespace;
    - a Python [dict] whose insertion order is observable is an association
      list; the record store keeps customers and conversations in [gmap]s keyed
      by their unique key and the other tables as row lists in insertion order;
    - an exception is a [Raise] result; code that touches the record store is
      written in a state-and-exception monad over [Store]. *)

From Stdlib Require Import Ascii String QArith Qround Qabs Qminmax Lqa Sorted.
From stdpp Require Import gmap strings list pretty.

Local Open Scope Z_scope.

(** ** Python string methods *)

Module PyStr.

Definition is_upper (c : ascii) : bool :=
  let n := nat_of_ascii c in ((65 <=? n) && (n <=? 90))%nat.

Definition is_lower (c : ascii) : bool :=
  let n := nat_of_ascii c in ((97 <=? n) && (n <=? 122))%nat.

Definition is_cased (c : ascii) : bool := is_upper c || is_lower c.

Definition to_lower (c : ascii) : ascii :=
  if is_upper c then ascii_of_nat (nat_of_ascii c + 32) else c.

Definition to_upper (c : ascii) : ascii :=
  if is_lower c then ascii_of_nat (nat_of_ascii c - 32) else c.

(** [str.isspace] on one character: tab, line feed, vertical tab, form feed,
    carriage return, the four separators 28..31 and the space. *)
Definition is_space (c : ascii) : bool :=
  let n := nat_of_ascii c in
  (((9 <=? n) && (n <=? 13)) || ((28 <=? n) && (n <=? 32)))%nat.

Fixpoint map_chars (f : ascii -> ascii) (s : string) : string :=
  match s with
  | EmptyString => EmptyString
  | String c s' => String (f c) (map_chars f s')
  end.

(** [s.replace(a, b)] for one-character [a] and [b]. *)
Definition replace (a b : ascii) (s : string) : string :=
  map_chars (fun c => if Ascii.eqb c a then b else c) s.

(** [s.lower()] *)
Definition lower (s : string) : string := map_chars to_lower s.

(** [s.title()]: a character that follows a cased character is lowercased,
    any other character is uppercased. *)
Fixpoint title_from (previous_is_cased : bool) (s : string) : string :=
  match s with
  | EmptyString => EmptyString
  | String c s' =>
      String (if previous_is_cased then to_lower c else to_upper c)
             (title_from (is_cased c) s')
  end.

Definition title (s : string) : string := title_from false s.

Fixpoint lstrip (s : string) : string :=
  match s with
  | EmptyString => EmptyString
  | String c s' => if is_space c then lstrip s' else s
  end.

Fixpoint rstrip (s : string) : string :=
  match s with
  | EmptyString => EmptyString
  | String c s' =>
      match rstrip s' with
      | EmptyString => if is_space c then EmptyString else String c EmptyString
      | r => String c r
      end
  end.

(** [s.strip()] *)
Definition strip (s : string) : string := rstrip (lstrip s).

(** Truth value of a string: the empty string is falsy. *)
Definition truthy (s : string) : bool :=
  match s with EmptyString => false | _ => true end.

End PyStr.

(** The display form of a category or product type:
    [x.replace('_', ' ').title()]. *)
Definition normalize (s : string) : string :=
  PyStr.title (PyStr.replace "_" " " s).

(** ** Exceptions *)

Inductive exn : Type :=
  | ZeroDivisionError
  | KeyError (key : string)
  | ValidationError (field : string)
  | IntegrityError (key : string)
  | ParserError
  | ServiceError (msg : string).

Inductive result (A : Type) : Type :=
  | Ok (a : A)
  | Raise (e : exn).
Arguments Ok {A} a.
Arguments Raise {A} e.

(** [str(e)] *)
Definition exn_message (e : exn) : string :=
  match e with
  | ZeroDivisionError => "division by zero"
  | KeyError key => ("'" ++ key ++ "'")%string
  | ValidationError field => field
  | IntegrityError key => key
  | ParserError => "Error tokenizing data"
  | ServiceError msg => msg
  end.

#[global] Instance result_ret : MRet result := fun A a => Ok a.
#[global] Instance result_bind : MBind result := fun A B f m =>
  match m with
  | Ok a => f a
  | Raise e => Raise e
  end.

Fixpoint mapR {A B : Type} (f : A -> result B) (l : list A) : result (list B) :=
  match l with
  | [] => Ok []
  | x :: l' => y ← f x; ys ← mapR f l'; Ok (y :: ys)
  end.

(** ** Numbers *)

Definition Qltb (x y : Q) : bool := negb (Qle_bool y x).

(** Python's [sum]: left to right from 0. *)
Definition py_sum (l : list Q) : Q := fold_left Qplus l 0%Q.

(** True division; a zero divisor raises. *)
Definition py_div (a b : Q) : result Q :=
  if Qeq_bool b 0 then Raise ZeroDivisionError else Ok (a / b)%Q.

(** [x or 1] on a number: 1 replaces a zero. *)
Definition or_one (x : Q) : Q := if Qeq_bool x 0 then 1%Q else x.

(** Nearest integer, ties to the even one. *)
Definition round_half_even (x : Q) : Z :=
  let f := Qfloor x in
  let r := (x - inject_Z f)%Q in
  if Qltb r (1 # 2) then f
  else if Qltb (1 # 2) r then f + 1
  else if Z.even f then f else f + 1.

(** [round(x, 2)] *)
Definition py_round2 (x : Q) : Q :=
  (inject_Z (round_half_even (x * 100)) / 100)%Q.

Definition max_list (d : Z) (l : list Z) : Z := fold_left Z.max l d.
Definition min_list (d : Z) (l : list Z) : Z := fold_left Z.min l d.

(** ** Dictionaries in insertion order *)

Definition dict (V : Type) : Type := list (string * V).

Fixpoint dict_get {V : Type} (k : string) (d : dict V) (default : V) : V :=
  match d with
  | [] => default
  | (k', v) :: d' => if String.eqb k' k then v else dict_get k d' default
  end.

(** [d[k] = v]: an existing key keeps its place, a new key goes last. *)
Fixpoint dict_set {V : Type} (k : string) (v : V) (d : dict V) : dict V :=
  match d with
  | [] => [(k, v)]
  | (k', v') :: d' =>
      if String.eqb k' k then (k', v) :: d' else (k', v') :: dict_set k v d'
  end.

(** [{f(k): v for k, v in d.items()}] *)
Definition dict_map_keys {V : Type} (f : string -> string) (d : dict V) : dict V :=
  fold_left (fun acc kv => dict_set (f (fst kv)) (snd kv) acc) d [].

(** [d[key(x)] = d.get(key(x), 0) + val(x)] *)
Definition sum_by_step {A : Type} (key : A -> string) (val : A -> Q)
    (d : dict Q) (x : A) : dict Q :=
  dict_set (key x) (dict_get (key x) d 0 + val x)%Q d.

(** Accumulation of [val] per [key] over a loop, and the store's
    [values(key).annotate(Sum(val))]. *)
Definition sum_by {A : Type} (key : A -> string) (val : A -> Q) (l : list A) : dict Q :=
  fold_left (sum_by_step key val) l [].

(** The rows of [l] whose key is [k]. *)
Definition rows_of {A : Type} (key : A -> string) (k : string) (l : list A) : list A :=
  List.filter (fun x => String.eqb (key x) k) l.

(** Stable sort by decreasing key: [sorted(l, key=key, reverse=True)] and
    [order_by('-key')]. *)
Fixpoint insert_desc {A : Type} (key : A -> Q) (x : A) (l : list A) : list A :=
  match l with
  | [] => [x]
  | y :: l' => if Qltb (key x) (key y) then y :: insert_desc key x l' else x :: l
  end.

Definition sorted_desc {A : Type} (key : A -> Q) (l : list A) : list A :=
  foldr (insert_desc key) [] l.

(** [max(l, key=key)]: the first element with the greatest key. *)
Fixpoint max_by {A : Type} (key : A -> Q) (best : A) (l : list A) : A :=
  match l with
  | [] => best
  | x :: l' => max_by key (if Qltb (key best) (key x) then x else best) l'
  end.

(** ** Records of [chatbot/models.py] *)

Module Customer.
Record t : Type := mk {
  customer_id : string;
  name : string;
  age : Z;
  risk_level : string;
  annual_income : Q;
  financial_goals : string;
  account_opening_date : Z;
  email : string;
  phone : string }.
End Customer.

Module Transaction.
Record t : Type := mk {
  transaction_id : string;
  customer : string;
  date : Z;
  category : string;
  merchant : string;
  amount : Q;
  payment_method : string;
  description : string }.
End Transaction.

Module Investment.
Record t : Type := mk {
  investment_id : string;
  customer : string;
  product_type : string;
  product_name : string;
  purchase_date : Z;
  invested_amount : Q;
  current_value : Q;
  units : Q;
  purchase_nav : Q;
  current_nav : Q;
  returns_absolute : Q;
  returns_percentage : Q;
  risk_level : string }.
End Investment.

Module ChatConversation.
Record t : Type := mk {
  conversation_id : string;
  customer : string;
  started_at : Z;
  last_activity : Z;
  is_active : bool }.
End ChatConversation.

Module ChatMessage.
Record t : Type := mk {
  conversation : string;
  role : string;
  content : string;
  timestamp : Z;
  intent : option string;
  data_sources : list string;
  thought_signature : option string }.
End ChatMessage.

(** One cell of a parsed CSV row, as the model field it is assigned to takes
    it: text, a number, or a date held as its day number. *)
Inductive Cell : Type :=
  | CStr (s : string)
  | CNum (q : Q)
  | CDate (d : Z).

Definition Row : Type := gmap string Cell.

(** An uploaded file: its name and what [pd.read_csv] makes of its content. *)
Module File.
Record t : Type := mk {
  name : string;
  read_csv : result (list Row) }.
End File.

Module UploadedFile.
Record t : Type := mk {
  file_name : string;
  file_type : string;
  file_path : File.t;
  uploaded_by : string;
  processed : bool;
  records_imported : Z }.
End UploadedFile.

(** The record store. [customers] and [conversations] are keyed by their
    unique key; the other tables are rows in insertion order. *)
Record Store : Type := mkStore {
  customers : gmap string Customer.t;
  transactions : list Transaction.t;
  investments : list Investment.t;
  conversations : gmap string ChatConversation.t;
  messages : list ChatMessage.t;
  uploaded_files : list UploadedFile.t }.

(** ** [chatbot/data_service.py] *)

Module TransactionSummary.
Record t : Type := mk {
  total_spent : Q;
  monthly_average : Q;
  top_categories : list string;
  category_breakdown : dict Q;
  transaction_count : nat }.
End TransactionSummary.

Module InvestmentSummary.
Record t : Type := mk {
  total_invested : Q;
  current_value : Q;
  total_returns : Q;
  return_percentage : Q;
  product_types : list string;
  investment_count : nat;
  best_performer : option (string * Q) }.
End InvestmentSummary.

(** The three dictionaries of the context snapshot. *)
Module CustomerDict.
Record t : Type := mk {
  customer_id : string;
  name : string;
  age : Z;
  risk_level : string;
  annual_income : Q;
  financial_goals : string }.
End CustomerDict.

Module TransactionDict.
Record t : Type := mk {
  transaction_id : string;
  date : Z;
  category : string;
  merchant : string;
  amount : Q;
  description : string }.
End TransactionDict.

Module InvestmentDict.
Record t : Type := mk {
  investment_id : string;
  product_type : string;
  product_name : string;
  invested_amount : Q;
  current_value : Q;
  returns_percentage : Q;
  risk_level : string }.
End InvestmentDict.

(** The context snapshot; an empty summary dictionary [{}] is [None]. *)
Module CustomerContext.
Record t : Type := mk {
  customer : CustomerDict.t;
  transactions : list TransactionDict.t;
  investments : list InvestmentDict.t;
  transaction_summary : option TransactionSummary.t;
  investment_summary : option InvestmentSummary.t }.
End CustomerContext.

Module AllocationEntry.
Record t : Type := mk {
  product_type : string;
  value : Q;
  percentage : Q }.
End AllocationEntry.

Module DataService.

(** The day span of the retrieved set: [(max(dates) - min(dates)).days]. *)
Definition days_span (dates : list Z) : Z :=
  match dates with
  | [] => 0
  | d :: ds => max_list d ds - min_list d ds
  end.

(** [months_covered = (max(dates) - min(dates)).days / 30 or 1] *)
Definition months_covered (dates : list Z) : Q :=
  or_one (inject_Z (days_span dates) / 30)%Q.

Definition category_spending (txs : list Transaction.t) : dict Q :=
  sum_by Transaction.category Transaction.amount txs.

Definition _calculate_transaction_summary (txs : list Transaction.t)
  : result (option TransactionSummary.t) :=
  match txs with
  | [] => Ok None
  | _ =>
      let total_spent := py_sum (map Transaction.amount txs) in
      let category_spending := category_spending txs in
      let top_categories := take 5 (sorted_desc snd category_spending) in
      let dates := map Transaction.date txs in
      monthly_average ←
        match dates with
        | [] => Ok 0%Q
        | _ => py_div total_spent (months_covered dates)
        end;
      Ok (Some {|
        TransactionSummary.total_spent := total_spent;
        TransactionSummary.monthly_average := monthly_average;
        TransactionSummary.top_categories :=
          map (fun cat => normalize (fst cat)) (take 3 top_categories);
        TransactionSummary.category_breakdown :=
          dict_map_keys normalize category_spending;
        TransactionSummary.transaction_count := length txs |})
  end.

Definition _calculate_investment_summary (invs : list Investment.t)
  : result (option InvestmentSummary.t) :=
  match invs with
  | [] => Ok None
  | first :: rest =>
      let total_invested := py_sum (map Investment.invested_amount invs) in
      let current_value := py_sum (map Investment.current_value invs) in
      let total_returns := (current_value - total_invested)%Q in
      return_percentage ←
        (if Qltb 0 total_invested
         then q ← py_div total_returns total_invested; Ok (q * 100)%Q
         else Ok 0%Q);
      let product_types :=
        fold_left (fun d i =>
                     let ptype := normalize (Investment.product_type i) in
                     dict_set ptype (dict_get ptype d 0%nat + 1)%nat d)
                  invs [] in
      let best_investment := max_by Investment.returns_percentage first rest in
      Ok (Some {|
        InvestmentSummary.total_invested := total_invested;
        InvestmentSummary.current_value := current_value;
        InvestmentSummary.total_returns := total_returns;
        InvestmentSummary.return_percentage := return_percentage;
        InvestmentSummary.product_types := map fst product_types;
        InvestmentSummary.investment_count := length invs;
        InvestmentSummary.best_performer :=
          Some (Investment.product_name best_investment,
                Investment.returns_percentage best_investment) |})
  end.

(** [Transaction.objects.filter(customer=customer, date__gte=six_months_ago)
    .order_by('-date')[:50]] *)
Definition recent_transactions (st : Store) (today : Z) (customer_id : string)
  : list Transaction.t :=
  let six_months_ago := today - 180 in
  take 50
    (sorted_desc (fun t => inject_Z (Transaction.date t))
       (List.filter
          (fun t => String.eqb (Transaction.customer t) customer_id
                    && (six_months_ago <=? Transaction.date t))
          (transactions st))).

(** [Investment.objects.filter(customer=customer)], in the model's default
    order [-purchase_date]. *)
Definition customer_investments (st : Store) (customer_id : string)
  : list Investment.t :=
  sorted_desc (fun i => inject_Z (Investment.purchase_date i))
    (List.filter (fun i => String.eqb (Investment.customer i) customer_id)
       (investments st)).

Definition customer_dict (c : Customer.t) : CustomerDict.t :=
  {| CustomerDict.customer_id := Customer.customer_id c;
     CustomerDict.name := Customer.name c;
     CustomerDict.age := Customer.age c;
     CustomerDict.risk_level := Customer.risk_level c;
     CustomerDict.annual_income := Customer.annual_income c;
     CustomerDict.financial_goals := Customer.financial_goals c |}.

Definition transaction_dict (t : Transaction.t) : TransactionDict.t :=
  {| TransactionDict.transaction_id := Transaction.transaction_id t;
     TransactionDict.date := Transaction.date t;
     TransactionDict.category := Transaction.category t;
     TransactionDict.merchant := Transaction.merchant t;
     TransactionDict.amount := Transaction.amount t;
     TransactionDict.description := Transaction.description t |}.

Definition investment_dict (i : Investment.t) : InvestmentDict.t :=
  {| InvestmentDict.investment_id := Investment.investment_id i;
     InvestmentDict.product_type := Investment.product_type i;
     InvestmentDict.product_name := Investment.product_name i;
     InvestmentDict.invested_amount := Investment.invested_amount i;
     InvestmentDict.current_value := Investment.current_value i;
     InvestmentDict.returns_percentage := Investment.returns_percentage i;
     InvestmentDict.risk_level := Investment.risk_level i |}.

(** [get_customer_context]; the empty dictionary returned for an unknown
    customer is [None]. [today] is [datetime.now().date()]. *)
Definition get_customer_context (st : Store) (today : Z) (customer_id : string)
  : result (option CustomerContext.t) :=
  match customers st !! customer_id with
  | None => Ok None
  | Some customer =>
      let recent := recent_transactions st today customer_id in
      let invs := customer_investments st customer_id in
      transaction_summary ← _calculate_transaction_summary recent;
      investment_summary ← _calculate_investment_summary invs;
      Ok (Some {|
        CustomerContext.customer := customer_dict customer;
        CustomerContext.transactions := map transaction_dict recent;
        CustomerContext.investments := map investment_dict invs;
        CustomerContext.transaction_summary := transaction_summary;
        CustomerContext.investment_summary := investment_summary |})
  end.

(** [investments.values('product_type').annotate(total_value=Sum('current_value'))]:
    one row per product type, in order of first occurrence; the default
    ordering of the model plays no part in a grouped query. *)
Definition allocation_groups (st : Store) (customer_id : string) : dict Q :=
  sum_by Investment.product_type Investment.current_value
    (List.filter (fun i => String.eqb (Investment.customer i) customer_id)
       (investments st)).

Definition allocation_entry (total_portfolio : Q) (item : string * Q)
  : result AllocationEntry.t :=
  percentage ←
    (if Qltb 0 total_portfolio
     then q ← py_div (snd item) total_portfolio; Ok (py_round2 (q * 100))
     else Ok 0%Q);
  Ok {| AllocationEntry.product_type := normalize (fst item);
        AllocationEntry.value := snd item;
        AllocationEntry.percentage := percentage |}.

Definition get_portfolio_allocation (st : Store) (customer_id : string)
  : result (Q * list AllocationEntry.t) :=
  let allocation := allocation_groups st customer_id in
  let total_portfolio := py_sum (map snd allocation) in
  entries ← mapR (allocation_entry total_portfolio) allocation;
  Ok (total_portfolio, entries).

End DataService.

(** ** [chatbot/gemini_service.py] *)

(** What the generation service hands back: the parts of the first candidate
    and the outcome of reading [response.text]. *)
Module GenResponse.
Record t : Type := mk {
  parts : list string;
  text : result string }.
End GenResponse.

(** One entry of the conversation history. *)
Module HistoryEntry.
Record t : Type := mk {
  role : string;
  content : string;
  thought_signature : option string;
  timestamp : Z }.
End HistoryEntry.

(** The content of the generation prompt. The prompt text is a fixed
    rendering of these fields; the model keeps them apart. *)
Module GenerationRequest.
Record t : Type := mk {
  customer_profile : CustomerDict.t;
  transactions : list TransactionDict.t;
  investments : list InvestmentDict.t;
  user_query : string;
  instruction : string }.
End GenerationRequest.

Inductive Prompt : Type :=
  | IntentPrompt (text : string)
  | DetailedPrompt (request : GenerationRequest.t).

(** The external text-generation service: [model.generate_content(prompt)]
    and [model.start_chat(history).send_message(prompt)], the history being
    (role, content) pairs. Either may raise. *)
Module Gemini.
Record t : Type := mk {
  generate_content : Prompt -> result GenResponse.t;
  send_message : list (string * string) -> Prompt -> result GenResponse.t }.
End Gemini.

Module AIResponse.
Record t : Type := mk {
  response : string;
  thought_signature : option string;
  model_used : option string;
  error : option string }.
End AIResponse.

Module GeminiService.

Definition model_name : string := "gemini-2.0-flash".

Definition intent_prompt (query : string) : string :=
  ("Classify this banking query into ONE intent:
- transaction_analysis: spending/expenses questions
- investment_overview: portfolio/returns questions
- recommendation: seeking advice
- general_query: other questions
- summary: financial overview requests

Query: " ++ query ++ "

Intent (one word):")%string.

(** The try block of [classify_intent]. *)
Definition classify_intent_try (api : Gemini.t) (query : string) : result string :=
  response ← Gemini.generate_content api (IntentPrompt (intent_prompt query));
  match GenResponse.parts response with
  | _ :: _ =>
      text ← GenResponse.text response;
      Ok (PyStr.lower (PyStr.strip text))
  | [] => Ok "general_query"%string
  end.

Definition classify_intent (api : Gemini.t) (query : string) : string :=
  match classify_intent_try api query with
  | Ok intent => intent
  | Raise _ => "general_query"%string
  end.

Definition empty_output_text : string :=
  "I'm having trouble thinking of a detailed response. Could you ask differently?".

Definition exception_text : string :=
  "Oops, technical glitch! 😅 Try again in a moment.".

Definition welcome_instruction : string :=
  "Start with a friendly welcome to the user by name.".

Definition no_greeting_instruction : string :=
  "Jump straight into the answer. Do NOT greet the user again.".

(** [l[-n:]] *)
Definition last_n {A : Type} (n : nat) (l : list A) : list A :=
  drop (length l - n) l.

Definition _humanize_response (response : string) : string :=
  PyStr.strip response.

(** The generation call of [generate_response]: a chat carrying the prior
    turns when there are some, a single prompt otherwise. *)
Definition call_model (api : Gemini.t) (chat_history : list (string * string))
    (current_query : Prompt) : result GenResponse.t :=
  match chat_history with
  | _ :: _ => Gemini.send_message api chat_history current_query
  | [] => Gemini.generate_content api current_query
  end.

(** The try block of [generate_response]. *)
Definition generate_response_try (api : Gemini.t)
    (chat_history : list (string * string)) (current_query : Prompt)
  : result AIResponse.t :=
  response ← call_model api chat_history current_query;
  response_text ←
    match GenResponse.parts response with
    | _ :: _ => text ← GenResponse.text response; Ok (_humanize_response text)
    | [] => Ok empty_output_text
    end;
  Ok {| AIResponse.response := response_text;
        AIResponse.thought_signature := None;
        AIResponse.model_used := Some model_name;
        AIResponse.error := None |}.

Definition generate_response (api : Gemini.t) (user_query : string)
    (customer_profile : CustomerDict.t) (context_data : CustomerContext.t)
    (conversation_history : list HistoryEntry.t)
    (previous_thought_signature : option string) : AIResponse.t :=
  let is_first_message := (length conversation_history <=? 1)%nat in
  let chat_history :=
    map (fun msg =>
           (if String.eqb (HistoryEntry.role msg) "user"
            then "user"%string else "model"%string,
            HistoryEntry.content msg))
        (last_n 8 conversation_history) in
  let instruction :=
    if is_first_message then welcome_instruction else no_greeting_instruction in
  let current_query :=
    DetailedPrompt
    {| GenerationRequest.customer_profile := customer_profile;
       GenerationRequest.transactions := take 10 (CustomerContext.transactions context_data);
       GenerationRequest.investments := CustomerContext.investments context_data;
       GenerationRequest.user_query := user_query;
       GenerationRequest.instruction := instruction |} in
  match generate_response_try api chat_history current_query with
  | Ok r => r
  | Raise e =>
      {| AIResponse.response := exception_text;
         AIResponse.thought_signature := None;
         AIResponse.model_used := None;
         AIResponse.error := Some (exn_message e) |}
  end.

Definition all_suggestions : dict (list string) :=
  [ ("transaction_analysis",
     [ "Break down my spending by category";
       "Were there any large, one-time expenses?";
       "How does my spending compare to my income?" ]);
    ("investment_overview",
     [ "Which investment has the highest return?";
       "What's the risk level of my overall portfolio?";
       "Tell me more about my worst-performing asset." ]);
    ("recommendation",
     [ "Based on my risk profile, what should I buy next?";
       "I have ₹50,000 to invest, what do you suggest?";
       "How can I better align my portfolio with my goals?" ]);
    ("summary",
     [ "Give me a detailed financial health report.";
       "What are the top 3 insights from my data?";
       "Summarize my financial situation in one paragraph." ]);
    ("general_query",
     [ "Analyze my spending habits.";
       "Give me a deep dive into my investments.";
       "What's one thing I could do better financially?" ]) ]%string.

(** [random_sample] stands for [random.sample]. *)
Definition generate_follow_up_suggestions
    (random_sample : list string -> nat -> list string) (intent : string)
  : list string :=
  let suggestions :=
    dict_get intent all_suggestions (dict_get "general_query" all_suggestions []) in
  random_sample suggestions (Nat.min 3 (length suggestions)).

(** The five intents the classification prompt names. *)
Definition known_intents : list string :=
  [ "transaction_analysis"; "investment_overview"; "recommendation";
    "general_query"; "summary" ]%string.

End GeminiService.

(** ** [chatbot/views.py] *)

(** Code that uses the record store: a state-and-exception monad. A raised
    exception keeps the store as it was when it was raised. *)
Definition M (A : Type) : Type := Store -> result A * Store.

#[global] Instance M_ret : MRet M := fun A a st => (Ok a, st).
#[global] Instance M_bind : MBind M := fun A B f m st =>
  match m st with
  | (Ok a, st') => f a st'
  | (Raise e, st') => (Raise e, st')
  end.

Definition lift {A : Type} (r : result A) : M A := fun st => (r, st).
Definition gets {A : Type} (f : Store -> A) : M A := fun st => (Ok (f st), st).
Definition modify (f : Store -> Store) : M unit := fun st => (Ok tt, f st).

(** [try: body except Exception as e: handler(e)] *)
Definition try_except {A : Type} (body : M A) (handler : exn -> M A) : M A :=
  fun st =>
    match body st with
    | (Raise e, st') => handler e st'
    | r => r
    end.

Definition set_transactions (f : list Transaction.t -> list Transaction.t)
    (st : Store) : Store :=
  {| customers := customers st; transactions := f (transactions st);
     investments := investments st; conversations := conversations st;
     messages := messages st; uploaded_files := uploaded_files st |}.

Definition set_investments (f : list Investment.t -> list Investment.t)
    (st : Store) : Store :=
  {| customers := customers st; transactions := transactions st;
     investments := f (investments st); conversations := conversations st;
     messages := messages st; uploaded_files := uploaded_files st |}.

Definition set_conversations
    (f : gmap string ChatConversation.t -> gmap string ChatConversation.t)
    (st : Store) : Store :=
  {| customers := customers st; transactions := transactions st;
     investments := investments st; conversations := f (conversations st);
     messages := messages st; uploaded_files := uploaded_files st |}.

Definition set_messages (f : list ChatMessage.t -> list ChatMessage.t)
    (st : Store) : Store :=
  {| customers := customers st; transactions := transactions st;
     investments := investments st; conversations := conversations st;
     messages := f (messages st); uploaded_files := uploaded_files st |}.

Definition set_uploaded_files (f : list UploadedFile.t -> list UploadedFile.t)
    (st : Store) : Store :=
  {| customers := customers st; transactions := transactions st;
     investments := investments st; conversations := conversations st;
     messages := messages st; uploaded_files := f (uploaded_files st) |}.

(** What a request handler takes from outside the store: the generation
    service, the [uuid.uuid4()] drawn for a new conversation, the clock
    readings behind [auto_now_add], today's date and [random.sample]. *)
Module World.
Record t : Type := mk {
  gemini : Gemini.t;
  uuid4 : string;
  conversation_time : Z;
  user_message_time : Z;
  assistant_message_time : Z;
  today : Z;
  random_sample : list string -> nat -> list string }.
End World.

Inductive Body : Type :=
  | ErrorBody (error : string)
  | FieldErrors (fields : list string)
  | ChatBody (conversation_id response intent : string)
      (suggestions : list string) (transaction_count investment_count : nat)
  | UploadBody (message : string) (records_imported : Z).

Module Response.
Record t : Type := mk {
  status : Z;
  body : Body }.
End Response.

Definition HTTP_200_OK : Z := 200.
Definition HTTP_201_CREATED : Z := 201.
Definition HTTP_400_BAD_REQUEST : Z := 400.
Definition HTTP_404_NOT_FOUND : Z := 404.
Definition HTTP_500_INTERNAL_SERVER_ERROR : Z := 500.

(** The body of a chat request; [None] is an absent or null field. *)
Module ChatRequest.
Record t : Type := mk {
  customer_id : option string;
  message : option string;
  conversation_id : option string }.
End ChatRequest.

Module ValidatedChat.
Record t : Type := mk {
  customer_id : string;
  message : string;
  conversation_id : option string }.
End ValidatedChat.

(** A serializer [CharField]: surrounding whitespace is trimmed and a blank
    value is refused; an absent value is refused when the field is required. *)
Definition char_field (required : bool) (value : option string)
  : result (option string) :=
  match value with
  | None =>
      if required then Raise (ValidationError "This field is required.")
      else Ok None
  | Some s =>
      match PyStr.strip s with
      | EmptyString => Raise (ValidationError "This field may not be blank.")
      | s' => Ok (Some s')
      end
  end.

(** [ChatRequestSerializer(data).is_valid()]: the validated data, or the
    names of the fields in error. *)
Definition ChatRequestSerializer (data : ChatRequest.t)
  : list string + ValidatedChat.t :=
  match char_field true (ChatRequest.customer_id data),
        char_field true (ChatRequest.message data),
        char_field false (ChatRequest.conversation_id data) with
  | Ok (Some customer_id), Ok (Some message), Ok conversation_id =>
      inr {| ValidatedChat.customer_id := customer_id;
             ValidatedChat.message := message;
             ValidatedChat.conversation_id := conversation_id |}
  | c, m, k =>
      inl ((match c with Ok (Some _) => [] | _ => ["customer_id"%string] end)
           ++ (match m with Ok (Some _) => [] | _ => ["message"%string] end)
           ++ (match k with Ok _ => [] | _ => ["conversation_id"%string] end))
  end.

Definition sorted_asc {A : Type} (key : A -> Q) (l : list A) : list A :=
  sorted_desc (fun x => (- key x)%Q) l.

Module ChatAPIView.

(** The record of a new conversation: the drawn key, this customer, the
    timestamps set on creation, active by default. *)
Definition new_conversation (w : World.t) (customer : Customer.t)
  : ChatConversation.t :=
  {| ChatConversation.conversation_id := World.uuid4 w;
     ChatConversation.customer := Customer.customer_id customer;
     ChatConversation.started_at := World.conversation_time w;
     ChatConversation.last_activity := World.conversation_time w;
     ChatConversation.is_active := true |}.

(** [ChatConversation.objects.create(conversation_id=str(uuid.uuid4()),
    customer=customer)]; the unique constraint on [conversation_id]
    refuses a key that is already stored. *)
Definition _create_new_conversation (w : World.t) (customer : Customer.t)
  : M ChatConversation.t :=
  fun st =>
    let conversation := new_conversation w customer in
    match conversations st !! World.uuid4 w with
    | Some _ => (Raise (IntegrityError (World.uuid4 w)), st)
    | None =>
        (Ok conversation,
         set_conversations (insert (World.uuid4 w) conversation) st)
    end.

(** [ChatConversation.objects.get(conversation_id=..., customer=customer)];
    [None] is [DoesNotExist]. *)
Definition get_conversation (conversation_id : string) (customer : Customer.t)
  : M (option ChatConversation.t) :=
  gets (fun st =>
          match conversations st !! conversation_id with
          | Some c =>
              if String.eqb (ChatConversation.customer c)
                            (Customer.customer_id customer)
              then Some c else None
          | None => None
          end).

(** [ChatMessage.objects.create(...)] *)
Definition create_message (msg : ChatMessage.t) : M ChatMessage.t :=
  _ ← modify (set_messages (fun ms => ms ++ [msg]));
  mret msg.

Definition _get_conversation_history (conversation : ChatConversation.t)
  : M (list HistoryEntry.t) :=
  gets (fun st =>
          map (fun msg =>
                 {| HistoryEntry.role := ChatMessage.role msg;
                    HistoryEntry.content := ChatMessage.content msg;
                    HistoryEntry.thought_signature := ChatMessage.thought_signature msg;
                    HistoryEntry.timestamp := ChatMessage.timestamp msg |})
              (sorted_asc (fun msg => inject_Z (ChatMessage.timestamp msg))
                 (List.filter
                    (fun msg => String.eqb (ChatMessage.conversation msg)
                                  (ChatConversation.conversation_id conversation))
                    (messages st)))).

(** The user message of a request, as [post] stores it. *)
Definition user_message (w : World.t) (data : ValidatedChat.t)
    (conversation : ChatConversation.t) : ChatMessage.t :=
  {| ChatMessage.conversation := ChatConversation.conversation_id conversation;
     ChatMessage.role := "user";
     ChatMessage.content := ValidatedChat.message data;
     ChatMessage.timestamp := World.user_message_time w;
     ChatMessage.intent := None;
     ChatMessage.data_sources := [];
     ChatMessage.thought_signature := None |}.

(** The assistant message of a request, as [post] stores it. *)
Definition assistant_message (w : World.t) (conversation : ChatConversation.t)
    (ai_response : AIResponse.t) (intent : string) : ChatMessage.t :=
  {| ChatMessage.conversation := ChatConversation.conversation_id conversation;
     ChatMessage.role := "assistant";
     ChatMessage.content := AIResponse.response ai_response;
     ChatMessage.timestamp := World.assistant_message_time w;
     ChatMessage.intent := Some intent;
     ChatMessage.data_sources :=
       ["transactions"; "investments"; "customer_profile"]%string;
     ChatMessage.thought_signature := AIResponse.thought_signature ai_response |}.

(** The block "Get or create conversation" of [post]. *)
Definition get_or_create_conversation (w : World.t)
    (conversation_id : option string) (customer : Customer.t)
  : M ChatConversation.t :=
  match conversation_id with
  | Some (String _ _ as key) =>
      existing ← get_conversation key customer;
      match existing with
      | Some conversation => mret conversation
      | None => _create_new_conversation w customer
      end
  | _ => _create_new_conversation w customer
  end.

Definition post (w : World.t) (request : ChatRequest.t) : M Response.t :=
  match ChatRequestSerializer request with
  | inl errors =>
      mret (Response.mk HTTP_400_BAD_REQUEST (FieldErrors errors))
  | inr data =>
      let customer_id := ValidatedChat.customer_id data in
      let user_message := ValidatedChat.message data in
      let conversation_id := ValidatedChat.conversation_id data in
      found ← gets (fun st => customers st !! customer_id);
      match found with
      | None =>
          mret (Response.mk HTTP_404_NOT_FOUND (ErrorBody "Customer not found"))
      | Some customer =>
          conversation ← get_or_create_conversation w conversation_id customer;
          user_msg ← create_message (ChatAPIView.user_message w data conversation);
          conversation_history ← _get_conversation_history conversation;
          let intent := GeminiService.classify_intent (World.gemini w) user_message in
          context_data ←
            (fun st => (DataService.get_customer_context st (World.today w) customer_id, st));
          let previous_thought :=
            match List.find (fun msg => String.eqb (HistoryEntry.role msg) "assistant")
                            (rev conversation_history) with
            | Some last_assistant_msg => HistoryEntry.thought_signature last_assistant_msg
            | None => None
            end in
          context ←
            match context_data with
            | Some context => mret context
            | None => lift (Raise (KeyError "customer"))
            end;
          let ai_response :=
            GeminiService.generate_response (World.gemini w) user_message
              (CustomerContext.customer context) context conversation_history
              previous_thought in
          assistant_msg ← create_message
            (ChatAPIView.assistant_message w conversation ai_response intent);
          let suggestions :=
            GeminiService.generate_follow_up_suggestions (World.random_sample w) intent in
          mret (Response.mk HTTP_200_OK
                  (ChatBody (ChatConversation.conversation_id conversation)
                     (AIResponse.response ai_response) intent suggestions
                     (length (CustomerContext.transactions context))
                     (length (CustomerContext.investments context))))
      end
  end.

End ChatAPIView.

(** *** Upload and bulk import *)

(** [row[key]] *)
Definition row_item (row : Row) (key : string) : result Cell :=
  match row !! key with
  | Some cell => Ok cell
  | None => Raise (KeyError key)
  end.

(** [row.get(key, default)] *)
Definition row_get (row : Row) (key : string) (default : Cell) : Cell :=
  match row !! key with
  | Some cell => cell
  | None => default
  end.

(** What a model field makes of the cell assigned to it. *)
Definition as_str (field : string) (cell : Cell) : result string :=
  match cell with
  | CStr s => Ok s
  | _ => Raise (ValidationError field)
  end.

Definition as_num (field : string) (cell : Cell) : result Q :=
  match cell with
  | CNum q => Ok q
  | _ => Raise (ValidationError field)
  end.

Definition as_date (field : string) (cell : Cell) : result Z :=
  match cell with
  | CDate d => Ok d
  | _ => Raise (ValidationError field)
  end.

Definition find_transaction (transaction_id : string) (st : Store)
  : option Transaction.t :=
  List.find (fun t => String.eqb (Transaction.transaction_id t) transaction_id)
            (transactions st).

Definition find_investment (investment_id : string) (st : Store)
  : option Investment.t :=
  List.find (fun i => String.eqb (Investment.investment_id i) investment_id)
            (investments st).

(** [Transaction.objects.get_or_create(transaction_id=..., defaults={...})]:
    the stored record with this key if there is one, and only otherwise a new
    record made of the key and the defaults. *)
Definition transaction_get_or_create (transaction_id : Cell)
    (defaults : result Transaction.t) : M (Transaction.t * bool) :=
  key ← lift (as_str "transaction_id" transaction_id);
  existing ← gets (find_transaction key);
  match existing with
  | Some t => mret (t, false)
  | None =>
      t ← lift defaults;
      _ ← modify (set_transactions (fun ts => ts ++ [t]));
      mret (t, true)
  end.

Definition investment_get_or_create (investment_id : Cell)
    (defaults : result Investment.t) : M (Investment.t * bool) :=
  key ← lift (as_str "investment_id" investment_id);
  existing ← gets (find_investment key);
  match existing with
  | Some i => mret (i, false)
  | None =>
      i ← lift defaults;
      _ ← modify (set_investments (fun l => l ++ [i]));
      mret (i, true)
  end.

(** The body of the loop over transaction rows. *)
Definition import_transaction (customer : Customer.t) (row : Row) : M unit :=
  transaction_id ← lift (row_item row "transaction_id");
  date ← lift (row_item row "date");
  category ← lift (row_item row "category");
  merchant ← lift (row_item row "merchant");
  amount ← lift (row_item row "amount");
  let payment_method := row_get row "payment_method" (CStr "upi") in
  let description := row_get row "description" (CStr "") in
  _ ← transaction_get_or_create transaction_id
        (k ← as_str "transaction_id" transaction_id;
         d ← as_date "date" date;
         c ← as_str "category" category;
         m ← as_str "merchant" merchant;
         a ← as_num "amount" amount;
         p ← as_str "payment_method" payment_method;
         s ← as_str "description" description;
         Ok {| Transaction.transaction_id := k;
               Transaction.customer := Customer.customer_id customer;
               Transaction.date := d;
               Transaction.category := c;
               Transaction.merchant := m;
               Transaction.amount := a;
               Transaction.payment_method := p;
               Transaction.description := s |});
  mret tt.

(** The body of the loop over investment rows. *)
Definition import_investment (customer : Customer.t) (row : Row) : M unit :=
  investment_id ← lift (row_item row "investment_id");
  product_type ← lift (row_item row "product_type");
  product_name ← lift (row_item row "product_name");
  purchase_date ← lift (row_item row "purchase_date");
  invested_amount ← lift (row_item row "invested_amount");
  current_value ← lift (row_item row "current_value");
  let units := row_get row "units" (CNum 0) in
  let purchase_nav := row_get row "purchase_nav" (CNum 0) in
  let current_nav := row_get row "current_nav" (CNum 0) in
  returns_absolute ← lift (row_item row "returns_absolute");
  returns_percentage ← lift (row_item row "returns_percentage");
  risk_level ← lift (row_item row "risk_level");
  _ ← investment_get_or_create investment_id
        (k ← as_str "investment_id" investment_id;
         pt ← as_str "product_type" product_type;
         pn ← as_str "product_name" product_name;
         pd ← as_date "purchase_date" purchase_date;
         ia ← as_num "invested_amount" invested_amount;
         cv ← as_num "current_value" current_value;
         u ← as_num "units" units;
         pnav ← as_num "purchase_nav" purchase_nav;
         cnav ← as_num "current_nav" current_nav;
         ra ← as_num "returns_absolute" returns_absolute;
         rp ← as_num "returns_percentage" returns_percentage;
         rl ← as_str "risk_level" risk_level;
         Ok {| Investment.investment_id := k;
               Investment.customer := Customer.customer_id customer;
               Investment.product_type := pt;
               Investment.product_name := pn;
               Investment.purchase_date := pd;
               Investment.invested_amount := ia;
               Investment.current_value := cv;
               Investment.units := u;
               Investment.purchase_nav := pnav;
               Investment.current_nav := cnav;
               Investment.returns_absolute := ra;
               Investment.returns_percentage := rp;
               Investment.risk_level := rl |});
  mret tt.

(** [for _, row in df.iterrows(): body(row); records_imported += 1] *)
Fixpoint import_loop (body : Row -> M unit) (rows : list Row)
    (records_imported : Z) : M Z :=
  match rows with
  | [] => mret records_imported
  | row :: rows' =>
      _ ← body row;
      import_loop body rows' (records_imported + 1)
  end.

Definition process_uploaded_file (uploaded_file : UploadedFile.t)
    (customer : Customer.t) : M Z :=
  df ← lift (File.read_csv (UploadedFile.file_path uploaded_file));
  let records_imported := 0 in
  if String.eqb (UploadedFile.file_type uploaded_file) "transaction"
  then import_loop (import_transaction customer) df records_imported
  else if String.eqb (UploadedFile.file_type uploaded_file) "investment"
  then import_loop (import_investment customer) df records_imported
  else mret records_imported.

(** The form of an upload request; [None] is an absent field. *)
Module UploadRequest.
Record t : Type := mk {
  file : option File.t;
  file_type : option string;
  customer_id : option string }.
End UploadRequest.

Definition truthy_field (v : option string) : bool :=
  match v with
  | Some s => PyStr.truthy s
  | None => false
  end.

(** [UploadedFile.objects.create(...)]: the new row and its place in the
    table. *)
Definition uploaded_file_create (uploaded_file : UploadedFile.t) : M nat :=
  pk ← gets (fun st => length (uploaded_files st));
  _ ← modify (set_uploaded_files (fun l => l ++ [uploaded_file]));
  mret pk.

(** [uploaded_file.save()] *)
Definition uploaded_file_save (pk : nat) (uploaded_file : UploadedFile.t) : M unit :=
  modify (set_uploaded_files (fun l => <[pk := uploaded_file]> l)).

Definition upload_file (request : UploadRequest.t) : M Response.t :=
  match UploadRequest.file request with
  | None =>
      mret (Response.mk HTTP_400_BAD_REQUEST (ErrorBody "No file provided"))
  | Some file =>
      if negb (truthy_field (UploadRequest.file_type request))
         || negb (truthy_field (UploadRequest.customer_id request))
      then mret (Response.mk HTTP_400_BAD_REQUEST
                   (ErrorBody "file_type and customer_id are required"))
      else
        let file_type := default ""%string (UploadRequest.file_type request) in
        let customer_id := default ""%string (UploadRequest.customer_id request) in
        found ← gets (fun st => customers st !! customer_id);
        match found with
        | None =>
            mret (Response.mk HTTP_404_NOT_FOUND (ErrorBody "Customer not found"))
        | Some customer =>
            let uploaded_file :=
              {| UploadedFile.file_name := File.name file;
                 UploadedFile.file_type := file_type;
                 UploadedFile.file_path := file;
                 UploadedFile.uploaded_by := Customer.customer_id customer;
                 UploadedFile.processed := false;
                 UploadedFile.records_imported := 0 |} in
            pk ← uploaded_file_create uploaded_file;
            try_except
              (records_imported ← process_uploaded_file uploaded_file customer;
               _ ← uploaded_file_save pk
                     {| UploadedFile.file_name := UploadedFile.file_name uploaded_file;
                        UploadedFile.file_type := UploadedFile.file_type uploaded_file;
                        UploadedFile.file_path := UploadedFile.file_path uploaded_file;
                        UploadedFile.uploaded_by := UploadedFile.uploaded_by uploaded_file;
                        UploadedFile.processed := true;
                        UploadedFile.records_imported := records_imported |};
               mret (Response.mk HTTP_201_CREATED
                       (UploadBody "File uploaded and processed successfully"
                                   records_imported)))
              (fun e =>
                 mret (Response.mk HTTP_500_INTERNAL_SERVER_ERROR
                         (ErrorBody ("Error processing file: " ++ exn_message e)%string)))
        end
  end.

(** ** Rows that carry the required columns *)

Definition has_columns (columns : list string) (row : Row) : Prop :=
  Forall (fun column => is_Some (row !! column)) columns.

(** The columns the transaction loop reads with [row[...]]. *)
Definition transaction_columns : list string :=
  [ "transaction_id"; "date"; "category"; "merchant"; "amount" ]%string.

(** The columns the investment loop reads with [row[...]]. *)
Definition investment_columns : list string :=
  [ "investment_id"; "product_type"; "product_name"; "purchase_date";
    "invested_amount"; "current_value"; "returns_absolute";
    "returns_percentage"; "risk_level" ]%string.

Definition text_cell (row : Row) (column : string) : Prop :=
  exists s, row !! column = Some (CStr s).

Definition number_cell (row : Row) (column : string) : Prop :=
  exists q, row !! column = Some (CNum q).

Definition date_cell (row : Row) (column : string) : Prop :=
  exists d, row !! column = Some (CDate d).

Definition optional_cell (kind : Row -> string -> Prop) (row : Row)
    (column : string) : Prop :=
  row !! column = None \/ kind row column.

(** A row from which a transaction can be made. *)
Definition transaction_row (row : Row) : Prop :=
  text_cell row "transaction_id"
  /\ date_cell row "date"
  /\ text_cell row "category"
  /\ text_cell row "merchant"
  /\ number_cell row "amount"
  /\ optional_cell text_cell row "payment_method"
  /\ optional_cell text_cell row "description".

(** A row from which an investment can be made. *)
Definition investment_row (row : Row) : Prop :=
  text_cell row "investment_id"
  /\ text_cell row "product_type"
  /\ text_cell row "product_name"
  /\ date_cell row "purchase_date"
  /\ number_cell row "invested_amount"
  /\ number_cell row "current_value"
  /\ optional_cell number_cell row "units"
  /\ optional_cell number_cell row "purchase_nav"
  /\ optional_cell number_cell row "current_nav"
  /\ number_cell row "returns_absolute"
  /\ number_cell row "returns_percentage"
  /\ text_cell row "risk_level".

(** Every transaction and investment stored in [st] is stored in [st1],
    unchanged, under the same key, and the other tables are the same. *)
Definition records_kept (st st1 : Store) : Prop :=
  (forall k t, find_transaction k st = Some t -> find_transaction k st1 = Some t)
  /\ (forall k i, find_investment k st = Some i -> find_investment k st1 = Some i)
  /\ customers st1 = customers st
  /\ conversations st1 = conversations st
  /\ messages st1 = messages st
  /\ uploaded_files st1 = uploaded_files st.


(** ** Outcomes of the generation call *)


(** The generation call returns empty output, whatever it is asked. *)
Definition generation_empty (api : Gemini.t) : Prop :=
  forall chat_history current_query,
    exists r, GeminiService.call_model api chat_history current_query = Ok r
              /\ GenResponse.parts r = [].


(** The response text of a chat outcome, when there is one. *)
Definition response_text (outcome : result Response.t * Store) : option string :=
  match outcome with
  | (Ok {| Response.body := ChatBody _ response _ _ _ _ |}, _) => Some response
  | _ => None
  end.

(** ** The spec's formulas, for comparison with the code *)

(** Monthly average in the spec's words:
    total spend / max(1, days-span-of-retrieved-set / 30). *)
Definition spec_monthly_average (txs : list Transaction.t) : Q :=
  (py_sum (map Transaction.amount txs)
   / Qmax 1 (inject_Z (DataService.days_span (map Transaction.date txs)) / 30))%Q.

(** Return percentage in the spec's words: 0 exactly when total invested is 0,
    otherwise (current - invested) / invested * 100. *)
Definition spec_return_percentage (invs : list Investment.t) (p : Q) : Prop :=
  let invested := py_sum (map Investment.invested_amount invs) in
  let current := py_sum (map Investment.current_value invs) in
  ((p == 0 <-> invested == 0)
   /\ (~ invested == 0 -> p == (current - invested) / invested * 100))%Q.

(** Category breakdown in the spec's words: the sum of the amounts of all
    retrieved transactions whose category normalizes to [name]. *)
Definition spec_category_total (txs : list Transaction.t) (name : string) : Q :=
  py_sum (map Transaction.amount
              (rows_of (fun t => normalize (Transaction.category t)) name txs)).

(** ** Sample data *)

Module Sample.

Definition customer (customer_id name : string) : Customer.t :=
  {| Customer.customer_id := customer_id;
     Customer.name := name;
     Customer.age := 34;
     Customer.risk_level := "medium";
     Customer.annual_income := 1200000;
     Customer.financial_goals := "retirement_planning";
     Customer.account_opening_date := 0;
     Customer.email := "asha@example.com";
     Customer.phone := "5550100" |}.

Definition transaction (transaction_id customer_id : string) (date : Z)
    (category : string) (amount : Q) : Transaction.t :=
  {| Transaction.transaction_id := transaction_id;
     Transaction.customer := customer_id;
     Transaction.date := date;
     Transaction.category := category;
     Transaction.merchant := "Corner Shop";
     Transaction.amount := amount;
     Transaction.payment_method := "upi";
     Transaction.description := "" |}.

Definition investment (investment_id customer_id product_type : string)
    (invested_amount current_value returns_percentage : Q) : Investment.t :=
  {| Investment.investment_id := investment_id;
     Investment.customer := customer_id;
     Investment.product_type := product_type;
     Investment.product_name := "Bluechip Fund";
     Investment.purchase_date := 10;
     Investment.invested_amount := invested_amount;
     Investment.current_value := current_value;
     Investment.units := 0;
     Investment.purchase_nav := 0;
     Investment.current_nav := 0;
     Investment.returns_absolute := current_value - invested_amount;
     Investment.returns_percentage := returns_percentage;
     Investment.risk_level := "medium" |}.

Definition store (txs : list Transaction.t) (invs : list Investment.t) : Store :=
  {| customers := {[ "C1" := customer "C1" "Asha"; "C2" := customer "C2" "Ravi" ]};
     transactions := txs;
     investments := invs;
     conversations := ∅;
     messages := [];
     uploaded_files := [] |}.

(** Two purchases fifteen days apart. *)
Definition fortnight : Store :=
  store [ transaction "T1" "C1" 100 "groceries" 100;
          transaction "T2" "C1" 115 "dining" 200 ] [].

(** A holding whose recorded invested amount is negative. *)
Definition negative_holding : Store :=
  store [] [ investment "I1" "C1" "mutual_fund" (-100) 50 0 ].

(** A holding that is worth exactly what was paid for it. *)
Definition flat_holding : Store :=
  store [] [ investment "I1" "C1" "mutual_fund" 100 100 0 ].

(** Three holdings of equal value in three product types. *)
Definition thirds : Store :=
  store [] [ investment "I1" "C1" "mutual_fund" 100 100 0;
             investment "I2" "C1" "fixed_deposit" 100 100 0;
             investment "I3" "C1" "stocks" 100 100 0 ].

(** The same category spelled in two ways. *)
Definition two_spellings : Store :=
  store [ transaction "T1" "C1" 100 "food_dining" 100;
          transaction "T2" "C1" 115 "Food Dining" 50 ] [].

(** A generation service that raises on every call. *)
Definition gemini_raising : Gemini.t :=
  {| Gemini.generate_content := fun _ => Raise (ServiceError "503 unavailable");
     Gemini.send_message := fun _ _ => Raise (ServiceError "503 unavailable") |}.

(** A generation service that answers every call without parts. *)
Definition gemini_silent : Gemini.t :=
  {| Gemini.generate_content :=
       fun _ => Ok (GenResponse.mk [] (Raise (ServiceError "no parts")));
     Gemini.send_message :=
       fun _ _ => Ok (GenResponse.mk [] (Raise (ServiceError "no parts"))) |}.

(** A generation service that answers every call with [text]. *)
Definition gemini_saying (text : string) : Gemini.t :=
  {| Gemini.generate_content := fun _ => Ok (GenResponse.mk [text] (Ok text));
     Gemini.send_message := fun _ _ => Ok (GenResponse.mk [text] (Ok text)) |}.

Definition world (api : Gemini.t) (uuid4 : string) : World.t :=
  {| World.gemini := api;
     World.uuid4 := uuid4;
     World.conversation_time := 1000;
     World.user_message_time := 1001;
     World.assistant_message_time := 1002;
     World.today := 120;
     World.random_sample := fun l n => take n l |}.

Definition chat_request (customer_id : string) (conversation_id : option string)
  : ChatRequest.t :=
  {| ChatRequest.customer_id := Some customer_id;
     ChatRequest.message := Some "How much did I spend on dining?"%string;
     ChatRequest.conversation_id := conversation_id |}.

(** A store in which customer C2 owns the conversation with key "k-ravi". *)
Definition with_conversation : Store :=
  set_conversations
    (insert "k-ravi"%string
       {| ChatConversation.conversation_id := "k-ravi";
          ChatConversation.customer := "C2";
          ChatConversation.started_at := 900;
          ChatConversation.last_activity := 900;
          ChatConversation.is_active := true |})
    fortnight.

Definition transaction_row (transaction_id : string) (amount : Q) : Row :=
  {[ "transaction_id"%string := CStr transaction_id;
     "date"%string := CDate 110;
     "category"%string := CStr "groceries";
     "merchant"%string := CStr "Corner Shop";
     "amount"%string := CNum amount ]}.

(** A file of three rows, two of which carry the key T1 of a stored record. *)
Definition transactions_csv : File.t :=
  {| File.name := "transactions.csv";
     File.read_csv := Ok [ transaction_row "T1" 999;
                           transaction_row "T7" 40;
                           transaction_row "T1" 5 ] |}.

Definition uploaded (file : File.t) (file_type : string) : UploadedFile.t :=
  {| UploadedFile.file_name := File.name file;
     UploadedFile.file_type := file_type;
     UploadedFile.file_path := file;
     UploadedFile.uploaded_by := "C1";
     UploadedFile.processed := false;
     UploadedFile.records_imported := 0 |}.

(** The store after customer C1 imported [transactions_csv]. *)
Definition imported : Store :=
  snd (process_uploaded_file (uploaded transactions_csv "transaction")
         (customer "C1" "Asha") fortnight).

Definition upload_request (file : File.t) (file_type : string) : UploadRequest.t :=
  {| UploadRequest.file := Some file;
     UploadRequest.file_type := Some file_type;
     UploadRequest.customer_id := Some "C1"%string |}.

End Sample.

(** * Further code of the repository *)

(** A list in non-increasing order of [key]. *)
Definition descending {A : Type} (key : A -> Q) (l : list A) : Prop :=
  StronglySorted (fun x y => (key y <= key x)%Q) l.

(** A list in non-decreasing order of [key]. *)
Definition ascending {A : Type} (key : A -> Q) (l : list A) : Prop :=
  StronglySorted (fun x y => (key x <= key y)%Q) l.

(** ** [DataService]: filtered queries and roll-ups *)

(** The [filters] dictionary of [query_transactions]; [None] is an absent
    key. *)
Module TransactionFilters.
Record t : Type := mk {
  category : option string;
  start_date : option Z;
  end_date : option Z;
  min_amount : option Q }.
End TransactionFilters.

(** The [filters] dictionary of [query_investments]. *)
Module InvestmentFilters.
Record t : Type := mk {
  product_type : option string;
  risk_level : option string }.
End InvestmentFilters.

(** The dictionary [query_investments] returns per investment. *)
Module InvestmentDetail.
Record t : Type := mk {
  investment_id : string;
  product_type : string;
  product_name : string;
  invested_amount : Q;
  current_value : Q;
  returns_percentage : Q;
  returns_absolute : Q;
  risk_level : string }.
End InvestmentDetail.

(** One entry of [get_spending_by_category]. *)
Module CategorySpending.
Record t : Type := mk {
  category : string;
  total : Q;
  transaction_count : nat }.
End CategorySpending.

(** [queryset.filter(...)] under [if key in filters]: an absent key keeps
    every row. *)
Definition filter_if {A B : Type} (value : option B) (test : B -> A -> bool)
    (queryset : list A) : list A :=
  match value with
  | Some v => List.filter (test v) queryset
  | None => queryset
  end.

Module DataServiceQueries.

Definition query_transactions (st : Store) (customer_id : string)
    (filters : option TransactionFilters.t) : list TransactionDict.t :=
  let queryset :=
    List.filter (fun t => String.eqb (Transaction.customer t) customer_id)
                (transactions st) in
  let queryset :=
    match filters with
    | Some filters =>
        let queryset :=
          filter_if (TransactionFilters.category filters)
            (fun v t => String.eqb (Transaction.category t) v) queryset in
        let queryset :=
          filter_if (TransactionFilters.start_date filters)
            (fun v t => v <=? Transaction.date t) queryset in
        let queryset :=
          filter_if (TransactionFilters.end_date filters)
            (fun v t => Transaction.date t <=? v) queryset in
        filter_if (TransactionFilters.min_amount filters)
          (fun v t => Qle_bool v (Transaction.amount t)) queryset
    | None => queryset
    end in
  map DataService.transaction_dict
      (sorted_desc (fun t => inject_Z (Transaction.date t)) queryset).

Definition investment_detail (i : Investment.t) : InvestmentDetail.t :=
  {| InvestmentDetail.investment_id := Investment.investment_id i;
     InvestmentDetail.product_type := Investment.product_type i;
     InvestmentDetail.product_name := Investment.product_name i;
     InvestmentDetail.invested_amount := Investment.invested_amount i;
     InvestmentDetail.current_value := Investment.current_value i;
     InvestmentDetail.returns_percentage := Investment.returns_percentage i;
     InvestmentDetail.returns_absolute := Investment.returns_absolute i;
     InvestmentDetail.risk_level := Investment.risk_level i |}.

Definition query_investments (st : Store) (customer_id : string)
    (filters : option InvestmentFilters.t) : list InvestmentDetail.t :=
  let queryset :=
    List.filter (fun i => String.eqb (Investment.customer i) customer_id)
                (investments st) in
  let queryset :=
    match filters with
    | Some filters =>
        let queryset :=
          filter_if (InvestmentFilters.product_type filters)
            (fun v i => String.eqb (Investment.product_type i) v) queryset in
        filter_if (InvestmentFilters.risk_level filters)
          (fun v i => String.eqb (Investment.risk_level i) v) queryset
    | None => queryset
    end in
  map investment_detail (sorted_desc Investment.returns_percentage queryset).

(** The transactions [get_spending_by_category] aggregates: those of the
    customer dated within the trailing [months * 30] days. *)
Definition spending_window (st : Store) (today : Z) (customer_id : string)
    (months : Z) : list Transaction.t :=
  let start_date := today - months * 30 in
  List.filter
    (fun t => String.eqb (Transaction.customer t) customer_id
              && (start_date <=? Transaction.date t))
    (transactions st).

(** [get_spending_by_category]: the period label and one entry per raw
    category, [Sum('amount')] and [Count('transaction_id')] of its rows, in
    decreasing order of the sum. *)
Definition get_spending_by_category (st : Store) (today : Z)
    (customer_id : string) (months : Z) : string * list CategorySpending.t :=
  let transactions := spending_window st today customer_id months in
  let category_data :=
    sorted_desc snd
      (sum_by Transaction.category Transaction.amount transactions) in
  (("Last " ++ pretty months ++ " months")%string,
   map (fun item =>
          {| CategorySpending.category := normalize (fst item);
             CategorySpending.total := snd item;
             CategorySpending.transaction_count :=
               length (rows_of Transaction.category (fst item) transactions) |})
       category_data).

End DataServiceQueries.

(** A string that is empty or starts with a character that is no space. *)
Definition clean_head (s : string) : Prop :=
  match s with
  | EmptyString => True
  | String c _ => PyStr.is_space c = false
  end.

(** ** [GeminiService]: the contract of [random.sample] *)

(** [random.sample(population, k)] for [k] within the population: [k]
    elements drawn without replacement. *)
Definition random_sample_contract
    (random_sample : list string -> nat -> list string) : Prop :=
  forall population k,
    (k <= length population)%nat ->
    length (random_sample population k) = k
    /\ random_sample population k ⊆+ population.

(** The bucket of suggestions an intent selects: its own, or the one of
    "general_query" for an intent outside the table. *)
Definition suggestion_bucket (intent : string) : list string :=
  dict_get
    (if bool_decide (intent ∈ GeminiService.known_intents)
     then intent else "general_query"%string)
    GeminiService.all_suggestions [].

(** ** [views.py]: the list views and the two read endpoints *)

Module TransactionViewSet.

(** [get_queryset]; the two arguments are the query parameters
    [customer_id] and [category]. *)
Definition get_queryset (st : Store) (customer_id category : option string)
  : list Transaction.t :=
  let queryset := transactions st in
  let queryset :=
    if truthy_field customer_id
    then List.filter
           (fun t => String.eqb (Transaction.customer t)
                                (default ""%string customer_id))
           queryset
    else queryset in
  let queryset :=
    if truthy_field category
    then List.filter
           (fun t => String.eqb (Transaction.category t)
                                (default ""%string category))
           queryset
    else queryset in
  sorted_desc (fun t => inject_Z (Transaction.date t)) queryset.

End TransactionViewSet.

Module InvestmentViewSet.

Definition get_queryset (st : Store) (customer_id : option string)
  : list Investment.t :=
  let queryset := investments st in
  let queryset :=
    if truthy_field customer_id
    then List.filter
           (fun i => String.eqb (Investment.customer i)
                                (default ""%string customer_id))
           queryset
    else queryset in
  sorted_desc Investment.returns_percentage queryset.

End InvestmentViewSet.

(** The body of the context endpoint. *)
Inductive ContextBody : Type :=
  | ContextData (context : option CustomerContext.t)
  | ContextError (error : string).

(** A message as [ChatMessageSerializer] shows it: the thought signature is
    not among its fields. The [id] that the database assigns is not part of
    the model. *)
Module MessageData.
Record t : Type := mk {
  role : string;
  content : string;
  timestamp : Z;
  intent : option string;
  data_sources : list string }.
End MessageData.

(** A conversation as [ChatConversationSerializer] shows it. *)
Module ConversationData.
Record t : Type := mk {
  conversation_id : string;
  customer : string;
  customer_name : string;
  started_at : Z;
  last_activity : Z;
  is_active : bool;
  messages : list MessageData.t }.
End ConversationData.

(** The body of the conversation-history endpoint. *)
Inductive ConversationBody : Type :=
  | ConversationFound (data : ConversationData.t)
  | ConversationError (error : string).

Module Views.

(** The view [get_customer_context]. *)
Definition get_customer_context (st : Store) (today : Z) (customer_id : string)
  : Z * ContextBody :=
  match DataService.get_customer_context st today customer_id with
  | Ok context => (HTTP_200_OK, ContextData context)
  | Raise e => (HTTP_500_INTERNAL_SERVER_ERROR, ContextError (exn_message e))
  end.

Definition message_data (msg : ChatMessage.t) : MessageData.t :=
  {| MessageData.role := ChatMessage.role msg;
     MessageData.content := ChatMessage.content msg;
     MessageData.timestamp := ChatMessage.timestamp msg;
     MessageData.intent := ChatMessage.intent msg;
     MessageData.data_sources := ChatMessage.data_sources msg |}.

(** The related messages of a conversation, in the model's default order
    [timestamp]. *)
Definition conversation_messages (st : Store) (conversation : ChatConversation.t)
  : list ChatMessage.t :=
  sorted_asc (fun msg => inject_Z (ChatMessage.timestamp msg))
    (List.filter
       (fun msg => String.eqb (ChatMessage.conversation msg)
                              (ChatConversation.conversation_id conversation))
       (messages st)).

(** The view [get_conversation_history]. Reading [customer.name] of a
    conversation whose customer is not stored raises. *)
Definition get_conversation_history (st : Store) (conversation_id : string)
  : result (Z * ConversationBody) :=
  match conversations st !! conversation_id with
  | None =>
      Ok (HTTP_404_NOT_FOUND, ConversationError "Conversation not found")
  | Some conversation =>
      customer ←
        match customers st !! ChatConversation.customer conversation with
        | Some customer => Ok customer
        | None => Raise (ServiceError "Customer matching query does not exist.")
        end;
      Ok (HTTP_200_OK,
          ConversationFound
            {| ConversationData.conversation_id :=
                 ChatConversation.conversation_id conversation;
               ConversationData.customer := ChatConversation.customer conversation;
               ConversationData.customer_name := Customer.name customer;
               ConversationData.started_at := ChatConversation.started_at conversation;
               ConversationData.last_activity :=
                 ChatConversation.last_activity conversation;
               ConversationData.is_active := ChatConversation.is_active conversation;
               ConversationData.messages :=
                 map message_data (conversation_messages st conversation) |})
  end.

End Views.

(** ** The constraints of the record store *)

(** Primary keys are unique and name their record, and every reference to a
    customer or to a conversation points at a stored one. *)
Definition store_coherent (st : Store) : Prop :=
  (forall k c, customers st !! k = Some c -> Customer.customer_id c = k)
  /\ (forall k c, conversations st !! k = Some c ->
        ChatConversation.conversation_id c = k
        /\ is_Some (customers st !! ChatConversation.customer c))
  /\ (forall m, m ∈ messages st ->
        is_Some (conversations st !! ChatMessage.conversation m))
  /\ NoDup (map Transaction.transaction_id (transactions st))
  /\ (forall t, t ∈ transactions st ->
        is_Some (customers st !! Transaction.customer t))
  /\ NoDup (map Investment.investment_id (investments st))
  /\ (forall i, i ∈ investments st ->
        is_Some (customers st !! Investment.customer i))
  /\ (forall u, u ∈ uploaded_files st ->
        is_Some (customers st !! UploadedFile.uploaded_by u)).

(** The world [w] with another generation service. *)
Definition with_gemini (w : World.t) (api : Gemini.t) : World.t :=
  {| World.gemini := api;
     World.uuid4 := World.uuid4 w;
     World.conversation_time := World.conversation_time w;
     World.user_message_time := World.user_message_time w;
     World.assistant_message_time := World.assistant_message_time w;
     World.today := World.today w;
     World.random_sample := World.random_sample w |}.

(** ** More sample data *)

Module Fixture.

(** The snapshot of customer C1 in [Sample.fortnight]. *)
Definition snapshot : CustomerContext.t :=
  {| CustomerContext.customer :=
       DataService.customer_dict (Sample.customer "C1" "Asha");
     CustomerContext.transactions :=
       map DataService.transaction_dict
           (DataService.recent_transactions Sample.fortnight 120 "C1");
     CustomerContext.investments := [];
     CustomerContext.transaction_summary := None;
     CustomerContext.investment_summary := None |}.

(** [n] alternating turns of a conversation. *)
Definition turns (n : nat) : list HistoryEntry.t :=
  map (fun i =>
         {| HistoryEntry.role :=
              if Nat.even i then "user"%string else "assistant"%string;
            HistoryEntry.content := "turn";
            HistoryEntry.thought_signature := None;
            HistoryEntry.timestamp := Z.of_nat i |})
      (seq 0 n).

(** The store after customer C1 opened a conversation with one request. *)
Definition chatted : Store :=
  snd (ChatAPIView.post (Sample.world (Sample.gemini_saying " You spent 200. ") "u-1")
         (Sample.chat_request "C1" None) Sample.fortnight).

(** A generation service that answers like [Sample.gemini_saying] in a chat
    and on the classification prompt, and raises on a generation prompt sent
    outside a chat. *)
Definition gemini_chat_only (text : string) : Gemini.t :=
  {| Gemini.generate_content :=
       fun prompt =>
         match prompt with
         | IntentPrompt _ => Ok (GenResponse.mk [text] (Ok text))
         | DetailedPrompt _ => Raise (ServiceError "503 unavailable")
         end;
     Gemini.send_message := fun _ _ => Ok (GenResponse.mk [text] (Ok text)) |}.


(** A file that brings the new key T7 twice. *)
Definition repeated_csv : File.t :=
  {| File.name := "repeated.csv";
     File.read_csv := Ok [ Sample.transaction_row "T7" 40;
                           Sample.transaction_row "T7" 5 ] |}.

End Fixture.

(** * Verification *)

(** ** String methods on samples *)

Example normalize_food : normalize "food_dining" = "Food Dining".
Proof. reflexivity. Qed.

Example normalize_mixed : normalize "MUTUAL_fund 2x" = "Mutual Fund 2X".
Proof. reflexivity. Qed.

Example strip_lower_intent :
  PyStr.lower (PyStr.strip "  Transaction_Analysis
") = "transaction_analysis".
Proof. reflexivity. Qed.

(** ** Arithmetic facts *)

Section Arithmetic.

Local Open Scope Q_scope.

Lemma Qltb_lt (x y : Q) : Qltb x y = true <-> x < y.
Proof.
  unfold Qltb. rewrite negb_true_iff. split.
  - intros H. apply Qnot_le_lt. intros Hle.
    apply Qle_bool_iff in Hle. congruence.
  - intros H. destruct (Qle_bool y x) eqn:E; [|reflexivity].
    apply Qle_bool_iff in E. exfalso. apply (Qlt_not_le _ _ H E).
Qed.

Lemma Qltb_ge (x y : Q) : Qltb x y = false <-> y <= x.
Proof.
  unfold Qltb. rewrite negb_false_iff. apply Qle_bool_iff.
Qed.

Lemma py_div_ok (a b : Q) : ~ b == 0 -> py_div a b = Ok (a / b).
Proof.
  intros Hb. unfold py_div.
  destruct (Qeq_bool b 0) eqn:E; [|reflexivity].
  apply Qeq_bool_iff in E. contradiction.
Qed.

Lemma or_one_nonzero (x : Q) : ~ or_one x == 0.
Proof.
  unfold or_one. destruct (Qeq_bool x 0) eqn:E.
  - intros H. discriminate H.
  - apply Qeq_bool_neq. exact E.
Qed.

Lemma py_sum_from (l : list Q) (a : Q) :
  fold_left Qplus l a == a + py_sum l.
Proof.
  unfold py_sum. revert a. induction l as [|x l IH]; intros a; simpl.
  - lra.
  - rewrite (IH (a + x)), (IH (0 + x)). lra.
Qed.

Lemma py_sum_cons (x : Q) (l : list Q) : py_sum (x :: l) == x + py_sum l.
Proof.
  unfold py_sum at 1. simpl. rewrite py_sum_from. lra.
Qed.

Lemma py_sum_app (l1 l2 : list Q) : py_sum (l1 ++ l2) == py_sum l1 + py_sum l2.
Proof.
  induction l1 as [|x l1 IH]; simpl.
  - unfold py_sum at 2. simpl. lra.
  - rewrite !py_sum_cons, IH. lra.
Qed.

Lemma max_list_ge (l : list Z) (d : Z) : (d <= max_list d l)%Z.
Proof.
  unfold max_list. revert d. induction l as [|x l IH]; intros d; simpl.
  - lia.
  - specialize (IH (Z.max d x)). lia.
Qed.

Lemma min_list_le (l : list Z) (d : Z) : (min_list d l <= d)%Z.
Proof.
  unfold min_list. revert d. induction l as [|x l IH]; intros d; simpl.
  - lia.
  - specialize (IH (Z.min d x)). lia.
Qed.

Lemma days_span_nonneg (dates : list Z) : (0 <= DataService.days_span dates)%Z.
Proof.
  destruct dates as [|d ds]; simpl; [lia|].
  pose proof (max_list_ge ds d). pose proof (min_list_le ds d). lia.
Qed.

Lemma thirtieth_zero (d : Z) : inject_Z d / 30 == 0 <-> d = 0%Z.
Proof.
  split.
  - intros H. unfold Qeq, Qdiv, Qmult, Qinv in H. simpl in H. lia.
  - intros ->. reflexivity.
Qed.

(** The divisor of the monthly average, case by case. *)
Lemma months_covered_cases (dates : list Z) :
  DataService.months_covered dates ==
    if (DataService.days_span dates =? 0)%Z then 1
    else inject_Z (DataService.days_span dates) / 30.
Proof.
  unfold DataService.months_covered, or_one.
  destruct (Qeq_bool _ 0) eqn:E.
  - apply Qeq_bool_iff in E. apply (proj1 (thirtieth_zero _)) in E.
    rewrite E. reflexivity.
  - apply Qeq_bool_neq in E.
    destruct (Z.eqb_spec (DataService.days_span dates) 0) as [H0|H0].
    + exfalso. apply E. apply (proj2 (thirtieth_zero _)). exact H0.
    + reflexivity.
Qed.

End Arithmetic.

(** ** The summaries never raise *)

Section Summaries.

Local Open Scope Q_scope.

Lemma transaction_summary_value (txs : list Transaction.t) :
  txs <> [] ->
  exists s,
    DataService._calculate_transaction_summary txs = Ok (Some s)
    /\ TransactionSummary.total_spent s = py_sum (map Transaction.amount txs)
    /\ TransactionSummary.monthly_average s =
         py_sum (map Transaction.amount txs)
         / DataService.months_covered (map Transaction.date txs)
    /\ TransactionSummary.category_breakdown s =
         dict_map_keys normalize (DataService.category_spending txs).
Proof.
  intros Hne. destruct txs as [|t txs]; [congruence|].
  unfold DataService._calculate_transaction_summary.
  cbn [map]. rewrite py_div_ok by apply or_one_nonzero.
  eexists. split; [reflexivity|]. cbn. auto.
Qed.

Lemma investment_summary_value (invs : list Investment.t) :
  invs <> [] ->
  exists s,
    DataService._calculate_investment_summary invs = Ok (Some s)
    /\ InvestmentSummary.return_percentage s =
         let invested := py_sum (map Investment.invested_amount invs) in
         let current := py_sum (map Investment.current_value invs) in
         if Qltb 0 invested then (current - invested) / invested * 100 else 0.
Proof.
  intros Hne. destruct invs as [|i invs]; [congruence|].
  unfold DataService._calculate_investment_summary.
  set (l := i :: invs).
  destruct (Qltb 0 (py_sum (map Investment.invested_amount l))) eqn:E.
  - rewrite py_div_ok.
    + eexists. split; [reflexivity|].
      reflexivity.
    + apply Qltb_lt in E. intros H0. rewrite H0 in E.
      apply (Qlt_irrefl 0 E).
  - eexists. split; [reflexivity|].
    reflexivity.
Qed.

Lemma investment_summary_total (invs : list Investment.t) :
  exists r, DataService._calculate_investment_summary invs = Ok r.
Proof.
  destruct invs as [|i invs].
  - exists None. reflexivity.
  - destruct (investment_summary_value (i :: invs)) as (s & Hs & _);
      [discriminate|].
    exists (Some s). exact Hs.
Qed.

Lemma transaction_summary_total (txs : list Transaction.t) :
  exists r, DataService._calculate_transaction_summary txs = Ok r.
Proof.
  destruct txs as [|t txs].
  - exists None. reflexivity.
  - destruct (transaction_summary_value (t :: txs)) as (s & Hs & _);
      [discriminate|].
    exists (Some s). exact Hs.
Qed.

(** The context of a known customer is always produced, with the two
    summaries of the retrieved rows. *)
Lemma get_customer_context_known (st : Store) (today : Z) (cid : string)
    (c : Customer.t) :
  customers st !! cid = Some c ->
  exists ctx,
    DataService.get_customer_context st today cid = Ok (Some ctx)
    /\ CustomerContext.customer ctx = DataService.customer_dict c
    /\ DataService._calculate_transaction_summary
         (DataService.recent_transactions st today cid)
       = Ok (CustomerContext.transaction_summary ctx)
    /\ DataService._calculate_investment_summary
         (DataService.customer_investments st cid)
       = Ok (CustomerContext.investment_summary ctx).
Proof.
  intros Hc. unfold DataService.get_customer_context. rewrite Hc.
  destruct (transaction_summary_total
              (DataService.recent_transactions st today cid)) as [ts Hts].
  destruct (investment_summary_total
              (DataService.customer_investments st cid)) as [ivs Hivs].
  rewrite Hts, Hivs. simpl. eexists. split; [reflexivity|]. simpl. auto.
Qed.

End Summaries.

(** ** Monthly average *)

Section MonthlyAverage.

Local Open Scope Q_scope.

(** C1, as amended. For a known customer with a non-empty retrieved set,
    [get_customer_context] returns a transaction summary whose monthly
    average is the total spend divided by: 1 when the dates span 0 days,
    and days-span / 30 for every other span (for spans of 1 to 29 days
    this is a divisor below 1, not 1). The divisor is never zero, so the
    division never raises. *)
Theorem monthly_average_divisor (st : Store) (today : Z) (cid : string)
    (c : Customer.t) :
  customers st !! cid = Some c ->
  DataService.recent_transactions st today cid <> [] ->
  let txs := DataService.recent_transactions st today cid in
  let days := DataService.days_span (map Transaction.date txs) in
  let divisor := if (days =? 0)%Z then 1 else inject_Z days / 30 in
  exists ctx s,
    DataService.get_customer_context st today cid = Ok (Some ctx)
    /\ CustomerContext.transaction_summary ctx = Some s
    /\ TransactionSummary.total_spent s = py_sum (map Transaction.amount txs)
    /\ TransactionSummary.monthly_average s
       == py_sum (map Transaction.amount txs) / divisor
    /\ ~ divisor == 0.
Proof.
  intros Hc Hne txs days divisor.
  destruct (get_customer_context_known st today cid c Hc)
    as (ctx & Hctx & _ & Hts & _).
  destruct (transaction_summary_value txs Hne) as (s & Hs & Htot & Havg & _).
  fold txs in Hts. rewrite Hs in Hts. injection Hts as Hts.
  exists ctx, s. repeat split; auto.
  - rewrite Havg. subst divisor days.
    rewrite (months_covered_cases (map Transaction.date txs)). reflexivity.
  - subst divisor days.
    rewrite <- (months_covered_cases (map Transaction.date txs)).
    apply or_one_nonzero.
Qed.

Lemma monthly_average_divisor_witness :
  customers Sample.fortnight !! "C1" = Some (Sample.customer "C1" "Asha")
  /\ exists ctx s,
       DataService.get_customer_context Sample.fortnight 120 "C1" = Ok (Some ctx)
       /\ CustomerContext.transaction_summary ctx = Some s
       /\ TransactionSummary.total_spent s = (0 + 200 + 100)
       /\ TransactionSummary.monthly_average s == (0 + 200 + 100) / (15 / 30)
       /\ ~ 15 / 30 == 0.
Proof.
  split; [reflexivity|].
  apply (monthly_average_divisor Sample.fortnight 120 "C1"
           (Sample.customer "C1" "Asha")); [reflexivity | discriminate].
Defined.

(** C1 as the spec words it fails: two purchases fifteen days apart give a
    divisor of 1/2, while max(1, 15/30) is 1. *)
Lemma monthly_average_clamp_counterexample :
  exists ctx s,
    DataService.get_customer_context Sample.fortnight 120 "C1" = Ok (Some ctx)
    /\ CustomerContext.transactions ctx <> []
    /\ CustomerContext.transaction_summary ctx = Some s
    /\ TransactionSummary.monthly_average s == 600
    /\ spec_monthly_average
         (DataService.recent_transactions Sample.fortnight 120 "C1") == 300
    /\ ~ TransactionSummary.monthly_average s
         == spec_monthly_average
              (DataService.recent_transactions Sample.fortnight 120 "C1").
Proof.
  eexists. eexists. split; [vm_compute; reflexivity|].
  split; [discriminate|]. split; [reflexivity|].
  split; [reflexivity|]. split; [reflexivity|].
  vm_compute. discriminate.
Qed.

End MonthlyAverage.

(** ** Return percentage *)

Section ReturnPercentage.

Local Open Scope Q_scope.

(** C2, as amended. For a known customer with at least one investment, the
    investment summary's [return_percentage] is 0 whenever the total
    invested amount is not greater than 0, and is
    (sum of current values - sum of invested amounts) / sum of invested
    amounts * 100 whenever the total invested amount is greater than 0
    (which is 0 as well when the two sums are equal). *)
Theorem return_percentage_guard (st : Store) (today : Z) (cid : string)
    (c : Customer.t) :
  customers st !! cid = Some c ->
  DataService.customer_investments st cid <> [] ->
  let invs := DataService.customer_investments st cid in
  let invested := py_sum (map Investment.invested_amount invs) in
  let current := py_sum (map Investment.current_value invs) in
  exists ctx s,
    DataService.get_customer_context st today cid = Ok (Some ctx)
    /\ CustomerContext.investment_summary ctx = Some s
    /\ (invested <= 0 -> InvestmentSummary.return_percentage s == 0)
    /\ (0 < invested ->
        InvestmentSummary.return_percentage s
        == (current - invested) / invested * 100).
Proof.
  intros Hc Hne invs invested current.
  destruct (get_customer_context_known st today cid c Hc)
    as (ctx & Hctx & _ & _ & Hivs).
  destruct (investment_summary_value invs Hne) as (s & Hs & Hrp).
  fold invs in Hivs. rewrite Hs in Hivs. injection Hivs as Hivs.
  exists ctx, s. split; [exact Hctx|]. split; [auto|].
  cbv zeta in Hrp. fold invested current in Hrp. rewrite Hrp.
  split; intros H.
  - apply Qltb_ge in H. rewrite H. reflexivity.
  - apply Qltb_lt in H. rewrite H. reflexivity.
Qed.

Lemma return_percentage_guard_witness :
  customers Sample.flat_holding !! "C1" = Some (Sample.customer "C1" "Asha")
  /\ exists ctx s,
       DataService.get_customer_context Sample.flat_holding 120 "C1"
       = Ok (Some ctx)
       /\ CustomerContext.investment_summary ctx = Some s
       /\ (0 + 100 <= 0 -> InvestmentSummary.return_percentage s == 0)
       /\ (0 < 0 + 100 ->
           InvestmentSummary.return_percentage s
           == (0 + 100 - (0 + 100)) / (0 + 100) * 100).
Proof.
  split; [reflexivity|].
  apply (return_percentage_guard Sample.flat_holding 120 "C1"
           (Sample.customer "C1" "Asha")); [reflexivity | discriminate].
Defined.

(** C2 as the spec words it fails twice over: a holding worth exactly its
    invested amount has return percentage 0 although the total invested is
    100, and a negative total invested gives 0 where the formula gives
    -150. *)
Lemma return_percentage_counterexample :
  (exists ctx s,
     DataService.get_customer_context Sample.flat_holding 120 "C1"
     = Ok (Some ctx)
     /\ CustomerContext.investment_summary ctx = Some s
     /\ ~ spec_return_percentage
            (DataService.customer_investments Sample.flat_holding "C1")
            (InvestmentSummary.return_percentage s))
  /\ (exists ctx s,
        DataService.get_customer_context Sample.negative_holding 120 "C1"
        = Ok (Some ctx)
        /\ CustomerContext.investment_summary ctx = Some s
        /\ ~ spec_return_percentage
               (DataService.customer_investments Sample.negative_holding "C1")
               (InvestmentSummary.return_percentage s)).
Proof.
  split.
  - eexists. eexists. split; [vm_compute; reflexivity|].
    split; [reflexivity|].
    intros [Hiff _]. destruct Hiff as [H _].
    assert (H0 : 0 == 0) by reflexivity.
    specialize (H H0). vm_compute in H. discriminate H.
  - eexists. eexists. split; [vm_compute; reflexivity|].
    split; [reflexivity|].
    intros [_ Hform].
    assert (Hne : ~ py_sum (map Investment.invested_amount
                              (DataService.customer_investments
                                 Sample.negative_holding "C1")) == 0)
      by (vm_compute; discriminate).
    specialize (Hform Hne). vm_compute in Hform. discriminate Hform.
Qed.

End ReturnPercentage.

(** ** Dictionaries and grouped sums *)

Section Dicts.

Local Open Scope Q_scope.

Lemma dict_get_set {V : Type} (k k' : string) (v default : V) (d : dict V) :
  dict_get k (dict_set k' v d) default =
    if String.eqb k' k then v else dict_get k d default.
Proof.
  induction d as [|[k0 v0] d IH]; simpl.
  - destruct (String.eqb k' k); reflexivity.
  - destruct (String.eqb_spec k0 k') as [->|Hne]; simpl.
    + destruct (String.eqb k' k); reflexivity.
    + destruct (String.eqb_spec k0 k) as [->|Hne0].
      * destruct (String.eqb_spec k' k) as [->|_]; [congruence|reflexivity].
      * exact IH.
Qed.

Lemma dict_set_keys {V : Type} (k : string) (v : V) (d : dict V) :
  map fst (dict_set k v d) =
    if decide (k ∈ map fst d) then map fst d else map fst d ++ [k].
Proof.
  induction d as [|[k0 v0] d IH]; simpl.
  - destruct (decide (k ∈ [])) as [H|_]; [inversion H|reflexivity].
  - destruct (String.eqb_spec k0 k) as [->|Hne]; simpl.
    + destruct (decide (k ∈ k :: map fst d)) as [_|H]; [reflexivity|].
      exfalso. apply H. left.
    + rewrite IH.
      destruct (decide (k ∈ map fst d)) as [Hin|Hnin];
        destruct (decide (k ∈ k0 :: map fst d)) as [Hin'|Hnin'];
        try reflexivity.
      * exfalso. apply Hnin'. right. exact Hin.
      * exfalso. apply elem_of_cons in Hin' as [->|Hin']; [congruence|].
        contradiction.
Qed.

Lemma dict_set_NoDup {V : Type} (k : string) (v : V) (d : dict V) :
  NoDup (map fst d) -> NoDup (map fst (dict_set k v d)).
Proof.
  intros Hnd. rewrite dict_set_keys.
  destruct (decide (k ∈ map fst d)) as [Hin|Hnin]; [exact Hnd|].
  apply NoDup_app. split; [exact Hnd|]. split.
  - intros x Hx Hx'. apply list_elem_of_singleton in Hx'. subst x.
    contradiction.
  - apply NoDup_singleton.
Qed.

Lemma dict_get_lookup {V : Type} (k : string) (v default : V) (d : dict V) :
  NoDup (map fst d) -> (k, v) ∈ d -> dict_get k d default = v.
Proof.
  induction d as [|[k0 v0] d IH]; intros Hnd Hin.
  - inversion Hin.
  - simpl in *. apply NoDup_cons in Hnd as [Hk0 Hnd].
    apply elem_of_cons in Hin as [Heq|Hin].
    + injection Heq as -> ->. rewrite String.eqb_refl. reflexivity.
    + destruct (String.eqb_spec k0 k) as [->|Hne].
      * exfalso. apply Hk0. apply list_elem_of_fmap. exists (k, v). auto.
      * apply IH; assumption.
Qed.

Lemma dict_set_sum (k : string) (x : Q) (d : dict Q) :
  py_sum (map snd (dict_set k (dict_get k d 0 + x) d))
  == py_sum (map snd d) + x.
Proof.
  induction d as [|[k0 v0] d IH]; simpl.
  - rewrite py_sum_cons. unfold py_sum. simpl. lra.
  - destruct (String.eqb_spec k0 k) as [->|Hne]; simpl.
    + rewrite !py_sum_cons. lra.
    + rewrite !py_sum_cons, IH. lra.
Qed.

Section SumBy.

Context {A : Type} (key : A -> string) (val : A -> Q).

Lemma sum_by_get_from (k : string) (l : list A) (acc : dict Q) :
  dict_get k (fold_left (sum_by_step key val) l acc) 0
  == dict_get k acc 0 + py_sum (map val (rows_of key k l)).
Proof.
  revert acc. induction l as [|x l IH]; intros acc; simpl.
  - unfold py_sum. simpl. lra.
  - rewrite IH. unfold sum_by_step. rewrite dict_get_set.
    unfold rows_of. simpl.
    destruct (String.eqb_spec (key x) k) as [Hk|Hk]; simpl.
    + rewrite py_sum_cons, Hk. lra.
    + lra.
Qed.

Lemma sum_by_NoDup_from (l : list A) (acc : dict Q) :
  NoDup (map fst acc) -> NoDup (map fst (fold_left (sum_by_step key val) l acc)).
Proof.
  revert acc. induction l as [|x l IH]; intros acc Hacc; simpl.
  - exact Hacc.
  - apply IH. apply dict_set_NoDup. exact Hacc.
Qed.

Lemma sum_by_total_from (l : list A) (acc : dict Q) :
  py_sum (map snd (fold_left (sum_by_step key val) l acc))
  == py_sum (map snd acc) + py_sum (map val l).
Proof.
  revert acc. induction l as [|x l IH]; intros acc; simpl.
  - unfold py_sum at 3. simpl. lra.
  - rewrite IH. unfold sum_by_step. rewrite dict_set_sum, py_sum_cons. lra.
Qed.

Lemma sum_by_keys_from (l : list A) (acc : dict Q) (k : string) :
  k ∈ map fst (fold_left (sum_by_step key val) l acc) <->
  k ∈ map fst acc \/ k ∈ map key l.
Proof.
  revert acc. induction l as [|x l IH]; intros acc; simpl.
  - split; [auto|]. intros [H|H]; [exact H|inversion H].
  - rewrite IH. unfold sum_by_step. rewrite dict_set_keys.
    destruct (decide (key x ∈ map fst acc)) as [Hin|Hnin].
    + rewrite elem_of_cons. split; [tauto|].
      intros [H|[->|H]]; auto.
    + rewrite elem_of_app, list_elem_of_singleton, elem_of_cons. tauto.
Qed.

(** Every entry of the grouped sum holds the sum of its group. *)
Lemma sum_by_entry (l : list A) (k : string) (v : Q) :
  (k, v) ∈ sum_by key val l -> v == py_sum (map val (rows_of key k l)).
Proof.
  intros Hin. unfold sum_by in *.
  assert (Hnd : NoDup (map fst (fold_left (sum_by_step key val) l [])))
    by (apply sum_by_NoDup_from; constructor).
  rewrite <- (dict_get_lookup k v 0 _ Hnd Hin).
  rewrite sum_by_get_from. simpl. lra.
Qed.

Lemma sum_by_NoDup (l : list A) : NoDup (map fst (sum_by key val l)).
Proof. apply sum_by_NoDup_from. constructor. Qed.

Lemma sum_by_total (l : list A) :
  py_sum (map snd (sum_by key val l)) == py_sum (map val l).
Proof.
  unfold sum_by. rewrite sum_by_total_from.
  unfold py_sum at 1. simpl. lra.
Qed.

Lemma sum_by_keys (l : list A) (k : string) :
  k ∈ map fst (sum_by key val l) <-> k ∈ map key l.
Proof.
  unfold sum_by. rewrite sum_by_keys_from. simpl.
  split; [|auto]. intros [H|H]; [inversion H|exact H].
Qed.

End SumBy.

End Dicts.

(** ** Rounding *)

Section Rounding.

Local Open Scope Q_scope.





End Rounding.

(** ** Portfolio allocation *)

Section PortfolioAllocation.

Local Open Scope Q_scope.





(** Three equal holdings: each share rounds to 33.33 and the percentages
    sum to 99.99. *)
Example portfolio_allocation_thirds :
  exists total entries,
    DataService.get_portfolio_allocation Sample.thirds "C1" = Ok (total, entries)
    /\ map AllocationEntry.product_type entries
       = ["Mutual Fund"; "Fixed Deposit"; "Stocks"]
    /\ Forall (fun e => AllocationEntry.percentage e == 3333 # 100) entries
    /\ py_sum (map AllocationEntry.percentage entries) == 9999 # 100.
Proof.
  eexists. eexists. split; [vm_compute; reflexivity|].
  split; [reflexivity|]. split; [|reflexivity].
  repeat constructor.
Qed.

End PortfolioAllocation.

(** ** Intent classification *)

Section ClassifyIntent.

(** C8, as amended. [classify_intent] returns a string for every query and
    every outcome of the classification call and never raises. It returns
    "general_query" when the call raises, when the response has no parts and
    when reading the response text raises; when the call succeeds with text
    it returns that text stripped and lowercased, whatever it is. *)
Theorem classify_intent_outcomes (api : Gemini.t) (query : string) :
  GeminiService.classify_intent api query =
    match Gemini.generate_content api
            (IntentPrompt (GeminiService.intent_prompt query)) with
    | Raise _ => "general_query"%string
    | Ok response =>
        match GenResponse.parts response, GenResponse.text response with
        | _ :: _, Ok text => PyStr.lower (PyStr.strip text)
        | _, _ => "general_query"%string
        end
    end.
Proof.
  unfold GeminiService.classify_intent, GeminiService.classify_intent_try.
  destruct (Gemini.generate_content api _) as [response|e]; [|reflexivity].
  cbn. destruct (GenResponse.parts response) as [|p ps]; [reflexivity|].
  destruct (GenResponse.text response); reflexivity.
Qed.

(** C8 as the spec words it fails: a reply outside the five intents is
    passed on. *)
Lemma classify_intent_counterexample :
  GeminiService.classify_intent (Sample.gemini_saying " Spending.
") "How much did I spend on dining?" = "spending."%string
  /\ ~ In (GeminiService.classify_intent (Sample.gemini_saying " Spending.
") "How much did I spend on dining?") GeminiService.known_intents.
Proof.
  split; [reflexivity|].
  vm_compute. intros H.
  repeat (destruct H as [H|H]; [discriminate H|]). exact H.
Qed.

(** A reply of whitespace only is passed on as the empty string. *)
Example classify_intent_blank :
  GeminiService.classify_intent (Sample.gemini_saying "  ") "Hello" = ""%string.
Proof. reflexivity. Qed.

End ClassifyIntent.

(** ** The chat endpoint *)

Section Chat.



(** Every generation outcome leaves the thought signature unset. *)
Lemma generate_response_thought (api : Gemini.t) (q : string)
    (profile : CustomerDict.t) (ctx : CustomerContext.t)
    (history : list HistoryEntry.t) (thought : option string) :
  AIResponse.thought_signature
    (GeminiService.generate_response api q profile ctx history thought) = None.
Proof.
  unfold GeminiService.generate_response, GeminiService.generate_response_try.
  destruct (GeminiService.call_model api _ _) as [r|e]; [|reflexivity].
  cbn. destruct (GenResponse.parts r); [reflexivity|].
  destruct (GenResponse.text r); reflexivity.
Qed.

(** The three ways the conversation block can end: the stored conversation of
    this customer under the supplied key, a new conversation under the drawn
    key, or a refused duplicate key. *)
Lemma get_or_create_conversation_cases (w : World.t) (key : option string)
    (customer : Customer.t) (st : Store) :
  (exists k conv,
      key = Some k /\ k <> ""%string
      /\ conversations st !! k = Some conv
      /\ ChatConversation.customer conv = Customer.customer_id customer
      /\ ChatAPIView.get_or_create_conversation w key customer st = (Ok conv, st))
  \/ (conversations st !! World.uuid4 w = None
      /\ ChatAPIView.get_or_create_conversation w key customer st
         = (Ok (ChatAPIView.new_conversation w customer),
            set_conversations
              (insert (World.uuid4 w) (ChatAPIView.new_conversation w customer)) st))
  \/ (is_Some (conversations st !! World.uuid4 w)
      /\ ChatAPIView.get_or_create_conversation w key customer st
         = (Raise (IntegrityError (World.uuid4 w)), st)).
Proof.
  assert (Hnew :
    (conversations st !! World.uuid4 w = None
     /\ ChatAPIView._create_new_conversation w customer st
        = (Ok (ChatAPIView.new_conversation w customer),
           set_conversations
             (insert (World.uuid4 w) (ChatAPIView.new_conversation w customer)) st))
    \/ (is_Some (conversations st !! World.uuid4 w)
        /\ ChatAPIView._create_new_conversation w customer st
           = (Raise (IntegrityError (World.uuid4 w)), st))).
  { unfold ChatAPIView._create_new_conversation.
    destruct (conversations st !! World.uuid4 w) as [c|] eqn:E.
    - right. split; [eauto|reflexivity].
    - left. split; reflexivity. }
  unfold ChatAPIView.get_or_create_conversation.
  destruct key as [[|a k]|]; [right; exact Hnew| |right; exact Hnew].
  unfold ChatAPIView.get_conversation, gets, mbind, M_bind, mret, M_ret.
  cbv beta iota.
  destruct (conversations st !! String a k) as [conv|] eqn:E;
    [|right; exact Hnew].
  destruct (String.eqb_spec (ChatConversation.customer conv)
                            (Customer.customer_id customer)) as [Heq|Hne];
    [|right; exact Hnew].
  left. exists (String a k), conv. repeat split; auto; discriminate.
Qed.

(** The conversation block touches the conversation table only. *)
Lemma get_or_create_conversation_frame (w : World.t) (key : option string)
    (customer : Customer.t) (st st1 : Store) (r : result ChatConversation.t) :
  ChatAPIView.get_or_create_conversation w key customer st = (r, st1) ->
  customers st1 = customers st
  /\ transactions st1 = transactions st
  /\ investments st1 = investments st
  /\ messages st1 = messages st
  /\ uploaded_files st1 = uploaded_files st.
Proof.
  intros H.
  destruct (get_or_create_conversation_cases w key customer st)
    as [(k & conv & _ & _ & _ & _ & E)|[(_ & E)|(_ & E)]];
    rewrite E in H; injection H as _ <-; repeat split; reflexivity.
Qed.

(** A valid request of a known customer whose conversation is resolved is
    answered with success; the store gains the user message and the assistant
    message, whose content is the response text of the generation adapter. *)
Lemma post_known_customer (w : World.t) (request : ChatRequest.t)
    (data : ValidatedChat.t) (customer : Customer.t)
    (conversation : ChatConversation.t) (st st1 : Store) :
  ChatRequestSerializer request = inr data ->
  customers st !! ValidatedChat.customer_id data = Some customer ->
  ChatAPIView.get_or_create_conversation w
    (ValidatedChat.conversation_id data) customer st = (Ok conversation, st1) ->
  exists ctx history thought suggestions,
    let ai_response :=
      GeminiService.generate_response (World.gemini w)
        (ValidatedChat.message data) (CustomerContext.customer ctx) ctx
        history thought in
    ChatAPIView.post w request st =
      (Ok {| Response.status := HTTP_200_OK;
             Response.body :=
               ChatBody (ChatConversation.conversation_id conversation)
                 (AIResponse.response ai_response)
                 (GeminiService.classify_intent (World.gemini w)
                    (ValidatedChat.message data))
                 suggestions
                 (length (CustomerContext.transactions ctx))
                 (length (CustomerContext.investments ctx)) |},
       set_messages
         (fun ms => ms ++ [ChatAPIView.assistant_message w conversation
                             ai_response
                             (GeminiService.classify_intent (World.gemini w)
                                (ValidatedChat.message data))])
         (set_messages
            (fun ms => ms ++ [ChatAPIView.user_message w data conversation])
            st1)).
Proof.
  intros Hvalid Hcustomer Hconv.
  destruct (get_or_create_conversation_frame _ _ _ _ _ _ Hconv)
    as (Hc & _).
  set (st2 := set_messages
                (fun ms => ms ++ [ChatAPIView.user_message w data conversation])
                st1).
  assert (Hc2 : customers st2 !! ValidatedChat.customer_id data = Some customer)
    by (cbn; rewrite Hc; exact Hcustomer).
  destruct (get_customer_context_known st2 (World.today w) _ _ Hc2)
    as (ctx & Hctx & _).
  eexists ctx, _, _, _. cbv zeta.
  unfold ChatAPIView.post. rewrite Hvalid.
  unfold mbind, M_bind, mret, M_ret, gets. rewrite Hcustomer, Hconv.
  unfold ChatAPIView.create_message, ChatAPIView._get_conversation_history,
    modify, gets, lift, mbind, M_bind, mret, M_ret.
  fold st2. rewrite Hctx. reflexivity.
Qed.

(** C6. A valid chat request whose customer_id matches no stored customer
    is answered with the not-found error, and the store is left as it was:
    no conversation is created and no message is persisted. *)
Theorem unknown_customer_not_found (w : World.t) (request : ChatRequest.t)
    (data : ValidatedChat.t) (st : Store) :
  ChatRequestSerializer request = inr data ->
  customers st !! ValidatedChat.customer_id data = None ->
  ChatAPIView.post w request st =
    (Ok {| Response.status := HTTP_404_NOT_FOUND;
           Response.body := ErrorBody "Customer not found" |}, st).
Proof.
  intros Hvalid Hnone. unfold ChatAPIView.post. rewrite Hvalid.
  unfold mbind, M_bind, mret, M_ret, gets. rewrite Hnone. reflexivity.
Qed.

Lemma unknown_customer_not_found_witness :
  ChatRequestSerializer (Sample.chat_request "C9" None) =
    inr {| ValidatedChat.customer_id := "C9";
           ValidatedChat.message := "How much did I spend on dining?";
           ValidatedChat.conversation_id := None |}
  /\ customers Sample.fortnight !! "C9" = None
  /\ ChatAPIView.post (Sample.world Sample.gemini_raising "u-1")
       (Sample.chat_request "C9" None) Sample.fortnight =
     (Ok {| Response.status := HTTP_404_NOT_FOUND;
            Response.body := ErrorBody "Customer not found" |},
      Sample.fortnight).
Proof.
  split; [reflexivity|]. split; [reflexivity|].
  apply (unknown_customer_not_found _ _
           {| ValidatedChat.customer_id := "C9";
              ValidatedChat.message := "How much did I spend on dining?";
              ValidatedChat.conversation_id := None |});
    reflexivity.
Defined.

(** A request that fails validation is refused before the store is read. *)
Lemma invalid_request_refused (w : World.t) (request : ChatRequest.t)
    (errors : list string) (st : Store) :
  ChatRequestSerializer request = inl errors ->
  ChatAPIView.post w request st =
    (Ok {| Response.status := HTTP_400_BAD_REQUEST;
           Response.body := FieldErrors errors |}, st).
Proof.
  intros Hinvalid. unfold ChatAPIView.post. rewrite Hinvalid. reflexivity.
Qed.

(** C5. A valid request of a known customer that supplies the key of a
    conversation owned by another customer is answered, the drawn key being
    unused so far, in a new conversation: the response carries the drawn key,
    which differs from the supplied one; the new conversation is stored under
    the drawn key with the request's customer as owner; the other customer's
    conversation stays as it was; and the two messages of the exchange belong
    to the new conversation. *)
Theorem foreign_conversation_not_reused (w : World.t) (request : ChatRequest.t)
    (data : ValidatedChat.t) (customer : Customer.t) (key : string)
    (other : ChatConversation.t) (st : Store) :
  ChatRequestSerializer request = inr data ->
  customers st !! ValidatedChat.customer_id data = Some customer ->
  ValidatedChat.conversation_id data = Some key ->
  conversations st !! key = Some other ->
  ChatConversation.customer other <> Customer.customer_id customer ->
  conversations st !! World.uuid4 w = None ->
  exists response intent suggestions n m st' created new_messages,
    ChatAPIView.post w request st =
      (Ok {| Response.status := HTTP_200_OK;
             Response.body := ChatBody (World.uuid4 w) response intent
                                suggestions n m |}, st')
    /\ World.uuid4 w <> key
    /\ conversations st' = <[World.uuid4 w := created]> (conversations st)
    /\ ChatConversation.conversation_id created = World.uuid4 w
    /\ ChatConversation.customer created = Customer.customer_id customer
    /\ conversations st' !! key = Some other
    /\ messages st' = messages st ++ new_messages
    /\ length new_messages = 2%nat
    /\ Forall (fun msg => ChatMessage.conversation msg = World.uuid4 w)
              new_messages.
Proof.
  intros Hvalid Hcustomer Hkey Hother Hforeign Hfresh.
  assert (Hne : World.uuid4 w <> key)
    by (intros E; rewrite E in Hfresh; congruence).
  destruct (get_or_create_conversation_cases w
              (ValidatedChat.conversation_id data) customer st)
    as [(k & conv & Hk & _ & Hconv & Hown & _)|[(_ & Hnew)|([c Hc] & _)]].
  - rewrite Hkey in Hk. injection Hk as <-. congruence.
  - destruct (post_known_customer w request data customer _ st _
                Hvalid Hcustomer Hnew)
      as (ctx & history & thought & suggestions & Hpost).
    cbv zeta in Hpost.
    eexists _, _, _, _, _, _, (ChatAPIView.new_conversation w customer), [_; _].
    split; [exact Hpost|]. split; [exact Hne|].
    split; [reflexivity|]. split; [reflexivity|]. split; [reflexivity|].
    split; [cbn; rewrite lookup_insert_ne by exact Hne; exact Hother|].
    split; [cbn; rewrite <- app_assoc; reflexivity|].
    split; [reflexivity|]. repeat constructor.
  - congruence.
Qed.

Lemma foreign_conversation_not_reused_witness :
  exists response intent suggestions n m st' created new_messages,
    ChatAPIView.post (Sample.world Sample.gemini_raising "u-1")
      (Sample.chat_request "C1" (Some "k-ravi"%string)) Sample.with_conversation =
      (Ok {| Response.status := HTTP_200_OK;
             Response.body := ChatBody "u-1" response intent suggestions n m |},
       st')
    /\ "u-1"%string <> "k-ravi"%string
    /\ conversations st' =
         <["u-1"%string := created]> (conversations Sample.with_conversation)
    /\ ChatConversation.conversation_id created = "u-1"%string
    /\ ChatConversation.customer created = "C1"%string
    /\ conversations st' !! "k-ravi" =
         conversations Sample.with_conversation !! "k-ravi"
    /\ messages st' = messages Sample.with_conversation ++ new_messages
    /\ length new_messages = 2%nat
    /\ Forall (fun msg => ChatMessage.conversation msg = "u-1"%string)
              new_messages.
Proof.
  apply (foreign_conversation_not_reused
           (Sample.world Sample.gemini_raising "u-1")
           (Sample.chat_request "C1" (Some "k-ravi"%string))
           {| ValidatedChat.customer_id := "C1";
              ValidatedChat.message := "How much did I spend on dining?";
              ValidatedChat.conversation_id := Some "k-ravi"%string |}
           (Sample.customer "C1" "Asha") "k-ravi"
           {| ChatConversation.conversation_id := "k-ravi";
              ChatConversation.customer := "C2";
              ChatConversation.started_at := 900;
              ChatConversation.last_activity := 900;
              ChatConversation.is_active := true |}
           Sample.with_conversation);
    try reflexivity.
  discriminate.
Defined.

(** When the drawn key is already stored, the unique constraint refuses the
    new conversation: the request ends in an integrity error, and again
    nothing is added to the other customer's conversation. *)
Lemma foreign_conversation_key_collision (w : World.t) (request : ChatRequest.t)
    (data : ValidatedChat.t) (customer : Customer.t) (key : string)
    (other : ChatConversation.t) (st : Store) :
  ChatRequestSerializer request = inr data ->
  customers st !! ValidatedChat.customer_id data = Some customer ->
  ValidatedChat.conversation_id data = Some key ->
  conversations st !! key = Some other ->
  ChatConversation.customer other <> Customer.customer_id customer ->
  is_Some (conversations st !! World.uuid4 w) ->
  ChatAPIView.post w request st = (Raise (IntegrityError (World.uuid4 w)), st).
Proof.
  intros Hvalid Hcustomer Hkey Hother Hforeign Hused.
  destruct (get_or_create_conversation_cases w
              (ValidatedChat.conversation_id data) customer st)
    as [(k & conv & Hk & _ & Hconv & Hown & _)|[(Hfresh & _)|(_ & Hdup)]].
  - rewrite Hkey in Hk. injection Hk as <-. congruence.
  - rewrite Hfresh in Hused. destruct Hused as [c Hc]. discriminate Hc.
  - unfold ChatAPIView.post. rewrite Hvalid.
    unfold mbind, M_bind, mret, M_ret, gets. rewrite Hcustomer, Hdup.
    reflexivity.
Qed.



Lemma sample_generation_empty : generation_empty Sample.gemini_silent.
Proof. intros [|turn history] q; eexists; split; reflexivity. Qed.



End Chat.

(** ** Bulk import *)

Section ImportLoop.

(** The loop over rows, for a loop body that creates records under keys:
    [present k st] says that the table holds a record under [k]. *)
Context (body body2 : Row -> M unit) (present : string -> Store -> Prop).

(** A body that succeeded on a row leaves the row's key present, and the
    second body succeeds on that row without touching the store wherever
    that key is present. *)
Hypothesis body_replay : forall row st st1,
  body row st = (Ok tt, st1) ->
  exists k, present k st1
            /\ forall st2, present k st2 -> body2 row st2 = (Ok tt, st2).

Hypothesis body_monotone : forall row st r st1 k,
  body row st = (r, st1) -> present k st -> present k st1.

Lemma import_loop_count (rows : list Row) (n m : Z) (st st' : Store) :
  import_loop body rows n st = (Ok m, st') ->
  m = n + Z.of_nat (length rows).
Proof using Type.
  revert n st. induction rows as [|row rows IH]; intros n st H.
  - injection H as <- _. cbn. lia.
  - cbn [import_loop] in H. unfold mbind, M_bind in H.
    destruct (body row st) as [[[]|e] st1]; [|discriminate H].
    apply IH in H. cbn [length]. lia.
Qed.

Lemma import_loop_monotone (rows : list Row) (n : Z) (st st' : Store)
    (r : result Z) (k : string) :
  import_loop body rows n st = (r, st') -> present k st -> present k st'.
Proof using body_monotone.
  revert n st. induction rows as [|row rows IH]; intros n st H Hk.
  - injection H as _ <-. exact Hk.
  - cbn [import_loop] in H. unfold mbind, M_bind in H.
    destruct (body row st) as [[[]|e] st1] eqn:E.
    + eapply IH; [exact H|]. eapply body_monotone; eauto.
    + injection H as _ <-. eapply body_monotone; eauto.
Qed.

(** Running the loop again over the same rows, on any store that holds the
    keys the first run left, changes nothing and returns the same count. *)
Lemma import_loop_replay (rows : list Row) (n m : Z) (st st' : Store) :
  import_loop body rows n st = (Ok m, st') ->
  forall st2, (forall k, present k st' -> present k st2) ->
              import_loop body2 rows n st2 = (Ok m, st2).
Proof using body_replay body_monotone.
  revert n st. induction rows as [|row rows IH]; intros n st H st2 Hsub.
  - injection H as <- _. reflexivity.
  - cbn [import_loop] in *. unfold mbind, M_bind in *.
    destruct (body row st) as [[[]|e] st1] eqn:E; [|discriminate H].
    destruct (body_replay _ _ _ E) as (k & Hk & Hagain).
    rewrite (Hagain st2).
    + eapply IH; eauto.
    + apply Hsub. eapply import_loop_monotone; eauto.
Qed.

(** A relation between stores that every run of the body respects is
    respected by the loop. *)
Lemma import_loop_invariant (R : Store -> Store -> Prop) :
  (forall st, R st st) ->
  (forall a b c, R a b -> R b c -> R a c) ->
  (forall row st r st1, body row st = (r, st1) -> R st st1) ->
  forall rows n st r st', import_loop body rows n st = (r, st') -> R st st'.
Proof using Type.
  intros Hrefl Htrans Hbody rows.
  induction rows as [|row rows IH]; intros n st r st' H.
  - injection H as _ <-. apply Hrefl.
  - cbn [import_loop] in H. unfold mbind, M_bind in H.
    destruct (body row st) as [[[]|e] st1] eqn:E.
    + eapply Htrans; [eapply Hbody; exact E|eapply IH; exact H].
    + injection H as _ <-. eapply Hbody; exact E.
Qed.

End ImportLoop.

Section ImportRows.

Lemma find_app_last {A : Type} (f : A -> bool) (l : list A) (x : A) :
  List.find f (l ++ [x]) =
    match List.find f l with
    | Some y => Some y
    | None => if f x then Some x else None
    end.
Proof.
  induction l as [|y l IH]; cbn; [reflexivity|].
  destruct (f y); [reflexivity|exact IH].
Qed.

Lemma transaction_get_or_create_run (id : Cell)
    (defaults : result Transaction.t) (st : Store) :
  transaction_get_or_create id defaults st =
    match as_str "transaction_id" id with
    | Raise e => (Raise e, st)
    | Ok k =>
        match find_transaction k st with
        | Some t => (Ok (t, false), st)
        | None =>
            match defaults with
            | Ok t => (Ok (t, true), set_transactions (fun ts => ts ++ [t]) st)
            | Raise e => (Raise e, st)
            end
        end
    end.
Proof.
  unfold transaction_get_or_create, lift, gets, modify, mbind, M_bind,
    mret, M_ret.
  destruct (as_str "transaction_id" id) as [k|e]; [|reflexivity].
  destruct (find_transaction k st); [reflexivity|].
  destruct defaults; reflexivity.
Qed.

(** What one pass of the transaction loop body does. *)
Lemma import_transaction_inv (customer : Customer.t) (row : Row)
    (st st1 : Store) (r : result unit) :
  import_transaction customer row st = (r, st1) ->
  (exists e, r = Raise e /\ st1 = st)
  \/ (exists k,
         row !! "transaction_id" = Some (CStr k)
         /\ has_columns transaction_columns row
         /\ r = Ok tt
         /\ ((is_Some (find_transaction k st) /\ st1 = st)
             \/ (find_transaction k st = None
                 /\ exists t, Transaction.transaction_id t = k
                              /\ st1 = set_transactions (fun ts => ts ++ [t]) st))).
Proof.
  unfold import_transaction, lift, row_item, mbind, M_bind, mret, M_ret.
  intros H.
  destruct (row !! "transaction_id") as [id|] eqn:Hid; cbv beta iota in H;
    [|left; eexists; injection H as <- <-; split; reflexivity].
  destruct (row !! "date") as [date|] eqn:Hdate; cbv beta iota in H;
    [|left; eexists; injection H as <- <-; split; reflexivity].
  destruct (row !! "category") as [category|] eqn:Hcategory; cbv beta iota in H;
    [|left; eexists; injection H as <- <-; split; reflexivity].
  destruct (row !! "merchant") as [merchant|] eqn:Hmerchant; cbv beta iota in H;
    [|left; eexists; injection H as <- <-; split; reflexivity].
  destruct (row !! "amount") as [amount|] eqn:Hamount; cbv beta iota in H;
    [|left; eexists; injection H as <- <-; split; reflexivity].
  rewrite transaction_get_or_create_run in H.
  destruct id as [k|q|d]; cbn [as_str] in H;
    try (left; eexists; injection H as <- <-; split; reflexivity).
  assert (Hcols : has_columns transaction_columns row).
  { unfold has_columns, transaction_columns.
    repeat (constructor; [eexists; eassumption|]). constructor. }
  destruct (find_transaction k st) as [t0|] eqn:Hfind.
  - injection H as <- <-. right. exists k.
    split; [reflexivity|]. split; [exact Hcols|]. split; [reflexivity|].
    left. split; [exists t0; exact Hfind|reflexivity].
  - match type of H with
    | context [match ?d with Ok _ => _ | Raise _ => _ end] =>
        destruct d as [t|e] eqn:Ed
    end; cbv beta iota in H; injection H as <- <-;
      [|left; eexists; split; reflexivity].
    right. exists k.
    split; [reflexivity|]. split; [exact Hcols|]. split; [reflexivity|].
    right. split; [exact Hfind|]. exists t. split; [|reflexivity].
    cbn [result_bind] in Ed.
    repeat match type of Ed with
           | result_bind _ _ _ ?x = _ =>
               destruct x; cbn [result_bind] in Ed; try discriminate Ed
           end.
    injection Ed as <-. reflexivity.
Qed.

(** The loop body succeeds without touching the store on a row that carries
    the required columns and whose key is stored already, whatever the
    row's other cells hold. *)
Lemma import_transaction_present (customer : Customer.t) (row : Row)
    (k : string) (st : Store) :
  row !! "transaction_id" = Some (CStr k) ->
  has_columns transaction_columns row ->
  is_Some (find_transaction k st) ->
  import_transaction customer row st = (Ok tt, st).
Proof.
  intros Hid Hcols [t Ht].
  unfold has_columns, transaction_columns in Hcols.
  apply Forall_cons in Hcols as [_ Hcols].
  repeat match goal with
         | H : Forall _ (_ :: _) |- _ => apply Forall_cons in H as [[? ?] H]
         end.
  unfold import_transaction, lift, row_item, mbind, M_bind, mret, M_ret.
  repeat match goal with
         | H : row !! _ = Some _ |- _ => rewrite H; clear H
         end.
  cbv beta iota. rewrite transaction_get_or_create_run. cbn [as_str].
  rewrite Ht. reflexivity.
Qed.

Lemma investment_get_or_create_run (id : Cell)
    (defaults : result Investment.t) (st : Store) :
  investment_get_or_create id defaults st =
    match as_str "investment_id" id with
    | Raise e => (Raise e, st)
    | Ok k =>
        match find_investment k st with
        | Some i => (Ok (i, false), st)
        | None =>
            match defaults with
            | Ok i => (Ok (i, true), set_investments (fun l => l ++ [i]) st)
            | Raise e => (Raise e, st)
            end
        end
    end.
Proof.
  unfold investment_get_or_create, lift, gets, modify, mbind, M_bind,
    mret, M_ret.
  destruct (as_str "investment_id" id) as [k|e]; [|reflexivity].
  destruct (find_investment k st); [reflexivity|].
  destruct defaults; reflexivity.
Qed.

Ltac missing_column H :=
  left; eexists; injection H as <- <-; split; reflexivity.

(** What one pass of the investment loop body does. *)
Lemma import_investment_inv (customer : Customer.t) (row : Row)
    (st st1 : Store) (r : result unit) :
  import_investment customer row st = (r, st1) ->
  (exists e, r = Raise e /\ st1 = st)
  \/ (exists k,
         row !! "investment_id" = Some (CStr k)
         /\ has_columns investment_columns row
         /\ r = Ok tt
         /\ ((is_Some (find_investment k st) /\ st1 = st)
             \/ (find_investment k st = None
                 /\ exists i, Investment.investment_id i = k
                              /\ st1 = set_investments (fun l => l ++ [i]) st))).
Proof.
  unfold import_investment, lift, row_item, mbind, M_bind, mret, M_ret.
  intros H.
  destruct (row !! "investment_id") as [id|] eqn:Hid; cbv beta iota in H;
    [|missing_column H].
  destruct (row !! "product_type") as [c1|] eqn:H1; cbv beta iota in H;
    [|missing_column H].
  destruct (row !! "product_name") as [c2|] eqn:H2; cbv beta iota in H;
    [|missing_column H].
  destruct (row !! "purchase_date") as [c3|] eqn:H3; cbv beta iota in H;
    [|missing_column H].
  destruct (row !! "invested_amount") as [c4|] eqn:H4; cbv beta iota in H;
    [|missing_column H].
  destruct (row !! "current_value") as [c5|] eqn:H5; cbv beta iota in H;
    [|missing_column H].
  destruct (row !! "returns_absolute") as [c6|] eqn:H6; cbv beta iota in H;
    [|missing_column H].
  destruct (row !! "returns_percentage") as [c7|] eqn:H7; cbv beta iota in H;
    [|missing_column H].
  destruct (row !! "risk_level") as [c8|] eqn:H8; cbv beta iota in H;
    [|missing_column H].
  rewrite investment_get_or_create_run in H.
  destruct id as [k|q|d]; cbn [as_str] in H; try missing_column H.
  assert (Hcols : has_columns investment_columns row).
  { unfold has_columns, investment_columns.
    repeat (constructor; [eexists; eassumption|]). constructor. }
  destruct (find_investment k st) as [i0|] eqn:Hfind.
  - injection H as <- <-. right. exists k.
    split; [reflexivity|]. split; [exact Hcols|]. split; [reflexivity|].
    left. split; [exists i0; exact Hfind|reflexivity].
  - match type of H with
    | context [match ?d with Ok _ => _ | Raise _ => _ end] =>
        destruct d as [i|e] eqn:Ed
    end; cbv beta iota in H; injection H as <- <-;
      [|left; eexists; split; reflexivity].
    right. exists k.
    split; [reflexivity|]. split; [exact Hcols|]. split; [reflexivity|].
    right. split; [exact Hfind|]. exists i. split; [|reflexivity].
    cbn [result_bind] in Ed.
    repeat match type of Ed with
           | result_bind _ _ _ ?x = _ =>
               destruct x; cbn [result_bind] in Ed; try discriminate Ed
           end.
    injection Ed as <-. reflexivity.
Qed.

Lemma import_investment_present (customer : Customer.t) (row : Row)
    (k : string) (st : Store) :
  row !! "investment_id" = Some (CStr k) ->
  has_columns investment_columns row ->
  is_Some (find_investment k st) ->
  import_investment customer row st = (Ok tt, st).
Proof.
  intros Hid Hcols [i Hi].
  unfold has_columns, investment_columns in Hcols.
  apply Forall_cons in Hcols as [_ Hcols].
  repeat match goal with
         | H : Forall _ (_ :: _) |- _ => apply Forall_cons in H as [[? ?] H]
         end.
  unfold import_investment, lift, row_item, mbind, M_bind, mret, M_ret.
  repeat match goal with
         | H : row !! _ = Some _ |- _ => rewrite H; clear H
         end.
  cbv beta iota. rewrite investment_get_or_create_run. cbn [as_str].
  rewrite Hi. reflexivity.
Qed.

Lemma records_kept_refl (st : Store) : records_kept st st.
Proof. unfold records_kept. repeat split; auto. Qed.

Lemma records_kept_trans (a b c : Store) :
  records_kept a b -> records_kept b c -> records_kept a c.
Proof.
  unfold records_kept.
  intros (Ht1 & Hi1 & Hc1 & Hv1 & Hm1 & Hu1) (Ht2 & Hi2 & Hc2 & Hv2 & Hm2 & Hu2).
  repeat split; try congruence; auto.
Qed.

(** The transaction loop body never changes or removes a stored record. *)
Lemma import_transaction_keeps (customer : Customer.t) (row : Row)
    (st st1 : Store) (r : result unit) :
  import_transaction customer row st = (r, st1) -> records_kept st st1.
Proof.
  intros H. apply import_transaction_inv in H
    as [(e & _ & ->)|(k & _ & _ & _ & [(_ & ->)|(Hnone & t & _ & ->)])];
    try apply records_kept_refl.
  unfold records_kept. repeat split; auto.
  intros k' t' Hk'. unfold find_transaction in *. cbn.
  rewrite find_app_last, Hk'. reflexivity.
Qed.

Lemma import_investment_keeps (customer : Customer.t) (row : Row)
    (st st1 : Store) (r : result unit) :
  import_investment customer row st = (r, st1) -> records_kept st st1.
Proof.
  intros H. apply import_investment_inv in H
    as [(e & _ & ->)|(k & _ & _ & _ & [(_ & ->)|(Hnone & i & _ & ->)])];
    try apply records_kept_refl.
  unfold records_kept. repeat split; auto.
  intros k' i' Hk'. unfold find_investment in *. cbn.
  rewrite find_app_last, Hk'. reflexivity.
Qed.

Lemma import_transaction_replay (customer customer2 : Customer.t) (row : Row)
    (st st1 : Store) :
  import_transaction customer row st = (Ok tt, st1) ->
  exists k, is_Some (find_transaction k st1)
            /\ forall st2, is_Some (find_transaction k st2) ->
                           import_transaction customer2 row st2 = (Ok tt, st2).
Proof.
  intros H. apply import_transaction_inv in H
    as [(e & He & _)|(k & Hid & Hcols & _ & Hst)]; [discriminate He|].
  exists k. split.
  - destruct Hst as [(Hk & ->)|(Hnone & t & Ht & ->)]; [exact Hk|].
    unfold find_transaction in *. cbn. rewrite find_app_last, Hnone, Ht.
    rewrite String.eqb_refl. eexists; reflexivity.
  - intros st2 Hk. apply (import_transaction_present _ _ k); assumption.
Qed.

Lemma import_investment_replay (customer customer2 : Customer.t) (row : Row)
    (st st1 : Store) :
  import_investment customer row st = (Ok tt, st1) ->
  exists k, is_Some (find_investment k st1)
            /\ forall st2, is_Some (find_investment k st2) ->
                           import_investment customer2 row st2 = (Ok tt, st2).
Proof.
  intros H. apply import_investment_inv in H
    as [(e & He & _)|(k & Hid & Hcols & _ & Hst)]; [discriminate He|].
  exists k. split.
  - destruct Hst as [(Hk & ->)|(Hnone & i & Hi & ->)]; [exact Hk|].
    unfold find_investment in *. cbn. rewrite find_app_last, Hnone, Hi.
    rewrite String.eqb_refl. eexists; reflexivity.
  - intros st2 Hk. apply (import_investment_present _ _ k); assumption.
Qed.

End ImportRows.

Section ImportTotal.

Ltac read_cells :=
  repeat match goal with
         | H : text_cell _ _ |- _ => destruct H as [? H]
         | H : number_cell _ _ |- _ => destruct H as [? H]
         | H : date_cell _ _ |- _ => destruct H as [? H]
         | H : optional_cell _ _ _ |- _ => destruct H as [H|H]
         end.

(** The transaction loop body succeeds on every row from which a transaction
    can be made. *)
Lemma import_transaction_total (customer : Customer.t) (row : Row) (st : Store) :
  transaction_row row ->
  exists st1, import_transaction customer row st = (Ok tt, st1).
Proof.
  intros (Hid & Hdate & Hcat & Hmer & Hamt & Hpay & Hdesc).
  unfold import_transaction, lift, row_item, row_get, mbind, M_bind, mret, M_ret.
  read_cells;
    repeat match goal with
           | H : row !! _ = _ |- _ => rewrite H; clear H
           end;
    cbv beta iota; rewrite transaction_get_or_create_run; cbn [as_str];
    (match goal with
     | |- context [find_transaction ?k st] => destruct (find_transaction k st)
     end);
    eexists; reflexivity.
Qed.

(** The investment loop body succeeds on every row from which an investment
    can be made. *)
Lemma import_investment_total (customer : Customer.t) (row : Row) (st : Store) :
  investment_row row ->
  exists st1, import_investment customer row st = (Ok tt, st1).
Proof.
  intros (Hid & H1 & H2 & H3 & H4 & H5 & H6 & H7 & H8 & H9 & H10 & H11).
  unfold import_investment, lift, row_item, row_get, mbind, M_bind, mret, M_ret.
  read_cells;
    repeat match goal with
           | H : row !! _ = _ |- _ => rewrite H; clear H
           end;
    cbv beta iota; rewrite investment_get_or_create_run; cbn [as_str];
    (match goal with
     | |- context [find_investment ?k st] => destruct (find_investment k st)
     end);
    eexists; reflexivity.
Qed.

Lemma import_loop_total (body : Row -> M unit) (good : Row -> Prop)
    (rows : list Row) :
  (forall row st, good row -> exists st1, body row st = (Ok tt, st1)) ->
  Forall good rows ->
  forall n st,
    exists st', import_loop body rows n st
                = (Ok (n + Z.of_nat (length rows)), st').
Proof.
  intros Hbody Hrows. induction Hrows as [|row rows Hrow _ IH]; intros n st.
  - exists st. cbn. rewrite Z.add_0_r. reflexivity.
  - destruct (Hbody row st Hrow) as [st1 H1].
    destruct (IH (n + 1) st1) as [st' H'].
    exists st'. cbn [import_loop]. unfold mbind, M_bind. rewrite H1, H'.
    do 2 f_equal. cbn [length]. lia.
Qed.

(** A file of well-formed rows is imported to its end, and the count is the
    number of its rows. *)
Lemma process_uploaded_file_total (uploaded_file : UploadedFile.t)
    (customer : Customer.t) (rows : list Row) (st : Store) :
  File.read_csv (UploadedFile.file_path uploaded_file) = Ok rows ->
  (UploadedFile.file_type uploaded_file = "transaction"%string
   /\ Forall transaction_row rows)
  \/ (UploadedFile.file_type uploaded_file = "investment"%string
      /\ Forall investment_row rows) ->
  exists st',
    process_uploaded_file uploaded_file customer st
    = (Ok (Z.of_nat (length rows)), st').
Proof.
  intros Hcsv Hrows. unfold process_uploaded_file. rewrite Hcsv.
  unfold lift, mbind, M_bind. cbv beta iota zeta.
  destruct Hrows as [(Htype & Hrows)|(Htype & Hrows)]; rewrite Htype;
    cbn [String.eqb Ascii.eqb Bool.eqb].
  - apply (import_loop_total _ transaction_row rows
             (fun row s => import_transaction_total customer row s) Hrows 0 st).
  - apply (import_loop_total _ investment_row rows
             (fun row s => import_investment_total customer row s) Hrows 0 st).
Qed.

End ImportTotal.

Section BulkImport.

Lemma present_kept_transaction (st st1 : Store) (k : string) :
  records_kept st st1 ->
  is_Some (find_transaction k st) -> is_Some (find_transaction k st1).
Proof. intros (Ht & _) [t Hk]. exists t. apply Ht. exact Hk. Qed.

Lemma present_kept_investment (st st1 : Store) (k : string) :
  records_kept st st1 ->
  is_Some (find_investment k st) -> is_Some (find_investment k st1).
Proof. intros (_ & Hi & _) [i Hk]. exists i. apply Hi. exact Hk. Qed.

(** C4. When a bulk import of transactions or investments has run to its
    end, the count it returns is the number of rows of the file, every
    record that was stored before is still stored unchanged, and importing
    the same rows a second time, by whichever customer, leaves the store
    exactly as it is and returns the same count again: rows whose key is
    already stored create nothing, overwrite nothing and are counted. *)
Theorem bulk_import_idempotent (uploaded_file uploaded_again : UploadedFile.t)
    (customer customer2 : Customer.t) (st st' : Store) (n : Z) :
  UploadedFile.file_type uploaded_file = "transaction"%string
  \/ UploadedFile.file_type uploaded_file = "investment"%string ->
  process_uploaded_file uploaded_file customer st = (Ok n, st') ->
  UploadedFile.file_type uploaded_again = UploadedFile.file_type uploaded_file ->
  File.read_csv (UploadedFile.file_path uploaded_again)
  = File.read_csv (UploadedFile.file_path uploaded_file) ->
  exists rows,
    File.read_csv (UploadedFile.file_path uploaded_file) = Ok rows
    /\ n = Z.of_nat (length rows)
    /\ records_kept st st'
    /\ process_uploaded_file uploaded_again customer2 st' = (Ok n, st').
Proof.
  intros Htype Hrun Htype2 Hcsv2.
  unfold process_uploaded_file in *. rewrite Htype2, Hcsv2.
  destruct (File.read_csv (UploadedFile.file_path uploaded_file))
    as [rows|e]; [|discriminate Hrun].
  unfold lift, mbind, M_bind in *. cbv beta iota zeta in *.
  exists rows. split; [reflexivity|].
  destruct Htype as [Htype|Htype]; rewrite Htype in *;
    cbn [String.eqb Ascii.eqb Bool.eqb] in *.
  - split; [apply (import_loop_count _ _ _ _ _ _ Hrun)|]. split.
    + apply (import_loop_invariant (import_transaction customer) records_kept
               records_kept_refl records_kept_trans
               (fun row s r s1 => import_transaction_keeps customer row s s1 r)
               _ _ _ _ _ Hrun).
    + apply (import_loop_replay (import_transaction customer)
               (import_transaction customer2)
               (fun k s => is_Some (find_transaction k s))
               (import_transaction_replay customer customer2)
               (fun row s r s1 k H =>
                  present_kept_transaction s s1 k
                    (import_transaction_keeps customer row s s1 r H))
               _ _ _ _ _ Hrun).
      auto.
  - split; [apply (import_loop_count _ _ _ _ _ _ Hrun)|]. split.
    + apply (import_loop_invariant (import_investment customer) records_kept
               records_kept_refl records_kept_trans
               (fun row s r s1 => import_investment_keeps customer row s s1 r)
               _ _ _ _ _ Hrun).
    + apply (import_loop_replay (import_investment customer)
               (import_investment customer2)
               (fun k s => is_Some (find_investment k s))
               (import_investment_replay customer customer2)
               (fun row s r s1 k H =>
                  present_kept_investment s s1 k
                    (import_investment_keeps customer row s s1 r H))
               _ _ _ _ _ Hrun).
      auto.
Qed.

Lemma bulk_import_idempotent_witness :
  process_uploaded_file (Sample.uploaded Sample.transactions_csv "transaction")
    (Sample.customer "C1" "Asha") Sample.fortnight = (Ok 3, Sample.imported)
  /\ exists rows,
       File.read_csv Sample.transactions_csv = Ok rows
       /\ 3 = Z.of_nat (length rows)
       /\ records_kept Sample.fortnight Sample.imported
       /\ process_uploaded_file
            (Sample.uploaded Sample.transactions_csv "transaction")
            (Sample.customer "C2" "Ravi") Sample.imported
          = (Ok 3, Sample.imported).
Proof.
  assert (Hrun : process_uploaded_file
                   (Sample.uploaded Sample.transactions_csv "transaction")
                   (Sample.customer "C1" "Asha") Sample.fortnight
                 = (Ok 3, Sample.imported)) by (vm_compute; reflexivity).
  split; [exact Hrun|].
  apply (bulk_import_idempotent
           (Sample.uploaded Sample.transactions_csv "transaction")
           (Sample.uploaded Sample.transactions_csv "transaction")
           (Sample.customer "C1" "Asha") (Sample.customer "C2" "Ravi")
           Sample.fortnight Sample.imported 3);
    [left; reflexivity | exact Hrun | reflexivity | reflexivity].
Defined.

(** Three rows, two of them under the stored key T1 with other amounts: the
    count is 3, T1 keeps its amount of 100 and one record is created. *)
Example bulk_import_sample :
  fst (process_uploaded_file
         (Sample.uploaded Sample.transactions_csv "transaction")
         (Sample.customer "C1" "Asha") Sample.fortnight) = Ok 3
  /\ map (fun t => (Transaction.transaction_id t, Transaction.amount t))
         (transactions Sample.imported)
     = [("T1"%string, 100%Q); ("T2"%string, 200%Q); ("T7"%string, 40%Q)].
Proof. vm_compute. split; reflexivity. Qed.

Lemma list_insert_last {A : Type} (l : list A) (x y : A) :
  <[length l := y]> (l ++ [x]) = l ++ [y].
Proof. induction l as [|z l IH]; cbn; [reflexivity|]. f_equal. exact IH. Qed.

Lemma truthy_field_some (s : string) :
  s <> ""%string -> truthy_field (Some s) = true.
Proof. destruct s; [congruence|reflexivity]. Qed.



(** A file that cannot be read as CSV ends the upload in a server error,
    whatever its declared type; its metadata record stays unprocessed. *)
Lemma upload_unreadable_file (request : UploadRequest.t)
    (file : File.t) (file_type customer_id : string) (customer : Customer.t)
    (e : exn) (st : Store) :
  UploadRequest.file request = Some file ->
  UploadRequest.file_type request = Some file_type ->
  UploadRequest.customer_id request = Some customer_id ->
  file_type <> ""%string ->
  customer_id <> ""%string ->
  customers st !! customer_id = Some customer ->
  File.read_csv file = Raise e ->
  upload_file request st =
    (Ok {| Response.status := HTTP_500_INTERNAL_SERVER_ERROR;
           Response.body :=
             ErrorBody ("Error processing file: " ++ exn_message e)%string |},
     set_uploaded_files
       (fun l => l ++ [{| UploadedFile.file_name := File.name file;
                          UploadedFile.file_type := file_type;
                          UploadedFile.file_path := file;
                          UploadedFile.uploaded_by := Customer.customer_id customer;
                          UploadedFile.processed := false;
                          UploadedFile.records_imported := 0 |}]) st).
Proof.
  intros Hfile Htype Hcid Htype_ne Hcid_ne Hcustomer Hcsv.
  unfold upload_file. rewrite Hfile, Htype, Hcid.
  rewrite !truthy_field_some by assumption. cbn [negb orb default from_option id].
  unfold mbind, M_bind, mret, M_ret, gets. rewrite Hcustomer.
  unfold uploaded_file_create, try_except, process_uploaded_file,
    uploaded_file_save, modify, gets, lift, mbind, M_bind, mret, M_ret.
  cbn [UploadedFile.file_path UploadedFile.file_type]. rewrite Hcsv.
  reflexivity.
Qed.

End BulkImport.

(** ** Category breakdown *)

Section CategoryBreakdown.

Local Open Scope Q_scope.

(** C9 fails on two retrieved transactions whose categories, "food_dining"
    and "Food Dining", normalize to the same name: the breakdown keeps the
    amount of the category normalized last (100) under "Food Dining", while
    the amounts of the transactions normalizing to that name sum to 150,
    which is also the total spend of the same summary. *)
Theorem category_breakdown_collision :
  exists ctx s,
    DataService.get_customer_context Sample.two_spellings 120 "C1"
    = Ok (Some ctx)
    /\ CustomerContext.transaction_summary ctx = Some s
    /\ TransactionSummary.category_breakdown s = [("Food Dining"%string, 100)]
    /\ spec_category_total
         (DataService.recent_transactions Sample.two_spellings 120 "C1")
         "Food Dining" == 150
    /\ TransactionSummary.total_spent s == 150.
Proof.
  eexists. eexists. split; [vm_compute; reflexivity|].
  split; [reflexivity|]. split; [reflexivity|]. split; reflexivity.
Qed.

(** The sibling path: the investment summary normalizes the product type
    before it counts, so two spellings of one product type share an entry. *)
Example product_types_merge_spellings :
  exists s,
    DataService._calculate_investment_summary
      [ Sample.investment "I1" "C1" "mutual_fund" 100 100 0;
        Sample.investment "I2" "C1" "Mutual Fund" 100 100 0 ] = Ok (Some s)
    /\ InvestmentSummary.product_types s = ["Mutual Fund"%string].
Proof. eexists. split; [vm_compute; reflexivity|reflexivity]. Qed.

Lemma dict_set_fresh {V : Type} (k : string) (v : V) (d : dict V) :
  k ∉ map fst d -> dict_set k v d = d ++ [(k, v)].
Proof.
  induction d as [|[k0 v0] d IH]; intros Hk; cbn; [reflexivity|].
  cbn in Hk. apply not_elem_of_cons in Hk as [Hne Hk].
  destruct (String.eqb_spec k0 k) as [->|_]; [congruence|].
  rewrite IH by exact Hk. reflexivity.
Qed.

Lemma dict_map_keys_from {V : Type} (f : string -> string) (d acc : dict V) :
  NoDup (map fst acc ++ map f (map fst d)) ->
  fold_left (fun a kv => dict_set (f (fst kv)) (snd kv) a) d acc
  = acc ++ map (fun kv => (f (fst kv), snd kv)) d.
Proof.
  revert acc. induction d as [|[k v] d IH]; intros acc Hnd; cbn.
  - rewrite app_nil_r. reflexivity.
  - cbn in Hnd. apply NoDup_app in Hnd as (Hacc & Hdisj & Hrest).
    apply NoDup_cons in Hrest as [Hk Hrest].
    rewrite dict_set_fresh.
    + rewrite IH; [rewrite <- app_assoc; reflexivity|].
      rewrite map_app. cbn. rewrite <- app_assoc. cbn.
      apply NoDup_app. split; [exact Hacc|]. split.
      * intros x Hx. apply Hdisj. exact Hx.
      * apply NoDup_cons. split; assumption.
    + intros Hin. apply (Hdisj _ Hin). left.
Qed.

(** Renaming the keys of a dictionary by a function that keeps them apart
    renames each entry in place. *)
Lemma dict_map_keys_injective {V : Type} (f : string -> string) (d : dict V) :
  NoDup (map fst d) ->
  (forall k1 k2, k1 ∈ map fst d -> k2 ∈ map fst d -> f k1 = f k2 -> k1 = k2) ->
  dict_map_keys f d = map (fun kv => (f (fst kv), snd kv)) d.
Proof.
  intros Hnd Hinj. unfold dict_map_keys.
  rewrite dict_map_keys_from; [reflexivity|].
  cbn. apply NoDup_fmap_2_strong; assumption.
Qed.

(** Where no two categories of the retrieved set normalize to the same name,
    the breakdown has one entry per normalized name, holding the
    sum of the amounts of the transactions whose category normalizes to it. *)
Theorem category_breakdown_without_collisions (txs : list Transaction.t) :
  txs <> [] ->
  (forall t1 t2, t1 ∈ txs -> t2 ∈ txs ->
     normalize (Transaction.category t1) = normalize (Transaction.category t2) ->
     Transaction.category t1 = Transaction.category t2) ->
  exists s,
    DataService._calculate_transaction_summary txs = Ok (Some s)
    /\ NoDup (map fst (TransactionSummary.category_breakdown s))
    /\ (forall t, t ∈ txs ->
          normalize (Transaction.category t)
            ∈ map fst (TransactionSummary.category_breakdown s))
    /\ (forall name v,
          (name, v) ∈ TransactionSummary.category_breakdown s ->
          v == spec_category_total txs name).
Proof.
  intros Hne Hinj.
  destruct (transaction_summary_value txs Hne) as (s & Hs & _ & _ & Hbreak).
  exists s. split; [exact Hs|]. rewrite Hbreak.
  unfold DataService.category_spending.
  set (d := sum_by Transaction.category Transaction.amount txs).
  assert (Hkeys : forall k, k ∈ map fst d <-> k ∈ map Transaction.category txs)
    by (intros k; apply sum_by_keys).
  assert (Hnd : NoDup (map fst d)) by apply sum_by_NoDup.
  assert (Hinj' : forall k1 k2, k1 ∈ map fst d -> k2 ∈ map fst d ->
                    normalize k1 = normalize k2 -> k1 = k2).
  { intros k1 k2 H1 H2 Heq.
    apply Hkeys, list_elem_of_fmap in H1 as (t1 & -> & Ht1).
    apply Hkeys, list_elem_of_fmap in H2 as (t2 & -> & Ht2).
    apply Hinj; assumption. }
  rewrite (dict_map_keys_injective normalize d Hnd Hinj').
  split; [|split].
  - rewrite map_map. cbn. rewrite <- (map_map fst normalize).
    apply NoDup_fmap_2_strong; assumption.
  - intros t Ht. rewrite map_map. cbn. rewrite <- (map_map fst normalize).
    apply list_elem_of_fmap. exists (Transaction.category t). split; [reflexivity|].
    apply Hkeys. apply list_elem_of_fmap. exists t. auto.
  - intros name v Hin.
    apply list_elem_of_fmap in Hin as ([k v'] & Heq & Hin).
    cbn in Heq. injection Heq as -> ->.
    rewrite (sum_by_entry Transaction.category Transaction.amount txs k v' Hin).
    unfold spec_category_total, rows_of.
    assert (Hk : k ∈ map Transaction.category txs).
    { apply Hkeys. apply list_elem_of_fmap. exists (k, v'). auto. }
    apply list_elem_of_fmap in Hk as (tk & -> & Htk).
    assert (Hfilter :
      List.filter (fun x => String.eqb (Transaction.category x)
                                       (Transaction.category tk)) txs
      = List.filter (fun x => String.eqb (normalize (Transaction.category x))
                                (normalize (Transaction.category tk))) txs).
    { apply filter_ext_in. intros t Ht. apply list_elem_of_In in Ht.
      destruct (String.eqb_spec (Transaction.category t)
                                (Transaction.category tk)) as [Heq|Hneq].
      - rewrite Heq, String.eqb_refl. reflexivity.
      - symmetry. apply String.eqb_neq. intros Hn. apply Hneq.
        apply Hinj; assumption. }
    rewrite Hfilter. reflexivity.
Qed.

End CategoryBreakdown.

(** * Verification of the further code *)

(** ** Lists *)

Lemma elem_of_take_list {A : Type} (n : nat) (l : list A) (x : A) :
  x ∈ take n l -> x ∈ l.
Proof.
  intros H. rewrite <- (take_drop n l). apply elem_of_app. left. exact H.
Qed.

Lemma elem_of_drop_list {A : Type} (n : nat) (l : list A) (x : A) :
  x ∈ drop n l -> x ∈ l.
Proof.
  intros H. rewrite <- (take_drop n l). apply elem_of_app. right. exact H.
Qed.

(** ** Sorting *)

Section Sorting.

Local Open Scope Q_scope.

Context {A : Type} (key : A -> Q).

Lemma insert_desc_perm (x : A) (l : list A) : insert_desc key x l ≡ₚ x :: l.
Proof.
  induction l as [|y l IH]; cbn; [reflexivity|].
  destruct (Qltb (key x) (key y)); [|reflexivity].
  rewrite IH. apply Permutation_swap.
Qed.

Lemma sorted_desc_perm (l : list A) : sorted_desc key l ≡ₚ l.
Proof.
  induction l as [|x l IH]; cbn; [reflexivity|].
  rewrite insert_desc_perm. f_equiv. exact IH.
Qed.

Lemma sorted_desc_elem (l : list A) (x : A) : x ∈ sorted_desc key l <-> x ∈ l.
Proof. rewrite sorted_desc_perm. reflexivity. Qed.

Lemma sorted_desc_length (l : list A) : length (sorted_desc key l) = length l.
Proof. rewrite sorted_desc_perm. reflexivity. Qed.

Lemma insert_desc_descending (x : A) (l : list A) :
  descending key l -> descending key (insert_desc key x l).
Proof.
  unfold descending. induction l as [|y l IH]; intros Hl; cbn.
  - repeat constructor.
  - apply StronglySorted_inv in Hl as [Hl Hy].
    destruct (Qltb (key x) (key y)) eqn:E.
    + apply Qltb_lt in E. constructor; [apply IH; exact Hl|].
      apply List.Forall_forall. intros z Hz.
      apply list_elem_of_In in Hz. rewrite insert_desc_perm in Hz.
      apply elem_of_cons in Hz as [->|Hz].
      * apply Qlt_le_weak. exact E.
      * rewrite List.Forall_forall in Hy. apply Hy, list_elem_of_In. exact Hz.
    + apply Qltb_ge in E. constructor; [constructor; assumption|].
      constructor; [exact E|].
      eapply Forall_impl; [exact Hy|]. cbn. intros z Hz. lra.
Qed.

Lemma sorted_desc_descending (l : list A) : descending key (sorted_desc key l).
Proof.
  induction l as [|x l IH]; cbn; [constructor|].
  apply insert_desc_descending. exact IH.
Qed.

Lemma descending_take (n : nat) (l : list A) :
  descending key l -> descending key (take n l).
Proof.
  unfold descending. revert n. induction l as [|x l IH]; intros [|n] Hl; cbn;
    try constructor.
  - apply IH. apply StronglySorted_inv in Hl. tauto.
  - apply StronglySorted_inv in Hl as [_ Hx].
    apply List.Forall_forall. intros y Hy.
    rewrite List.Forall_forall in Hx. apply Hx.
    apply list_elem_of_In. apply list_elem_of_In in Hy.
    eapply elem_of_take_list; eauto.
Qed.

(** Whatever [take] leaves behind of a descending list is no greater than
    what it keeps. *)
Lemma descending_take_drop (n : nat) (l : list A) (x y : A) :
  descending key l -> x ∈ take n l -> y ∈ drop n l -> key y <= key x.
Proof.
  unfold descending. revert n. induction l as [|z l IH]; intros [|n] Hl Hx Hy;
    cbn in *; try (inversion Hx; fail).
  apply StronglySorted_inv in Hl as [Hl Hz].
  apply elem_of_cons in Hx as [->|Hx].
  - rewrite List.Forall_forall in Hz. apply Hz.
    apply list_elem_of_In. eapply elem_of_drop_list; eauto.
  - eapply IH; eauto.
Qed.

End Sorting.

Lemma descending_map {A B : Type} (f : A -> B) (key : B -> Q) (l : list A) :
  descending (fun x => key (f x)) l -> descending key (map f l).
Proof.
  unfold descending. induction 1 as [|x l Hl IH Hx]; cbn; constructor.
  - exact IH.
  - apply Forall_map. exact Hx.
Qed.

(** ** The context snapshot *)

Section Snapshot.

Local Open Scope Q_scope.


Lemma recent_transactions_spec (st : Store) (today : Z) (cid : string)
    (t : Transaction.t) :
  t ∈ DataService.recent_transactions st today cid ->
  t ∈ transactions st
  /\ Transaction.customer t = cid
  /\ (today - 180 <= Transaction.date t)%Z.
Proof.
  unfold DataService.recent_transactions. intros H.
  apply elem_of_take_list, sorted_desc_elem, list_elem_of_In, filter_In in H
    as [Hin Htest].
  apply andb_true_iff in Htest as [Hc Hd].
  apply String.eqb_eq in Hc. apply Z.leb_le in Hd.
  split; [apply list_elem_of_In; exact Hin|]. split; assumption.
Qed.

(** X2. The transactions of a snapshot are the retrieved window: at most 50,
    all stored, of this customer and dated within the trailing 180 days,
    newest first; and a transaction of the window that is left out is no
    newer than any that is kept. *)
Theorem snapshot_transactions_window (st : Store) (today : Z) (cid : string)
    (c : Customer.t) :
  customers st !! cid = Some c ->
  exists ctx,
    DataService.get_customer_context st today cid = Ok (Some ctx)
    /\ CustomerContext.transactions ctx
       = map DataService.transaction_dict
             (DataService.recent_transactions st today cid)
    /\ (length (CustomerContext.transactions ctx) <= 50)%nat
    /\ descending (fun t => inject_Z (TransactionDict.date t))
                  (CustomerContext.transactions ctx)
    /\ (forall t, t ∈ DataService.recent_transactions st today cid ->
          t ∈ transactions st
          /\ Transaction.customer t = cid
          /\ (today - 180 <= Transaction.date t)%Z)
    /\ (forall t, t ∈ transactions st ->
          Transaction.customer t = cid ->
          (today - 180 <= Transaction.date t)%Z ->
          t ∈ DataService.recent_transactions st today cid
          \/ forall t', t' ∈ DataService.recent_transactions st today cid ->
                        (Transaction.date t <= Transaction.date t')%Z).
Proof.
  intros Hc. unfold DataService.get_customer_context. rewrite Hc.
  destruct (transaction_summary_total
              (DataService.recent_transactions st today cid)) as [ts Hts].
  destruct (investment_summary_total
              (DataService.customer_investments st cid)) as [ivs Hivs].
  rewrite Hts, Hivs. cbn [mbind result_bind].
  eexists. split; [reflexivity|]. cbn [CustomerContext.transactions].
  split; [reflexivity|]. split.
  { rewrite length_map. unfold DataService.recent_transactions.
    rewrite length_take. lia. }
  split.
  { apply (descending_map DataService.transaction_dict
             (fun t => inject_Z (TransactionDict.date t))).
    cbn. unfold DataService.recent_transactions.
    apply descending_take. apply sorted_desc_descending. }
  split; [intros t; apply recent_transactions_spec|].
  intros t Hin Hcust Hdate.
  unfold DataService.recent_transactions.
  set (window := sorted_desc _ _).
  assert (Ht : t ∈ window).
  { apply sorted_desc_elem, list_elem_of_In, filter_In.
    split; [apply list_elem_of_In; exact Hin|].
    apply andb_true_iff. split; [apply String.eqb_eq; exact Hcust|].
    apply Z.leb_le. exact Hdate. }
  rewrite <- (take_drop 50 window) in Ht.
  apply elem_of_app in Ht as [Ht|Ht]; [left; exact Ht|].
  right. intros t' Ht'.
  pose proof (descending_take_drop (fun t => inject_Z (Transaction.date t))
                50 window t' t (sorted_desc_descending _ _) Ht' Ht) as Hle.
  cbn in Hle. rewrite <- Zle_Qle in Hle. exact Hle.
Qed.

Lemma snapshot_transactions_window_witness :
  customers Sample.fortnight !! "C1" = Some (Sample.customer "C1" "Asha")
  /\ exists ctx,
       DataService.get_customer_context Sample.fortnight 120 "C1" = Ok (Some ctx)
       /\ CustomerContext.transactions ctx
          = map DataService.transaction_dict
                (DataService.recent_transactions Sample.fortnight 120 "C1")
       /\ (length (CustomerContext.transactions ctx) <= 50)%nat
       /\ descending (fun t => inject_Z (TransactionDict.date t))
                     (CustomerContext.transactions ctx)
       /\ (forall t, t ∈ DataService.recent_transactions Sample.fortnight 120 "C1" ->
             t ∈ transactions Sample.fortnight
             /\ Transaction.customer t = "C1"%string
             /\ (120 - 180 <= Transaction.date t)%Z)
       /\ (forall t, t ∈ transactions Sample.fortnight ->
             Transaction.customer t = "C1"%string ->
             (120 - 180 <= Transaction.date t)%Z ->
             t ∈ DataService.recent_transactions Sample.fortnight 120 "C1"
             \/ forall t', t' ∈ DataService.recent_transactions
                                  Sample.fortnight 120 "C1" ->
                           (Transaction.date t <= Transaction.date t')%Z).
Proof.
  split; [reflexivity|].
  apply (snapshot_transactions_window Sample.fortnight 120 "C1"
           (Sample.customer "C1" "Asha")).
  reflexivity.
Defined.

Lemma summary_counts (txs : list Transaction.t) (r : option TransactionSummary.t) :
  DataService._calculate_transaction_summary txs = Ok r ->
  (r = None <-> txs = [])
  /\ forall s, r = Some s -> TransactionSummary.transaction_count s = length txs.
Proof.
  destruct txs as [|t txs].
  - cbn. intros H. injection H as <-. split; [tauto|discriminate].
  - intros H.
    destruct (transaction_summary_value (t :: txs)) as (s & Hs & _);
      [discriminate|].
    unfold DataService._calculate_transaction_summary in Hs, H.
    cbn [map] in Hs, H. rewrite py_div_ok in H by apply or_one_nonzero.
    cbn [mbind result_bind] in H. injection H as <-.
    split; [split; discriminate|].
    intros s' Hs'. injection Hs' as <-. reflexivity.
Qed.

Lemma investment_counts (invs : list Investment.t)
    (r : option InvestmentSummary.t) :
  DataService._calculate_investment_summary invs = Ok r ->
  (r = None <-> invs = [])
  /\ forall s, r = Some s -> InvestmentSummary.investment_count s = length invs.
Proof.
  destruct invs as [|i invs].
  - cbn. intros H. injection H as <-. split; [tauto|discriminate].
  - unfold DataService._calculate_investment_summary.
    destruct (Qltb 0 _) eqn:E.
    + rewrite py_div_ok.
      * cbn [mbind result_bind]. intros H. injection H as <-.
        split; [split; discriminate|].
        intros s' Hs'. injection Hs' as <-. reflexivity.
      * apply Qltb_lt in E. intros H0. rewrite H0 in E.
        apply (Qlt_irrefl 0 E).
    + cbn [mbind result_bind]. intros H. injection H as <-.
      split; [split; discriminate|].
      intros s' Hs'. injection Hs' as <-. reflexivity.
Qed.

(** X3. In a snapshot, a summary is the empty mapping exactly when its list
    is empty (it is never a summary of zeros), and a summary that is there
    counts exactly the entries of its list. *)
Theorem snapshot_summaries_match_lists (st : Store) (today : Z) (cid : string)
    (ctx : CustomerContext.t) :
  DataService.get_customer_context st today cid = Ok (Some ctx) ->
  (CustomerContext.transaction_summary ctx = None
   <-> CustomerContext.transactions ctx = [])
  /\ (forall s, CustomerContext.transaction_summary ctx = Some s ->
        TransactionSummary.transaction_count s
        = length (CustomerContext.transactions ctx))
  /\ (CustomerContext.investment_summary ctx = None
      <-> CustomerContext.investments ctx = [])
  /\ (forall s, CustomerContext.investment_summary ctx = Some s ->
        InvestmentSummary.investment_count s
        = length (CustomerContext.investments ctx)).
Proof.
  unfold DataService.get_customer_context.
  destruct (customers st !! cid) as [c|]; [|discriminate].
  destruct (DataService._calculate_transaction_summary _) as [ts|e] eqn:Hts;
    [|discriminate].
  destruct (DataService._calculate_investment_summary _) as [ivs|e] eqn:Hivs;
    [|discriminate].
  cbn [mbind result_bind]. intros H. injection H as <-.
  cbn [CustomerContext.transaction_summary CustomerContext.transactions
       CustomerContext.investment_summary CustomerContext.investments].
  destruct (summary_counts _ _ Hts) as [Hte Htc].
  destruct (investment_counts _ _ Hivs) as [Hie Hic].
  rewrite !length_map. repeat split; auto.
  - intros H. apply Hte in H. rewrite H. reflexivity.
  - intros H. apply Hte. apply map_eq_nil in H. exact H.
  - intros H. apply Hie in H. rewrite H. reflexivity.
  - intros H. apply Hie. apply map_eq_nil in H. exact H.
Qed.

Lemma snapshot_summaries_match_lists_witness :
  exists ctx,
    DataService.get_customer_context Sample.fortnight 120 "C1" = Ok (Some ctx)
    /\ (CustomerContext.transaction_summary ctx = None
        <-> CustomerContext.transactions ctx = [])
    /\ (forall s, CustomerContext.transaction_summary ctx = Some s ->
          TransactionSummary.transaction_count s
          = length (CustomerContext.transactions ctx))
    /\ (CustomerContext.investment_summary ctx = None
        <-> CustomerContext.investments ctx = [])
    /\ (forall s, CustomerContext.investment_summary ctx = Some s ->
          InvestmentSummary.investment_count s
          = length (CustomerContext.investments ctx)).
Proof.
  eexists. split; [vm_compute; reflexivity|].
  apply (snapshot_summaries_match_lists Sample.fortnight 120 "C1").
  vm_compute. reflexivity.
Defined.

End Snapshot.

(** ** The two summaries *)

Section SummaryFigures.

Local Open Scope Q_scope.

Lemma py_sum_perm (l1 l2 : list Q) : l1 ≡ₚ l2 -> py_sum l1 == py_sum l2.
Proof.
  induction 1 as [|x l1 l2 _ IH|x y l|l1 l2 l3 _ IH1 _ IH2].
  - reflexivity.
  - rewrite !py_sum_cons, IH. reflexivity.
  - rewrite !py_sum_cons. lra.
  - rewrite IH1. exact IH2.
Qed.

Lemma transaction_summary_top (txs : list Transaction.t) :
  txs <> [] ->
  exists s,
    DataService._calculate_transaction_summary txs = Ok (Some s)
    /\ TransactionSummary.top_categories s
       = map (fun cat => normalize (fst cat))
             (take 3 (take 5 (sorted_desc snd (DataService.category_spending txs)))).
Proof.
  intros Hne. destruct txs as [|t txs]; [congruence|].
  unfold DataService._calculate_transaction_summary.
  cbn [map]. rewrite py_div_ok by apply or_one_nonzero.
  eexists. split; reflexivity.
Qed.

(** X4. The top categories of a transaction summary are the normalized names
    of at most three spending categories, in non-increasing order of the
    amount spent; each amount is the sum over the transactions of that raw
    category, and no category left out has spent more than one listed. *)
Theorem top_categories_are_highest (txs : list Transaction.t) :
  txs <> [] ->
  exists s top,
    DataService._calculate_transaction_summary txs = Ok (Some s)
    /\ TransactionSummary.top_categories s
       = map (fun cat => normalize (fst cat)) top
    /\ (length top <= 3)%nat
    /\ descending snd top
    /\ (forall k v, (k, v) ∈ top ->
          k ∈ map Transaction.category txs
          /\ v == py_sum (map Transaction.amount
                            (rows_of Transaction.category k txs)))
    /\ (forall k, k ∈ map Transaction.category txs ->
          k ∈ map fst top
          \/ forall e, e ∈ top ->
               py_sum (map Transaction.amount
                         (rows_of Transaction.category k txs)) <= snd e).
Proof.
  intros Hne.
  destruct (transaction_summary_top txs Hne) as (s & Hs & Htop).
  set (d := DataService.category_spending txs) in *.
  set (sorted := sorted_desc snd d) in *.
  exists s, (take 3 sorted).
  split; [exact Hs|]. split.
  { rewrite Htop. rewrite take_take. reflexivity. }
  split; [rewrite length_take; lia|].
  split; [apply descending_take, sorted_desc_descending|].
  assert (Hentry : forall k v, (k, v) ∈ sorted ->
            k ∈ map Transaction.category txs
            /\ v == py_sum (map Transaction.amount
                              (rows_of Transaction.category k txs))).
  { intros k v Hin. apply sorted_desc_elem in Hin. split.
    - apply (sum_by_keys Transaction.category Transaction.amount).
      apply list_elem_of_fmap. exists (k, v). auto.
    - apply sum_by_entry. exact Hin. }
  split.
  { intros k v Hin. apply Hentry. eapply elem_of_take_list. exact Hin. }
  intros k Hk.
  apply (sum_by_keys Transaction.category Transaction.amount) in Hk.
  apply list_elem_of_fmap in Hk as ([k' v] & Hk' & Hin). cbn in Hk'. subst k'.
  apply (proj2 (sorted_desc_elem snd d (k, v))) in Hin.
  change ((k, v) ∈ sorted) in Hin.
  pose proof Hin as Hin'.
  rewrite <- (take_drop 3 sorted) in Hin.
  apply elem_of_app in Hin as [Hin|Hin].
  - left. apply list_elem_of_fmap. exists (k, v). auto.
  - right. intros e He.
    destruct (Hentry k v Hin') as [_ Hv]. rewrite <- Hv.
    apply (descending_take_drop snd 3 sorted e (k, v)
             (sorted_desc_descending _ _) He Hin).
Qed.

Lemma top_categories_are_highest_witness :
  exists s top,
    DataService._calculate_transaction_summary
      (transactions Sample.fortnight) = Ok (Some s)
    /\ TransactionSummary.top_categories s
       = map (fun cat => normalize (fst cat)) top
    /\ (length top <= 3)%nat
    /\ descending snd top
    /\ (forall k v, (k, v) ∈ top ->
          k ∈ map Transaction.category (transactions Sample.fortnight)
          /\ v == py_sum (map Transaction.amount
                            (rows_of Transaction.category k
                                     (transactions Sample.fortnight))))
    /\ (forall k, k ∈ map Transaction.category (transactions Sample.fortnight) ->
          k ∈ map fst top
          \/ forall e, e ∈ top ->
               py_sum (map Transaction.amount
                         (rows_of Transaction.category k
                                  (transactions Sample.fortnight))) <= snd e).
Proof.
  apply (top_categories_are_highest (transactions Sample.fortnight)).
  discriminate.
Defined.

(** X5. Where no two categories of the summarized transactions normalize to
    the same name, the amounts of the category breakdown add up to the total
    spent. *)
Theorem category_breakdown_adds_up (txs : list Transaction.t) :
  txs <> [] ->
  (forall t1 t2, t1 ∈ txs -> t2 ∈ txs ->
     normalize (Transaction.category t1) = normalize (Transaction.category t2) ->
     Transaction.category t1 = Transaction.category t2) ->
  exists s,
    DataService._calculate_transaction_summary txs = Ok (Some s)
    /\ py_sum (map snd (TransactionSummary.category_breakdown s))
       == TransactionSummary.total_spent s.
Proof.
  intros Hne Hinj.
  destruct (transaction_summary_value txs Hne) as (s & Hs & Htot & _ & Hbreak).
  exists s. split; [exact Hs|]. rewrite Hbreak, Htot.
  unfold DataService.category_spending.
  set (d := sum_by Transaction.category Transaction.amount txs).
  assert (Hkeys : forall k, k ∈ map fst d <-> k ∈ map Transaction.category txs)
    by (intros k; apply sum_by_keys).
  rewrite dict_map_keys_injective.
  - rewrite map_map. cbn. apply sum_by_total.
  - apply sum_by_NoDup.
  - intros k1 k2 H1 H2 Heq.
    apply Hkeys, list_elem_of_fmap in H1 as (t1 & -> & Ht1).
    apply Hkeys, list_elem_of_fmap in H2 as (t2 & -> & Ht2).
    apply Hinj; assumption.
Qed.

Lemma category_breakdown_adds_up_witness :
  exists s,
    DataService._calculate_transaction_summary
      (transactions Sample.fortnight) = Ok (Some s)
    /\ py_sum (map snd (TransactionSummary.category_breakdown s))
       == TransactionSummary.total_spent s.
Proof.
  apply (category_breakdown_adds_up (transactions Sample.fortnight));
    [discriminate|].
  intros t1 t2 H1 H2.
  repeat (apply elem_of_cons in H1 as [->|H1]);
    repeat (apply elem_of_cons in H2 as [->|H2]);
    try (inversion H1; fail); try (inversion H2; fail);
    vm_compute; congruence.
Defined.

Lemma max_by_first {A : Type} (key : A -> Q) (l : list A) (best : A) :
  exists before after,
    best :: l = before ++ max_by key best l :: after
    /\ (forall x, x ∈ before -> key x < key (max_by key best l))
    /\ (forall x, x ∈ best :: l -> key x <= key (max_by key best l)).
Proof.
  revert best. induction l as [|x l IH]; intros best; cbn [max_by].
  - exists [], []. split; [reflexivity|]. split.
    + intros y Hy. inversion Hy.
    + intros y Hy. apply list_elem_of_singleton in Hy. subst y. lra.
  - destruct (Qltb (key best) (key x)) eqn:E.
    + apply Qltb_lt in E.
      destruct (IH x) as (before & after & Heq & Hlt & Hle).
      exists (best :: before), after. split; [cbn; rewrite Heq; reflexivity|].
      assert (Hx : key x <= key (max_by key x l)) by (apply Hle; left).
      split.
      * intros y Hy. apply elem_of_cons in Hy as [->|Hy]; [lra|auto].
      * intros y Hy. apply elem_of_cons in Hy as [->|Hy]; [lra|auto].
    + apply Qltb_ge in E.
      destruct (IH best) as (before & after & Heq & Hlt & Hle).
      destruct before as [|b0 before].
      * cbn in Heq. injection Heq as Hb Hl.
        exists [], (x :: after). split; [cbn; rewrite <- Hb, Hl; reflexivity|].
        split; [intros y Hy; inversion Hy|].
        intros y Hy. rewrite <- Hb.
        apply elem_of_cons in Hy as [->|Hy]; [lra|].
        apply elem_of_cons in Hy as [->|Hy]; [exact E|].
        rewrite Hb. apply Hle. right. exact Hy.
      * cbn in Heq. injection Heq as <- Hl.
        assert (Hbest : key best < key (max_by key best l))
          by (apply Hlt; left).
        exists (best :: x :: before), after.
        split; [cbn; do 2 f_equal; exact Hl|]. split.
        -- intros y Hy. apply elem_of_cons in Hy as [->|Hy]; [exact Hbest|].
           apply elem_of_cons in Hy as [->|Hy]; [lra|].
           apply Hlt. right. exact Hy.
        -- intros y Hy. apply elem_of_cons in Hy as [->|Hy]; [lra|].
           apply elem_of_cons in Hy as [->|Hy]; [lra|].
           apply Hle. right. exact Hy.
Qed.

(** The product-type counter of the investment summary. *)
Lemma product_types_keys (invs : list Investment.t) (acc : dict nat) :
  let counted :=
    fold_left (fun d i =>
                 let ptype := normalize (Investment.product_type i) in
                 dict_set ptype (dict_get ptype d 0%nat + 1)%nat d)
              invs acc in
  (NoDup (map fst acc) -> NoDup (map fst counted))
  /\ forall name,
       name ∈ map fst counted <->
       name ∈ map fst acc
       \/ exists i, i ∈ invs /\ normalize (Investment.product_type i) = name.
Proof.
  revert acc. induction invs as [|i invs IH]; intros acc; cbn.
  - split; [auto|]. intros name. split; [auto|].
    intros [H|(i & Hi & _)]; [exact H|inversion Hi].
  - specialize (IH (dict_set (normalize (Investment.product_type i))
                      (dict_get (normalize (Investment.product_type i)) acc 0
                       + 1)%nat acc)).
    cbn in IH. destruct IH as [IHnd IHkeys]. split.
    + intros Hnd. apply IHnd. apply dict_set_NoDup. exact Hnd.
    + intros name. rewrite IHkeys, dict_set_keys.
      destruct (decide (normalize (Investment.product_type i) ∈ map fst acc))
        as [Hin|Hnin].
      * split.
        -- intros [H|(j & Hj & Hn)]; [left; exact H|].
           right. exists j. split; [right; exact Hj|exact Hn].
        -- intros [H|(j & Hj & Hn)]; [left; exact H|].
           apply elem_of_cons in Hj as [->|Hj].
           ++ left. rewrite <- Hn. exact Hin.
           ++ right. exists j. auto.
      * rewrite elem_of_app, list_elem_of_singleton. split.
        -- intros [[H|H]|(j & Hj & Hn)].
           ++ left. exact H.
           ++ right. exists i. split; [left|symmetry; exact H].
           ++ right. exists j. split; [right; exact Hj|exact Hn].
        -- intros [H|(j & Hj & Hn)]; [left; left; exact H|].
           apply elem_of_cons in Hj as [->|Hj].
           ++ left. right. symmetry. exact Hn.
           ++ right. exists j. auto.
Qed.

Lemma investment_summary_fields (invs : list Investment.t) (i0 : Investment.t)
    (rest : list Investment.t) :
  invs = i0 :: rest ->
  exists s,
    DataService._calculate_investment_summary invs = Ok (Some s)
    /\ InvestmentSummary.total_invested s
       = py_sum (map Investment.invested_amount invs)
    /\ InvestmentSummary.current_value s
       = py_sum (map Investment.current_value invs)
    /\ InvestmentSummary.total_returns s
       = py_sum (map Investment.current_value invs)
         - py_sum (map Investment.invested_amount invs)
    /\ InvestmentSummary.best_performer s
       = Some (Investment.product_name
                 (max_by Investment.returns_percentage i0 rest),
               Investment.returns_percentage
                 (max_by Investment.returns_percentage i0 rest))
    /\ InvestmentSummary.product_types s
       = map fst
           (fold_left (fun d i =>
                         let ptype := normalize (Investment.product_type i) in
                         dict_set ptype (dict_get ptype d 0%nat + 1)%nat d)
                      invs []).
Proof.
  intros ->. unfold DataService._calculate_investment_summary.
  destruct (Qltb 0 _) eqn:E.
  - rewrite py_div_ok.
    + eexists. split; [reflexivity|]. cbn. repeat split; reflexivity.
    + apply Qltb_lt in E. intros H0. rewrite H0 in E. apply (Qlt_irrefl 0 E).
  - eexists. split; [reflexivity|]. cbn. repeat split; reflexivity.
Qed.

(** X6. The investment summary of a non-empty set carries the sums of the
    invested amounts and of the current values and their difference as total
    returns, and names as best performer the first investment, in the order
    given, whose stored returns percentage is the greatest. *)
Theorem investment_summary_best_performer (invs : list Investment.t) :
  invs <> [] ->
  exists s best before after,
    DataService._calculate_investment_summary invs = Ok (Some s)
    /\ InvestmentSummary.total_invested s
       = py_sum (map Investment.invested_amount invs)
    /\ InvestmentSummary.current_value s
       = py_sum (map Investment.current_value invs)
    /\ InvestmentSummary.total_returns s
       = InvestmentSummary.current_value s - InvestmentSummary.total_invested s
    /\ InvestmentSummary.best_performer s
       = Some (Investment.product_name best, Investment.returns_percentage best)
    /\ invs = before ++ best :: after
    /\ (forall i, i ∈ before ->
          Investment.returns_percentage i < Investment.returns_percentage best)
    /\ (forall i, i ∈ invs ->
          Investment.returns_percentage i <= Investment.returns_percentage best).
Proof.
  intros Hne. destruct invs as [|i0 rest]; [congruence|].
  destruct (investment_summary_fields (i0 :: rest) i0 rest eq_refl)
    as (s & Hs & Hinv & Hcur & Hret & Hbest & _).
  destruct (max_by_first Investment.returns_percentage rest i0)
    as (before & after & Heq & Hlt & Hle).
  exists s, (max_by Investment.returns_percentage i0 rest), before, after.
  split; [exact Hs|]. split; [exact Hinv|]. split; [exact Hcur|].
  split; [rewrite Hret, Hcur, Hinv; reflexivity|].
  split; [exact Hbest|]. split; [exact Heq|]. split; assumption.
Qed.

Lemma investment_summary_best_performer_witness :
  exists s best before after,
    DataService._calculate_investment_summary (investments Sample.thirds)
    = Ok (Some s)
    /\ InvestmentSummary.total_invested s
       = py_sum (map Investment.invested_amount (investments Sample.thirds))
    /\ InvestmentSummary.current_value s
       = py_sum (map Investment.current_value (investments Sample.thirds))
    /\ InvestmentSummary.total_returns s
       = InvestmentSummary.current_value s - InvestmentSummary.total_invested s
    /\ InvestmentSummary.best_performer s
       = Some (Investment.product_name best, Investment.returns_percentage best)
    /\ investments Sample.thirds = before ++ best :: after
    /\ (forall i, i ∈ before ->
          Investment.returns_percentage i < Investment.returns_percentage best)
    /\ (forall i, i ∈ investments Sample.thirds ->
          Investment.returns_percentage i <= Investment.returns_percentage best).
Proof.
  apply (investment_summary_best_performer (investments Sample.thirds)).
  discriminate.
Defined.

(** X7. The product types of an investment summary are the normalized
    product types of the investments, each listed once: two spellings that
    normalize alike share one entry. *)
Theorem investment_summary_product_types (invs : list Investment.t) :
  invs <> [] ->
  exists s,
    DataService._calculate_investment_summary invs = Ok (Some s)
    /\ NoDup (InvestmentSummary.product_types s)
    /\ forall name,
         name ∈ InvestmentSummary.product_types s <->
         exists i, i ∈ invs /\ normalize (Investment.product_type i) = name.
Proof.
  intros Hne. destruct invs as [|i0 rest]; [congruence|].
  destruct (investment_summary_fields (i0 :: rest) i0 rest eq_refl)
    as (s & Hs & _ & _ & _ & _ & Htypes).
  exists s. split; [exact Hs|]. rewrite Htypes.
  destruct (product_types_keys (i0 :: rest) []) as [Hnd Hkeys].
  split; [apply Hnd; constructor|].
  intros name. rewrite Hkeys. split; [|auto].
  intros [H|H]; [inversion H|exact H].
Qed.

Lemma investment_summary_product_types_witness :
  exists s,
    DataService._calculate_investment_summary (investments Sample.thirds)
    = Ok (Some s)
    /\ NoDup (InvestmentSummary.product_types s)
    /\ forall name,
         name ∈ InvestmentSummary.product_types s <->
         exists i, i ∈ investments Sample.thirds
                   /\ normalize (Investment.product_type i) = name.
Proof.
  apply (investment_summary_product_types (investments Sample.thirds)).
  discriminate.
Defined.

End SummaryFigures.

(** ** Filtered queries and spending by category *)

Section Queries.

Local Open Scope Q_scope.

Lemma filter_if_elem {A B : Type} (value : option B) (test : B -> A -> bool)
    (l : list A) (x : A) :
  x ∈ filter_if value test l <->
  x ∈ l /\ forall v, value = Some v -> test v x = true.
Proof.
  destruct value as [v|]; cbn.
  - rewrite list_elem_of_In, filter_In, <- list_elem_of_In. split.
    + intros [Hin Ht]. split; [exact Hin|]. intros v' Hv.
      injection Hv as <-. exact Ht.
    + intros [Hin Ht]. split; [exact Hin|]. apply Ht. reflexivity.
  - split; [|tauto]. intros Hin. split; [exact Hin|]. discriminate.
Qed.

(** X8. [query_transactions] returns exactly the stored transactions of the
    customer that pass every filter that is present (category equal, date
    within the inclusive bounds, amount at least the minimum), newest first;
    with no filters it returns all transactions of the customer. *)
Theorem query_transactions_sound_complete (st : Store) (cid : string)
    (filters : option TransactionFilters.t) :
  exists rows,
    DataServiceQueries.query_transactions st cid filters
    = map DataService.transaction_dict rows
    /\ descending (fun t => inject_Z (Transaction.date t)) rows
    /\ forall t,
         t ∈ rows <->
         t ∈ transactions st
         /\ Transaction.customer t = cid
         /\ forall f, filters = Some f ->
              (forall c, TransactionFilters.category f = Some c ->
                 Transaction.category t = c)
              /\ (forall d, TransactionFilters.start_date f = Some d ->
                    (d <= Transaction.date t)%Z)
              /\ (forall d, TransactionFilters.end_date f = Some d ->
                    (Transaction.date t <= d)%Z)
              /\ (forall a, TransactionFilters.min_amount f = Some a ->
                    a <= Transaction.amount t).
Proof.
  unfold DataServiceQueries.query_transactions.
  eexists. split; [reflexivity|]. split; [apply sorted_desc_descending|].
  intros t. rewrite sorted_desc_elem.
  assert (Hbase : forall x,
            x ∈ List.filter
                  (fun t => String.eqb (Transaction.customer t) cid)
                  (transactions st)
            <-> x ∈ transactions st /\ Transaction.customer x = cid).
  { intros x. rewrite list_elem_of_In, filter_In, <- list_elem_of_In.
    rewrite String.eqb_eq. reflexivity. }
  destruct filters as [f|].
  - rewrite !filter_if_elem, Hbase. split.
    + intros ((((Hin & Hcat) & Hstart) & Hend) & Hmin).
      destruct Hin as [Hin Hc]. split; [exact Hin|]. split; [exact Hc|].
      intros f' Hf. injection Hf as <-. repeat split.
      * intros c Hc'. apply String.eqb_eq. apply Hcat. exact Hc'.
      * intros d Hd. apply Z.leb_le. apply Hstart. exact Hd.
      * intros d Hd. apply Z.leb_le. apply Hend. exact Hd.
      * intros a Ha. apply Qle_bool_iff. apply Hmin. exact Ha.
    + intros (Hin & Hc & Hf).
      destruct (Hf f eq_refl) as (Hcat & Hstart & Hend & Hmin).
      repeat split; auto.
      * intros c Hc'. apply String.eqb_eq. apply Hcat. exact Hc'.
      * intros d Hd. apply Z.leb_le. apply Hstart. exact Hd.
      * intros d Hd. apply Z.leb_le. apply Hend. exact Hd.
      * intros a Ha. apply Qle_bool_iff. apply Hmin. exact Ha.
  - rewrite Hbase. split.
    + intros [Hin Hc]. split; [exact Hin|]. split; [exact Hc|]. discriminate.
    + intros (Hin & Hc & _). split; assumption.
Qed.

(** X9. [query_investments] returns exactly the stored investments of the
    customer whose product type and risk level equal the filters that are
    present, in non-increasing order of the stored returns percentage. *)
Theorem query_investments_sound_complete (st : Store) (cid : string)
    (filters : option InvestmentFilters.t) :
  exists rows,
    DataServiceQueries.query_investments st cid filters
    = map DataServiceQueries.investment_detail rows
    /\ descending Investment.returns_percentage rows
    /\ forall i,
         i ∈ rows <->
         i ∈ investments st
         /\ Investment.customer i = cid
         /\ forall f, filters = Some f ->
              (forall p, InvestmentFilters.product_type f = Some p ->
                 Investment.product_type i = p)
              /\ (forall r, InvestmentFilters.risk_level f = Some r ->
                    Investment.risk_level i = r).
Proof.
  unfold DataServiceQueries.query_investments.
  eexists. split; [reflexivity|]. split; [apply sorted_desc_descending|].
  intros i. rewrite sorted_desc_elem.
  assert (Hbase : forall x,
            x ∈ List.filter
                  (fun i => String.eqb (Investment.customer i) cid)
                  (investments st)
            <-> x ∈ investments st /\ Investment.customer x = cid).
  { intros x. rewrite list_elem_of_In, filter_In, <- list_elem_of_In.
    rewrite String.eqb_eq. reflexivity. }
  destruct filters as [f|].
  - rewrite !filter_if_elem, Hbase. split.
    + intros ((Hin & Hp) & Hr).
      destruct Hin as [Hin Hc]. split; [exact Hin|]. split; [exact Hc|].
      intros f' Hf. injection Hf as <-. split.
      * intros p Hp'. apply String.eqb_eq. apply Hp. exact Hp'.
      * intros r Hr'. apply String.eqb_eq. apply Hr. exact Hr'.
    + intros (Hin & Hc & Hf).
      destruct (Hf f eq_refl) as (Hp & Hr).
      repeat split; auto.
      * intros p Hp'. apply String.eqb_eq. apply Hp. exact Hp'.
      * intros r Hr'. apply String.eqb_eq. apply Hr. exact Hr'.
  - rewrite Hbase. split.
    + intros [Hin Hc]. split; [exact Hin|]. split; [exact Hc|]. discriminate.
    + intros (Hin & Hc & _). split; assumption.
Qed.

Lemma sum_list_with_step {A : Type} (f : A -> nat) (x : A) (l : list A) :
  sum_list_with f (x :: l) = (f x + sum_list_with f l)%nat.
Proof. reflexivity. Qed.

Lemma rows_of_step {A : Type} (key : A -> string) (k : string) (x : A)
    (l : list A) :
  length (rows_of key k (x :: l))
  = ((if String.eqb (key x) k then 1 else 0) + length (rows_of key k l))%nat.
Proof. unfold rows_of. cbn. destruct (String.eqb (key x) k); reflexivity. Qed.

Lemma rows_of_counts_step {A : Type} (key : A -> string) (x : A) (l : list A)
    (ks : list string) :
  NoDup ks ->
  sum_list_with (fun k => length (rows_of key k (x :: l))) ks
  = ((if decide (key x ∈ ks) then 1 else 0)
     + sum_list_with (fun k => length (rows_of key k l)) ks)%nat.
Proof.
  induction ks as [|k ks IH]; intros Hnd.
  - destruct (decide (key x ∈ [])) as [H|_]; [inversion H|reflexivity].
  - apply NoDup_cons in Hnd as [Hk Hnd].
    rewrite !sum_list_with_step, (IH Hnd), rows_of_step.
    destruct (String.eqb_spec (key x) k) as [Heq|Hne].
    + rewrite Heq.
      destruct (decide (k ∈ ks)) as [H|_]; [contradiction|].
      destruct (decide (k ∈ k :: ks)) as [_|H]; [lia|].
      exfalso. apply H. left.
    + destruct (decide (key x ∈ ks)) as [H|H];
        destruct (decide (key x ∈ k :: ks)) as [H'|H'].
      * lia.
      * exfalso. apply H'. right. exact H.
      * exfalso. apply elem_of_cons in H' as [Heq|H']; [congruence|auto].
      * lia.
Qed.

(** The groups of a list by key partition it. *)
Lemma rows_of_counts {A : Type} (key : A -> string) (l : list A)
    (ks : list string) :
  NoDup ks ->
  (forall x, x ∈ l -> key x ∈ ks) ->
  sum_list_with (fun k => length (rows_of key k l)) ks = length l.
Proof.
  intros Hnd. induction l as [|x l IH]; intros Hcover.
  - clear. induction ks as [|k ks IHk]; [reflexivity|].
    rewrite sum_list_with_step, IHk. reflexivity.
  - rewrite (rows_of_counts_step key x l ks Hnd), IH.
    + destruct (decide (key x ∈ ks)) as [_|H]; [reflexivity|].
      exfalso. apply H. apply Hcover. left.
    + intros y Hy. apply Hcover. right. exact Hy.
Qed.

(** X10. [get_spending_by_category] lists one entry per raw category of the
    customer's transactions of the trailing [months * 30] days, in
    non-increasing order of the total: every entry carries the normalized
    name, the sum and the number of the transactions of its category, counts
    at least one transaction, and the totals and the counts of all entries
    add up to the sum and the number of the transactions of the window. *)
Theorem spending_by_category_rollup (st : Store) (today : Z) (cid : string)
    (months : Z) :
  let window := DataServiceQueries.spending_window st today cid months in
  let categories :=
    snd (DataServiceQueries.get_spending_by_category st today cid months) in
  descending CategorySpending.total categories
  /\ py_sum (map CategorySpending.total categories)
     == py_sum (map Transaction.amount window)
  /\ sum_list_with CategorySpending.transaction_count categories = length window
  /\ (forall t, t ∈ window <->
        t ∈ transactions st /\ Transaction.customer t = cid
        /\ (today - months * 30 <= Transaction.date t)%Z)
  /\ exists raw,
       NoDup raw
       /\ (forall k, k ∈ raw <-> k ∈ map Transaction.category window)
       /\ Forall2
            (fun k e =>
               CategorySpending.category e = normalize k
               /\ CategorySpending.total e
                  == py_sum (map Transaction.amount
                               (rows_of Transaction.category k window))
               /\ CategorySpending.transaction_count e
                  = length (rows_of Transaction.category k window)
               /\ (0 < CategorySpending.transaction_count e)%nat)
            raw categories.
Proof.
  intros window categories.
  unfold categories, DataServiceQueries.get_spending_by_category.
  fold window. cbn [snd].
  set (d := sum_by Transaction.category Transaction.amount window).
  set (sorted := sorted_desc snd d).
  assert (Hperm : sorted ≡ₚ d) by apply sorted_desc_perm.
  assert (Hnd : NoDup (map fst sorted)).
  { rewrite Hperm. apply sum_by_NoDup. }
  assert (Hkeys : forall k, k ∈ map fst sorted
                            <-> k ∈ map Transaction.category window).
  { intros k. rewrite Hperm. apply sum_by_keys. }
  split.
  { apply (descending_map _ CategorySpending.total). cbn.
    apply sorted_desc_descending. }
  split.
  { rewrite map_map. cbn.
    change (map (fun x : string * Q => snd x) sorted) with (map snd sorted).
    rewrite (py_sum_perm (map snd sorted) (map snd d))
      by (apply Permutation_map; exact Hperm).
    apply sum_by_total. }
  split.
  { rewrite <- (rows_of_counts Transaction.category window (map fst sorted) Hnd).
    - clear. induction sorted as [|e l IH]; cbn; [reflexivity|].
      rewrite IH. reflexivity.
    - intros t Ht. apply Hkeys. apply list_elem_of_fmap. exists t. auto. }
  split.
  { intros t. unfold window, DataServiceQueries.spending_window.
    rewrite list_elem_of_In, filter_In, <- list_elem_of_In.
    rewrite andb_true_iff, String.eqb_eq, Z.leb_le. tauto. }
  exists (map fst sorted). split; [exact Hnd|]. split; [exact Hkeys|].
  assert (Hfacts : forall e, e ∈ sorted ->
            e ∈ d /\ fst e ∈ map Transaction.category window).
  { intros e He. split; [rewrite <- Hperm; exact He|].
    apply Hkeys. apply list_elem_of_fmap. exists e. auto. }
  clear Hnd Hperm Hkeys. clearbody sorted.
  induction sorted as [|[k v] l IH]; cbn; constructor.
  - destruct (Hfacts (k, v)) as [Hd Hk]; [left|].
    cbn. split; [reflexivity|]. split.
    + apply sum_by_entry with (val := Transaction.amount). exact Hd.
    + split; [reflexivity|].
      cbn in Hk. apply list_elem_of_fmap in Hk as (t & -> & Ht).
      unfold rows_of.
      assert (Hin : In t (List.filter
                            (fun x => String.eqb (Transaction.category x)
                                        (Transaction.category t)) window)).
      { apply filter_In. split; [apply list_elem_of_In; exact Ht|].
        apply String.eqb_refl. }
      destruct (List.filter _ window); [inversion Hin|cbn; lia].
  - apply IH. intros e He. apply Hfacts. right. exact He.
Qed.

End Queries.

(** ** Strings *)

Section Strings.

Ltac by_cases_on_ascii c :=
  destruct c as [[] [] [] [] [] [] [] []]; reflexivity.

Lemma to_lower_idempotent (c : ascii) :
  PyStr.to_lower (PyStr.to_lower c) = PyStr.to_lower c.
Proof. by_cases_on_ascii c. Qed.





Lemma is_space_to_lower (c : ascii) :
  PyStr.is_space (PyStr.to_lower c) = PyStr.is_space c.
Proof. by_cases_on_ascii c. Qed.

Lemma lower_idempotent (s : string) : PyStr.lower (PyStr.lower s) = PyStr.lower s.
Proof.
  unfold PyStr.lower. induction s as [|c s IH]; cbn; [reflexivity|].
  rewrite to_lower_idempotent, IH. reflexivity.
Qed.

Lemma lstrip_lower (s : string) :
  PyStr.lstrip (PyStr.lower s) = PyStr.lower (PyStr.lstrip s).
Proof.
  unfold PyStr.lower. induction s as [|c s IH]; cbn; [reflexivity|].
  rewrite is_space_to_lower. destruct (PyStr.is_space c); [exact IH|reflexivity].
Qed.

Lemma rstrip_lower (s : string) :
  PyStr.rstrip (PyStr.lower s) = PyStr.lower (PyStr.rstrip s).
Proof.
  unfold PyStr.lower. induction s as [|c s IH]; cbn; [reflexivity|].
  rewrite IH, is_space_to_lower.
  destruct (PyStr.rstrip s); cbn; [|reflexivity].
  destruct (PyStr.is_space c); reflexivity.
Qed.

Lemma strip_lower (s : string) :
  PyStr.strip (PyStr.lower s) = PyStr.lower (PyStr.strip s).
Proof. unfold PyStr.strip. rewrite lstrip_lower, rstrip_lower. reflexivity. Qed.

Lemma rstrip_idempotent (s : string) :
  PyStr.rstrip (PyStr.rstrip s) = PyStr.rstrip s.
Proof.
  induction s as [|c s IH]; cbn; [reflexivity|].
  destruct (PyStr.rstrip s) as [|c' r] eqn:E.
  - destruct (PyStr.is_space c) eqn:Ec; cbn; [reflexivity|].
    rewrite Ec. reflexivity.
  - cbn [PyStr.rstrip]. cbn [PyStr.rstrip] in IH. rewrite IH. reflexivity.
Qed.

Lemma lstrip_clean_head (s : string) : clean_head (PyStr.lstrip s).
Proof.
  induction s as [|c s IH]; cbn; [exact I|].
  destruct (PyStr.is_space c) eqn:E; [exact IH|exact E].
Qed.

Lemma lstrip_of_clean_head (s : string) : clean_head s -> PyStr.lstrip s = s.
Proof. destruct s as [|c s]; cbn; [reflexivity|]. intros ->. reflexivity. Qed.

Lemma rstrip_clean_head (s : string) : clean_head s -> clean_head (PyStr.rstrip s).
Proof.
  destruct s as [|c s]; cbn; [auto|]. intros Hc.
  destruct (PyStr.rstrip s); [rewrite Hc|]; exact Hc.
Qed.

Lemma strip_idempotent (s : string) : PyStr.strip (PyStr.strip s) = PyStr.strip s.
Proof.
  unfold PyStr.strip.
  rewrite (lstrip_of_clean_head (PyStr.rstrip (PyStr.lstrip s))).
  - apply rstrip_idempotent.
  - apply rstrip_clean_head, lstrip_clean_head.
Qed.













End Strings.

(** ** The generation adapter *)

Section Adapter.

(** X11. Whatever the classification call does, the intent that
    [classify_intent] returns is trimmed and lowercase: stripping or
    lowercasing it again changes nothing. *)
Theorem classify_intent_trimmed_lowercase (api : Gemini.t) (query : string) :
  PyStr.strip (GeminiService.classify_intent api query)
  = GeminiService.classify_intent api query
  /\ PyStr.lower (GeminiService.classify_intent api query)
     = GeminiService.classify_intent api query.
Proof.
  unfold GeminiService.classify_intent, GeminiService.classify_intent_try.
  unfold mbind, result_bind.
  destruct (Gemini.generate_content api _) as [response|e];
    [|split; reflexivity].
  destruct (GenResponse.parts response) as [|p ps]; [split; reflexivity|].
  destruct (GenResponse.text response) as [text|e]; [|split; reflexivity].
  split.
  - rewrite strip_lower, strip_idempotent. reflexivity.
  - apply lower_idempotent.
Qed.

(** X12. The response text of [generate_response] never carries leading or
    trailing whitespace, whether it is generated text or one of the two
    fallback texts. *)
Theorem generate_response_trimmed (api : Gemini.t) (q : string)
    (profile : CustomerDict.t) (ctx : CustomerContext.t)
    (history : list HistoryEntry.t) (thought : option string) :
  PyStr.strip
    (AIResponse.response
       (GeminiService.generate_response api q profile ctx history thought))
  = AIResponse.response
      (GeminiService.generate_response api q profile ctx history thought).
Proof.
  unfold GeminiService.generate_response, GeminiService.generate_response_try.
  unfold mbind, result_bind.
  destruct (GeminiService.call_model api _ _) as [r|e]; [|reflexivity].
  destruct (GenResponse.parts r); [reflexivity|].
  destruct (GenResponse.text r) as [text|e]; [|reflexivity].
  cbn [AIResponse.response]. unfold GeminiService._humanize_response.
  apply strip_idempotent.
Qed.

Lemma last_n_app {A : Type} (n : nat) (old recent : list A) :
  length recent = n -> GeminiService.last_n n (old ++ recent) = recent.
Proof.
  intros Hn. unfold GeminiService.last_n. rewrite length_app, Hn.
  replace (length old + n - n)%nat with (length old) by lia.
  apply drop_app_length.
Qed.

(** X13. [generate_response] sees of a longer history only its last eight
    entries: two histories that end in the same eight entries give the same
    result, and the previous thought signature plays no part. *)
Theorem generate_response_last_eight (api : Gemini.t) (q : string)
    (profile : CustomerDict.t) (ctx : CustomerContext.t)
    (old1 old2 recent : list HistoryEntry.t) (thought1 thought2 : option string) :
  length recent = 8%nat ->
  GeminiService.generate_response api q profile ctx (old1 ++ recent) thought1
  = GeminiService.generate_response api q profile ctx (old2 ++ recent) thought2.
Proof.
  intros Hlen. unfold GeminiService.generate_response.
  rewrite !(last_n_app 8 _ recent Hlen).
  assert (Hflag : forall old : list HistoryEntry.t,
            (length (old ++ recent) <=? 1)%nat = false).
  { intros old. apply Nat.leb_gt. rewrite length_app. lia. }
  rewrite !Hflag. reflexivity.
Qed.

Lemma generate_response_last_eight_witness :
  GeminiService.generate_response (Sample.gemini_saying " Hello Asha ")
    "And last month?" (DataService.customer_dict (Sample.customer "C1" "Asha"))
    Fixture.snapshot (Fixture.turns 3 ++ Fixture.turns 8) None
  = GeminiService.generate_response (Sample.gemini_saying " Hello Asha ")
      "And last month?" (DataService.customer_dict (Sample.customer "C1" "Asha"))
      Fixture.snapshot ([] ++ Fixture.turns 8) (Some "sig"%string).
Proof.
  apply (generate_response_last_eight (Sample.gemini_saying " Hello Asha ")
           "And last month?" _ Fixture.snapshot (Fixture.turns 3) []
           (Fixture.turns 8) None (Some "sig"%string)).
  reflexivity.
Defined.

(** X14. With a [random.sample] that draws without replacement,
    [generate_follow_up_suggestions] returns the three suggestions of the
    intent's bucket in some order; an intent outside the table gets the
    bucket of "general_query". *)
Theorem follow_up_suggestions_bucket
    (random_sample : list string -> nat -> list string) (intent : string) :
  random_sample_contract random_sample ->
  GeminiService.generate_follow_up_suggestions random_sample intent
    ≡ₚ suggestion_bucket intent
  /\ length (suggestion_bucket intent) = 3%nat.
Proof.
  intros Hsample.
  assert (Hbucket :
    dict_get intent GeminiService.all_suggestions
      (dict_get "general_query" GeminiService.all_suggestions [])
    = suggestion_bucket intent
    /\ length (suggestion_bucket intent) = 3%nat).
  { unfold suggestion_bucket.
    destruct (bool_decide (intent ∈ GeminiService.known_intents)) eqn:E.
    - apply bool_decide_eq_true in E. unfold GeminiService.known_intents in E.
      repeat (apply elem_of_cons in E as [->|E]; [split; reflexivity|]).
      inversion E.
    - apply bool_decide_eq_false in E. split; [|reflexivity].
      unfold GeminiService.all_suggestions. cbn [dict_get].
      repeat match goal with
             | |- context [String.eqb ?k intent] =>
                 destruct (String.eqb_spec k intent) as [Hk|_];
                 [exfalso; apply E; rewrite <- Hk;
                  unfold GeminiService.known_intents;
                  repeat ((left; fail) || right)|]
             end.
      reflexivity. }
  destruct Hbucket as [Hget Hlen]. split; [|exact Hlen].
  unfold GeminiService.generate_follow_up_suggestions. cbv zeta.
  rewrite Hget, Hlen. cbn [Nat.min].
  destruct (Hsample (suggestion_bucket intent) 3%nat) as [Hk Hsub]; [lia|].
  apply submseteq_length_Permutation; [exact Hsub|]. lia.
Qed.

Lemma take_sample_contract : random_sample_contract (fun l n => take n l).
Proof.
  intros population k Hk. split.
  - rewrite length_take. lia.
  - apply sublist_submseteq, sublist_take.
Qed.

Lemma follow_up_suggestions_bucket_witness :
  GeminiService.generate_follow_up_suggestions (fun l n => take n l) "banana"
    ≡ₚ suggestion_bucket "banana"
  /\ length (suggestion_bucket "banana") = 3%nat.
Proof.
  apply (follow_up_suggestions_bucket (fun l n => take n l) "banana").
  exact take_sample_contract.
Defined.

End Adapter.

(** ** The list views and the read endpoints *)

Section ReadViews.

Local Open Scope Q_scope.

Lemma filter_elem {A : Type} (test : A -> bool) (l : list A) (x : A) :
  x ∈ List.filter test l <-> x ∈ l /\ test x = true.
Proof. rewrite !list_elem_of_In. apply filter_In. Qed.

Lemma truthy_field_spec (v : option string) :
  truthy_field v = true <-> exists s, v = Some s /\ s <> ""%string.
Proof.
  destruct v as [[|c s]|]; cbn.
  - split; [discriminate|]. intros (s & Hs & Hne). congruence.
  - split; [|reflexivity]. intros _. eexists. split; [reflexivity|discriminate].
  - split; [discriminate|]. intros (s & Hs & _). discriminate.
Qed.

(** X16. The transaction list view returns the stored transactions newest
    first, narrowed to the customer and to the category given as query
    parameters; a parameter that is absent or empty narrows nothing, so
    without parameters every stored transaction is listed. *)
Theorem transaction_list_view (st : Store) (customer_id category : option string) :
  descending (fun t => inject_Z (Transaction.date t))
             (TransactionViewSet.get_queryset st customer_id category)
  /\ (forall t,
        t ∈ TransactionViewSet.get_queryset st customer_id category <->
        t ∈ transactions st
        /\ (forall c, customer_id = Some c -> c <> ""%string ->
              Transaction.customer t = c)
        /\ (forall c, category = Some c -> c <> ""%string ->
              Transaction.category t = c))
  /\ (truthy_field customer_id = false -> truthy_field category = false ->
      TransactionViewSet.get_queryset st customer_id category ≡ₚ transactions st).
Proof.
  unfold TransactionViewSet.get_queryset. cbv zeta.
  split; [apply sorted_desc_descending|]. split.
  - intros t. rewrite sorted_desc_elem.
    destruct (truthy_field customer_id) eqn:Ec;
      destruct (truthy_field category) eqn:Ek;
      rewrite ?filter_elem, ?String.eqb_eq.
    + apply truthy_field_spec in Ec as (c & -> & Hc).
      apply truthy_field_spec in Ek as (k & -> & Hk). cbn.
      split.
      * intros [[Hin H1] H2]. split; [exact Hin|].
        split; intros x Hx _; injection Hx as <-; assumption.
      * intros (Hin & H1 & H2). split; [split; [exact Hin|]|]; auto.
    + apply truthy_field_spec in Ec as (c & -> & Hc). cbn.
      split.
      * intros [Hin H1]. split; [exact Hin|]. split.
        -- intros x Hx _. injection Hx as <-. exact H1.
        -- intros x Hx Hne. exfalso.
           assert (Ht : truthy_field category = true)
             by (apply truthy_field_spec; eauto).
           congruence.
      * intros (Hin & H1 & _). split; [exact Hin|]. auto.
    + apply truthy_field_spec in Ek as (k & -> & Hk). cbn.
      split.
      * intros [Hin H2]. split; [exact Hin|]. split.
        -- intros x Hx Hne. exfalso.
           assert (Ht : truthy_field customer_id = true)
             by (apply truthy_field_spec; eauto).
           congruence.
        -- intros x Hx _. injection Hx as <-. exact H2.
      * intros (Hin & _ & H2). split; [exact Hin|]. auto.
    + split.
      * intros Hin. split; [exact Hin|]. split; intros x Hx Hne; exfalso.
        -- assert (Ht : truthy_field customer_id = true)
             by (apply truthy_field_spec; eauto).
           congruence.
        -- assert (Ht : truthy_field category = true)
             by (apply truthy_field_spec; eauto).
           congruence.
      * tauto.
  - intros -> ->. apply sorted_desc_perm.
Qed.

(** X17. The investment list view returns the stored investments in
    non-increasing order of the stored returns percentage, narrowed to the
    customer given as query parameter when it is present and not empty. *)
Theorem investment_list_view (st : Store) (customer_id : option string) :
  descending Investment.returns_percentage
             (InvestmentViewSet.get_queryset st customer_id)
  /\ (forall i,
        i ∈ InvestmentViewSet.get_queryset st customer_id <->
        i ∈ investments st
        /\ (forall c, customer_id = Some c -> c <> ""%string ->
              Investment.customer i = c))
  /\ (truthy_field customer_id = false ->
      InvestmentViewSet.get_queryset st customer_id ≡ₚ investments st).
Proof.
  unfold InvestmentViewSet.get_queryset. cbv zeta.
  split; [apply sorted_desc_descending|]. split.
  - intros i. rewrite sorted_desc_elem.
    destruct (truthy_field customer_id) eqn:Ec;
      rewrite ?filter_elem, ?String.eqb_eq.
    + apply truthy_field_spec in Ec as (c & -> & Hc). cbn. split.
      * intros [Hin H1]. split; [exact Hin|].
        intros x Hx _. injection Hx as <-. exact H1.
      * intros (Hin & H1). split; [exact Hin|]. auto.
    + split.
      * intros Hin. split; [exact Hin|]. intros x Hx Hne. exfalso.
        assert (Ht : truthy_field customer_id = true)
          by (apply truthy_field_spec; eauto).
        congruence.
      * tauto.
  - intros ->. apply sorted_desc_perm.
Qed.


End ReadViews.

(** ** The chat endpoint and the conversation history *)

Section ChatEndpoint.

Local Open Scope Q_scope.




Lemma sorted_asc_perm {A : Type} (key : A -> Q) (l : list A) :
  sorted_asc key l ≡ₚ l.
Proof. apply sorted_desc_perm. Qed.

Lemma sorted_asc_ascending {A : Type} (key : A -> Q) (l : list A) :
  ascending key (sorted_asc key l).
Proof.
  unfold sorted_asc, ascending.
  pose proof (sorted_desc_descending (fun x => - key x) l) as H.
  unfold descending in H.
  induction H as [|x s Hs IH Hx]; constructor; [exact IH|].
  eapply Forall_impl; [exact Hx|]. cbn. intros y Hy. lra.
Qed.

Lemma ascending_map {A B : Type} (f : A -> B) (key : B -> Q) (l : list A) :
  ascending (fun x => key (f x)) l -> ascending key (map f l).
Proof.
  unfold ascending. induction 1 as [|x l Hl IH Hx]; cbn; constructor.
  - exact IH.
  - apply Forall_map. exact Hx.
Qed.

(** X19. For a stored conversation whose customer is stored, the history
    endpoint answers with success and shows the customer's name and the
    stored messages of this conversation, all of them and no others, in
    non-decreasing order of time. *)
Theorem conversation_history_lists_its_messages (st : Store) (key : string)
    (conversation : ChatConversation.t) (customer : Customer.t) :
  conversations st !! key = Some conversation ->
  customers st !! ChatConversation.customer conversation = Some customer ->
  exists data shown,
    Views.get_conversation_history st key
    = Ok (HTTP_200_OK, ConversationFound data)
    /\ ConversationData.customer_name data = Customer.name customer
    /\ ConversationData.messages data = map Views.message_data shown
    /\ shown ≡ₚ List.filter
                  (fun msg =>
                     String.eqb (ChatMessage.conversation msg)
                       (ChatConversation.conversation_id conversation))
                  (messages st)
    /\ ascending (fun m => inject_Z (MessageData.timestamp m))
                 (ConversationData.messages data).
Proof.
  intros Hconv Hcust. unfold Views.get_conversation_history.
  rewrite Hconv. unfold mbind, result_bind. rewrite Hcust.
  eexists _, (Views.conversation_messages st conversation).
  split; [reflexivity|].
  cbn [ConversationData.customer_name ConversationData.messages].
  split; [reflexivity|]. split; [reflexivity|]. split.
  - unfold Views.conversation_messages. apply sorted_asc_perm.
  - apply ascending_map. unfold Views.conversation_messages.
    apply (sorted_asc_ascending
             (fun msg : ChatMessage.t => inject_Z (ChatMessage.timestamp msg))).
Qed.

Lemma conversation_history_lists_its_messages_witness :
  exists data shown,
    Views.get_conversation_history Fixture.chatted "u-1"
    = Ok (HTTP_200_OK, ConversationFound data)
    /\ ConversationData.customer_name data = "Asha"%string
    /\ ConversationData.messages data = map Views.message_data shown
    /\ shown ≡ₚ List.filter
                  (fun msg => String.eqb (ChatMessage.conversation msg) "u-1")
                  (messages Fixture.chatted)
    /\ ascending (fun m => inject_Z (MessageData.timestamp m))
                 (ConversationData.messages data).
Proof.
  apply (conversation_history_lists_its_messages Fixture.chatted "u-1"
           (ChatAPIView.new_conversation
              (Sample.world (Sample.gemini_saying " You spent 200. ") "u-1")
              (Sample.customer "C1" "Asha"))
           (Sample.customer "C1" "Asha")); reflexivity.
Defined.

Lemma validated_chat_fields (request : ChatRequest.t) (data : ValidatedChat.t) :
  ChatRequestSerializer request = inr data ->
  ValidatedChat.customer_id data <> ""%string
  /\ ValidatedChat.message data <> ""%string
  /\ (forall key, ValidatedChat.conversation_id data = Some key ->
                  key <> ""%string).
Proof.
  unfold ChatRequestSerializer.
  assert (Hfield : forall required value s,
            char_field required value = Ok (Some s) -> s <> ""%string).
  { intros required [v|] s; cbn.
    - destruct (PyStr.strip v) eqn:E; [discriminate|].
      intros H. injection H as <-. discriminate.
    - destruct required; discriminate. }
  destruct (char_field true (ChatRequest.customer_id request))
    as [[c|]|e1] eqn:Ec;
    destruct (char_field true (ChatRequest.message request))
      as [[m|]|e2] eqn:Em;
    destruct (char_field false (ChatRequest.conversation_id request))
      as [k|e3] eqn:Ek; try discriminate.
  intros H. injection H as <-. cbn.
  split; [eapply Hfield; exact Ec|]. split; [eapply Hfield; exact Em|].
  intros key ->. eapply Hfield; exact Ek.
Qed.

Lemma history_nonempty (conversation : ChatConversation.t) (msg : ChatMessage.t)
    (st st' : Store) (history : list HistoryEntry.t) :
  ChatMessage.conversation msg = ChatConversation.conversation_id conversation ->
  ChatAPIView._get_conversation_history conversation
    (set_messages (fun ms => ms ++ [msg]) st) = (Ok history, st') ->
  history <> [].
Proof.
  intros Hsame H. unfold ChatAPIView._get_conversation_history, gets in H.
  injection H as <- _. intros Heq. apply (f_equal length) in Heq.
  rewrite length_map in Heq. unfold sorted_asc in Heq.
  rewrite sorted_desc_length in Heq. cbn [messages set_messages] in Heq.
  rewrite List.filter_app, length_app in Heq. cbn [List.filter] in Heq.
  rewrite Hsame, String.eqb_refl in Heq. cbn in Heq. lia.
Qed.

(** The run of [post] for a valid request of a stored customer whose
    conversation is resolved. *)
Lemma post_run (w : World.t) (request : ChatRequest.t)
    (data : ValidatedChat.t) (customer : Customer.t)
    (conversation : ChatConversation.t) (st st1 : Store) :
  ChatRequestSerializer request = inr data ->
  customers st !! ValidatedChat.customer_id data = Some customer ->
  ChatAPIView.get_or_create_conversation w
    (ValidatedChat.conversation_id data) customer st = (Ok conversation, st1) ->
  exists ctx history,
    DataService.get_customer_context
      (set_messages
         (fun ms => ms ++ [ChatAPIView.user_message w data conversation]) st1)
      (World.today w) (ValidatedChat.customer_id data) = Ok (Some ctx)
    /\ ChatAPIView._get_conversation_history conversation
         (set_messages
            (fun ms => ms ++ [ChatAPIView.user_message w data conversation]) st1)
       = (Ok history,
          set_messages
            (fun ms => ms ++ [ChatAPIView.user_message w data conversation]) st1)
    /\ history <> []
    /\ ChatAPIView.post w request st =
         (Ok {| Response.status := HTTP_200_OK;
                Response.body :=
                  ChatBody (ChatConversation.conversation_id conversation)
                    (AIResponse.response
                       (GeminiService.generate_response (World.gemini w)
                          (ValidatedChat.message data)
                          (CustomerContext.customer ctx) ctx history
                          match List.find
                                  (fun msg => String.eqb (HistoryEntry.role msg)
                                                         "assistant")
                                  (rev history) with
                          | Some last => HistoryEntry.thought_signature last
                          | None => None
                          end))
                    (GeminiService.classify_intent (World.gemini w)
                       (ValidatedChat.message data))
                    (GeminiService.generate_follow_up_suggestions
                       (World.random_sample w)
                       (GeminiService.classify_intent (World.gemini w)
                          (ValidatedChat.message data)))
                    (length (CustomerContext.transactions ctx))
                    (length (CustomerContext.investments ctx)) |},
          set_messages
            (fun ms =>
               ms ++ [ChatAPIView.assistant_message w conversation
                        (GeminiService.generate_response (World.gemini w)
                           (ValidatedChat.message data)
                           (CustomerContext.customer ctx) ctx history
                           match List.find
                                   (fun msg => String.eqb (HistoryEntry.role msg)
                                                          "assistant")
                                   (rev history) with
                           | Some last => HistoryEntry.thought_signature last
                           | None => None
                           end)
                        (GeminiService.classify_intent (World.gemini w)
                           (ValidatedChat.message data))])
            (set_messages
               (fun ms => ms ++ [ChatAPIView.user_message w data conversation])
               st1)).
Proof.
  intros Hvalid Hcustomer Hconv.
  destruct (get_or_create_conversation_frame _ _ _ _ _ _ Hconv) as (Hc & _).
  set (st2 := set_messages
                (fun ms => ms ++ [ChatAPIView.user_message w data conversation])
                st1).
  assert (Hc2 : customers st2 !! ValidatedChat.customer_id data = Some customer)
    by (cbn; rewrite Hc; exact Hcustomer).
  destruct (get_customer_context_known st2 (World.today w) _ _ Hc2)
    as (ctx & Hctx & _).
  destruct (ChatAPIView._get_conversation_history conversation st2)
    as [rh sth] eqn:Hh.
  assert (Hh' := Hh).
  unfold ChatAPIView._get_conversation_history, gets in Hh'.
  injection Hh' as Hrh Hsth. subst sth.
  destruct rh as [history|e]; [|discriminate Hrh].
  exists ctx, history. split; [exact Hctx|]. split; [reflexivity|]. split.
  { eapply history_nonempty; [|exact Hh]. reflexivity. }
  injection Hrh as Hhistory.
  unfold ChatAPIView.post. rewrite Hvalid.
  unfold mbind, M_bind, mret, M_ret, gets. rewrite Hcustomer, Hconv.
  unfold ChatAPIView.create_message, ChatAPIView._get_conversation_history,
    modify, gets, lift, mbind, M_bind, mret, M_ret.
  fold st2. rewrite Hctx. subst history. reflexivity.
Qed.

(** Every run of [post] is one of four: refused, customer not found, key
    collision, or the run of [post_run]. *)
Lemma post_outcomes (w : World.t) (request : ChatRequest.t) (st : Store) :
  (exists errors,
      ChatAPIView.post w request st
      = (Ok (Response.mk HTTP_400_BAD_REQUEST (FieldErrors errors)), st))
  \/ ChatAPIView.post w request st
     = (Ok (Response.mk HTTP_404_NOT_FOUND (ErrorBody "Customer not found")), st)
  \/ (is_Some (conversations st !! World.uuid4 w)
      /\ ChatAPIView.post w request st
         = (Raise (IntegrityError (World.uuid4 w)), st))
  \/ (exists data customer conversation st1,
        ChatRequestSerializer request = inr data
        /\ customers st !! ValidatedChat.customer_id data = Some customer
        /\ ChatAPIView.get_or_create_conversation w
             (ValidatedChat.conversation_id data) customer st
           = (Ok conversation, st1)).
Proof.
  destruct (ChatRequestSerializer request) as [errors|data] eqn:Hvalid.
  { left. exists errors. unfold ChatAPIView.post. rewrite Hvalid. reflexivity. }
  right.
  destruct (customers st !! ValidatedChat.customer_id data) as [customer|]
    eqn:Hcustomer.
  2:{ left. unfold ChatAPIView.post. rewrite Hvalid.
      unfold mbind, M_bind, mret, M_ret, gets. rewrite Hcustomer. reflexivity. }
  right.
  destruct (get_or_create_conversation_cases w
              (ValidatedChat.conversation_id data) customer st)
    as [(k & conv & _ & _ & _ & _ & Hrun)|[[_ Hrun]|[Hsome Hrun]]].
  - right. exists data, customer, conv, st. auto.
  - right. eexists data, customer, _, _. eauto.
  - left. split; [exact Hsome|].
    unfold ChatAPIView.post. rewrite Hvalid.
    unfold mbind, M_bind, mret, M_ret, gets. rewrite Hcustomer, Hrun.
    reflexivity.
Qed.

(** What resolving the conversation leaves in the store. *)
Lemma get_or_create_conversation_resolved (w : World.t) (key : option string)
    (customer : Customer.t) (conversation : ChatConversation.t)
    (st st1 : Store) :
  (forall k c, conversations st !! k = Some c ->
               ChatConversation.conversation_id c = k) ->
  ChatAPIView.get_or_create_conversation w key customer st
  = (Ok conversation, st1) ->
  conversations st1 !! ChatConversation.conversation_id conversation
  = Some conversation
  /\ ChatConversation.customer conversation = Customer.customer_id customer
  /\ conversations st ⊆ conversations st1
  /\ (forall k c, conversations st1 !! k = Some c ->
        ChatConversation.conversation_id c = k
        /\ (conversations st !! k = Some c
            \/ ChatConversation.customer c = Customer.customer_id customer)).
Proof.
  intros Hkeys Hrun.
  destruct (get_or_create_conversation_cases w key customer st)
    as [(k & conv & _ & _ & Hk & Hown & Hrun')|[[Hfresh Hrun']|[_ Hrun']]];
    rewrite Hrun' in Hrun; [| |discriminate Hrun].
  - injection Hrun as <- <-. rewrite (Hkeys _ _ Hk).
    split; [exact Hk|]. split; [exact Hown|]. split; [reflexivity|].
    intros k' c Hkc. split; [exact (Hkeys _ _ Hkc)|]. left. exact Hkc.
  - injection Hrun as <- <-. cbn. split; [apply lookup_insert_eq|].
    split; [reflexivity|]. split; [apply insert_subseteq; exact Hfresh|].
    intros k c Hkc. apply lookup_insert_Some in Hkc as [[<- <-]|[_ Hkc]].
    + split; [reflexivity|]. right. reflexivity.
    + split; [exact (Hkeys _ _ Hkc)|]. left. exact Hkc.
Qed.




(** X22. A valid request that names a conversation of its own customer is
    answered in that conversation, whatever key would have been drawn for a
    new one: no conversation is created, and the user message and the
    assistant message are appended, in this order, to the named
    conversation, the assistant message carrying the response text and the
    intent of the answer. *)
Theorem chat_post_continues_own_conversation (w : World.t)
    (request : ChatRequest.t) (data : ValidatedChat.t) (customer : Customer.t)
    (key : string) (conversation : ChatConversation.t) (st : Store) :
  ChatRequestSerializer request = inr data ->
  customers st !! ValidatedChat.customer_id data = Some customer ->
  ValidatedChat.conversation_id data = Some key ->
  conversations st !! key = Some conversation ->
  ChatConversation.customer conversation = Customer.customer_id customer ->
  exists response intent suggestions n m st' user_msg assistant_msg,
    ChatAPIView.post w request st =
      (Ok {| Response.status := HTTP_200_OK;
             Response.body :=
               ChatBody (ChatConversation.conversation_id conversation)
                 response intent suggestions n m |}, st')
    /\ conversations st' = conversations st
    /\ messages st' = messages st ++ [user_msg; assistant_msg]
    /\ ChatMessage.conversation user_msg
       = ChatConversation.conversation_id conversation
    /\ ChatMessage.role user_msg = "user"%string
    /\ ChatMessage.content user_msg = ValidatedChat.message data
    /\ ChatMessage.conversation assistant_msg
       = ChatConversation.conversation_id conversation
    /\ ChatMessage.role assistant_msg = "assistant"%string
    /\ ChatMessage.content assistant_msg = response
    /\ ChatMessage.intent assistant_msg = Some intent.
Proof.
  intros Hvalid Hcustomer Hkey Hconv Hown.
  destruct (validated_chat_fields request data Hvalid) as (_ & _ & Hne).
  specialize (Hne key Hkey).
  assert (Hrun : ChatAPIView.get_or_create_conversation w
                   (ValidatedChat.conversation_id data) customer st
                 = (Ok conversation, st)).
  { rewrite Hkey. destruct key as [|a key]; [congruence|].
    unfold ChatAPIView.get_or_create_conversation, ChatAPIView.get_conversation,
      gets, mbind, M_bind, mret, M_ret.
    rewrite Hconv, Hown, String.eqb_refl. reflexivity. }
  destruct (post_run w request data customer conversation st st
              Hvalid Hcustomer Hrun) as (ctx & history & _ & _ & _ & Hpost).
  eexists _, _, _, _, _, _, _, _. split; [exact Hpost|].
  cbn. rewrite <- app_assoc. repeat (split; [reflexivity|]). reflexivity.
Qed.

Lemma chat_post_continues_own_conversation_witness :
  exists response intent suggestions n m st' user_msg assistant_msg,
    ChatAPIView.post (Sample.world Sample.gemini_silent "k-ravi")
      (Sample.chat_request "C2" (Some "k-ravi"%string))
      Sample.with_conversation =
      (Ok {| Response.status := HTTP_200_OK;
             Response.body :=
               ChatBody "k-ravi" response intent suggestions n m |}, st')
    /\ conversations st' = conversations Sample.with_conversation
    /\ messages st' = messages Sample.with_conversation
                      ++ [user_msg; assistant_msg]
    /\ ChatMessage.conversation user_msg = "k-ravi"%string
    /\ ChatMessage.role user_msg = "user"%string
    /\ ChatMessage.content user_msg = "How much did I spend on dining?"%string
    /\ ChatMessage.conversation assistant_msg = "k-ravi"%string
    /\ ChatMessage.role assistant_msg = "assistant"%string
    /\ ChatMessage.content assistant_msg = response
    /\ ChatMessage.intent assistant_msg = Some intent.
Proof.
  apply (chat_post_continues_own_conversation
           (Sample.world Sample.gemini_silent "k-ravi")
           (Sample.chat_request "C2" (Some "k-ravi"%string))
           {| ValidatedChat.customer_id := "C2";
              ValidatedChat.message := "How much did I spend on dining?";
              ValidatedChat.conversation_id := Some "k-ravi"%string |}
           (Sample.customer "C2" "Ravi") "k-ravi"
           {| ChatConversation.conversation_id := "k-ravi";
              ChatConversation.customer := "C2";
              ChatConversation.started_at := 900;
              ChatConversation.last_activity := 900;
              ChatConversation.is_active := true |}
           Sample.with_conversation); reflexivity.
Defined.

Lemma classify_intent_agree (api api' : Gemini.t) (query : string) :
  (forall text, Gemini.generate_content api (IntentPrompt text)
                = Gemini.generate_content api' (IntentPrompt text)) ->
  GeminiService.classify_intent api query
  = GeminiService.classify_intent api' query.
Proof.
  intros H. unfold GeminiService.classify_intent,
    GeminiService.classify_intent_try. rewrite H. reflexivity.
Qed.

Lemma generate_response_in_chat (api api' : Gemini.t) (q : string)
    (profile : CustomerDict.t) (ctx : CustomerContext.t)
    (history : list HistoryEntry.t) (thought : option string) :
  history <> [] ->
  (forall chat prompt, Gemini.send_message api chat prompt
                       = Gemini.send_message api' chat prompt) ->
  GeminiService.generate_response api q profile ctx history thought
  = GeminiService.generate_response api' q profile ctx history thought.
Proof.
  intros Hne Hsend. unfold GeminiService.generate_response,
    GeminiService.generate_response_try, GeminiService.call_model.
  cbv zeta.
  destruct (map _ (GeminiService.last_n 8 history)) as [|turn chat] eqn:E.
  - exfalso. apply (f_equal length) in E. rewrite length_map in E.
    unfold GeminiService.last_n in E. rewrite length_drop in E.
    destruct history; [congruence|]. cbn [length] in E. lia.
  - rewrite Hsend. reflexivity.
Qed.

(** X23. The answer of a chat request is always generated inside a chat
    that carries the conversation's turns, the history being read after the
    user message is stored: a generation service that differs only in how it
    answers a generation prompt sent outside a chat gives the same response
    and the same store. *)
Theorem chat_post_generates_in_chat (w : World.t) (api : Gemini.t)
    (request : ChatRequest.t) (st : Store) :
  (forall chat prompt,
      Gemini.send_message api chat prompt
      = Gemini.send_message (World.gemini w) chat prompt) ->
  (forall text,
      Gemini.generate_content api (IntentPrompt text)
      = Gemini.generate_content (World.gemini w) (IntentPrompt text)) ->
  ChatAPIView.post (with_gemini w api) request st
  = ChatAPIView.post w request st.
Proof.
  intros Hsend Hintent.
  destruct (ChatRequestSerializer request) as [errors|data] eqn:Hv.
  { unfold ChatAPIView.post. rewrite Hv. reflexivity. }
  destruct (customers st !! ValidatedChat.customer_id data) as [customer|]
    eqn:Hc.
  2:{ unfold ChatAPIView.post. rewrite Hv.
      unfold mbind, M_bind, mret, M_ret, gets. rewrite Hc. reflexivity. }
  destruct (ChatAPIView.get_or_create_conversation w
              (ValidatedChat.conversation_id data) customer st)
    as [[conv|e] st1] eqn:Hrun.
  - assert (Hrun' : ChatAPIView.get_or_create_conversation (with_gemini w api)
                      (ValidatedChat.conversation_id data) customer st
                    = (Ok conv, st1)) by exact Hrun.
    destruct (post_run w request data customer conv st st1 Hv Hc Hrun)
      as (ctx & history & Hctx & Hh & Hne & Hpost).
    destruct (post_run (with_gemini w api) request data customer conv st st1
                Hv Hc Hrun')
      as (ctx' & history' & Hctx' & Hh' & _ & Hpost').
    assert (Ectx : Ok (Some ctx') = Ok (Some ctx))
      by exact (eq_trans (eq_sym Hctx') Hctx).
    assert (Eh : (Ok history',
                  set_messages
                    (fun ms => ms ++ [ChatAPIView.user_message w data conv]) st1)
                 = (Ok history,
                    set_messages
                      (fun ms => ms ++ [ChatAPIView.user_message w data conv])
                      st1))
      by exact (eq_trans (eq_sym Hh') Hh).
    injection Ectx as ->. injection Eh as ->.
    rewrite Hpost, Hpost'.
    unfold ChatAPIView.assistant_message, ChatAPIView.user_message.
    cbn [with_gemini World.gemini World.random_sample
         World.assistant_message_time World.user_message_time].
    rewrite (classify_intent_agree api (World.gemini w)) by exact Hintent.
    rewrite (generate_response_in_chat api (World.gemini w) _ _ _ history
               _ Hne Hsend).
    reflexivity.
  - assert (Hrun' : ChatAPIView.get_or_create_conversation (with_gemini w api)
                      (ValidatedChat.conversation_id data) customer st
                    = (Raise e, st1)) by exact Hrun.
    unfold ChatAPIView.post. rewrite Hv.
    unfold mbind, M_bind, mret, M_ret, gets. rewrite Hc, Hrun', Hrun.
    reflexivity.
Qed.

Lemma chat_post_generates_in_chat_witness :
  ChatAPIView.post
    (with_gemini (Sample.world (Sample.gemini_saying "general_query") "u-1")
                 (Fixture.gemini_chat_only "general_query"))
    (Sample.chat_request "C1" None) Sample.fortnight
  = ChatAPIView.post (Sample.world (Sample.gemini_saying "general_query") "u-1")
      (Sample.chat_request "C1" None) Sample.fortnight.
Proof.
  apply (chat_post_generates_in_chat
           (Sample.world (Sample.gemini_saying "general_query") "u-1")
           (Fixture.gemini_chat_only "general_query")
           (Sample.chat_request "C1" None) Sample.fortnight).
  - intros chat prompt. reflexivity.
  - intros text. reflexivity.
Defined.




Lemma sample_store_coherent (txs : list Transaction.t) (invs : list Investment.t) :
  NoDup (map Transaction.transaction_id txs) ->
  Forall (fun t => Transaction.customer t = "C1"%string
                   \/ Transaction.customer t = "C2"%string) txs ->
  NoDup (map Investment.investment_id invs) ->
  Forall (fun i => Investment.customer i = "C1"%string
                   \/ Investment.customer i = "C2"%string) invs ->
  store_coherent (Sample.store txs invs).
Proof.
  intros Htx Htc Hiv Hic. unfold store_coherent, Sample.store. cbn.
  split.
  { intros k c H. apply lookup_insert_Some in H as [[<- <-]|[_ H]];
      [reflexivity|].
    apply lookup_singleton_Some in H as [<- <-]. reflexivity. }
  split; [intros k c H; rewrite lookup_empty in H; discriminate|].
  split; [intros m H; inversion H|].
  split; [exact Htx|]. split.
  { intros t Ht. apply list_elem_of_In in Ht.
    destruct (proj1 (List.Forall_forall _ _) Htc t Ht) as [-> | ->];
      eexists; reflexivity. }
  split; [exact Hiv|]. split.
  { intros i Hi. apply list_elem_of_In in Hi.
    destruct (proj1 (List.Forall_forall _ _) Hic i Hi) as [-> | ->];
      eexists; reflexivity. }
  intros u H. inversion H.
Qed.

Lemma fortnight_coherent : store_coherent Sample.fortnight.
Proof.
  apply sample_store_coherent.
  - apply (bool_decide_unpack _). vm_compute. exact I.
  - repeat constructor.
  - constructor.
  - constructor.
Qed.


(** X25. A chat request keeps the store in order: if primary keys are
    unique and name their records and every reference points at a stored
    record before the request, the same holds after it, whatever the
    outcome; the conversation and the messages it adds refer to stored
    records. *)
Theorem chat_post_keeps_store_coherent (w : World.t) (request : ChatRequest.t)
    (st : Store) :
  store_coherent st ->
  store_coherent (snd (ChatAPIView.post w request st)).
Proof.
  intros Hcoh.
  destruct (post_outcomes w request st)
    as [[errors H]|[H|[[Hsome H]|(data & customer & conv & st1 & Hv & Hc & Hrun)]]];
    try (rewrite H; exact Hcoh).
  destruct (post_run w request data customer conv st st1 Hv Hc Hrun)
    as (ctx & history & _ & _ & _ & Hpost).
  rewrite Hpost. cbn [snd].
  destruct Hcoh as (Hcustomers & Hconvs & Hmsgs & Htx & Htc & Hiv & Hic & Hup).
  destruct (get_or_create_conversation_resolved w _ customer conv st st1
              (fun k c Hk => proj1 (Hconvs k c Hk)) Hrun)
    as (Hlook & Hown & Hsub & Hnew).
  destruct (get_or_create_conversation_frame _ _ _ _ _ _ Hrun)
    as (Hc1 & Ht1 & Hi1 & Hm1 & Hu1).
  unfold store_coherent.
  cbn [customers conversations messages transactions investments
       uploaded_files set_messages].
  rewrite Hc1, Ht1, Hi1, Hm1, Hu1.
  split; [exact Hcustomers|]. split.
  { intros k c Hk. destruct (Hnew k c Hk) as [Hid [Hold|Howner]].
    - split; [exact Hid|]. exact (proj2 (Hconvs k c Hold)).
    - split; [exact Hid|]. rewrite Howner, (Hcustomers _ _ Hc), Hc. eauto. }
  split.
  { intros msg Hin. rewrite !elem_of_app, !list_elem_of_singleton in Hin.
    destruct Hin as [[Hin| ->]| ->].
    - eapply lookup_weaken_is_Some; [apply Hmsgs; exact Hin|exact Hsub].
    - cbn. rewrite Hlook. eauto.
    - cbn. rewrite Hlook. eauto. }
  auto 10.
Qed.

Lemma chat_post_keeps_store_coherent_witness :
  store_coherent Fixture.chatted.
Proof.
  apply (chat_post_keeps_store_coherent
           (Sample.world (Sample.gemini_saying " You spent 200. ") "u-1")
           (Sample.chat_request "C1" None) Sample.fortnight).
  exact fortnight_coherent.
Defined.

End ChatEndpoint.

(** ** The upload endpoint *)

Section Upload.

Lemma process_uploaded_file_invariant (R : Store -> Store -> Prop)
    (uploaded_file : UploadedFile.t) (customer : Customer.t) :
  (forall st, R st st) ->
  (forall a b c, R a b -> R b c -> R a c) ->
  (forall row st r st1,
      import_transaction customer row st = (r, st1) -> R st st1) ->
  (forall row st r st1,
      import_investment customer row st = (r, st1) -> R st st1) ->
  forall st r st',
    process_uploaded_file uploaded_file customer st = (r, st') -> R st st'.
Proof.
  intros Hrefl Htrans Htx Hiv st r st' Hrun.
  unfold process_uploaded_file, lift, mbind, M_bind in Hrun.
  destruct (File.read_csv (UploadedFile.file_path uploaded_file)) as [rows|e];
    [|injection Hrun as _ <-; apply Hrefl].
  cbv beta iota zeta in Hrun.
  destruct (String.eqb (UploadedFile.file_type uploaded_file) "transaction").
  { exact (import_loop_invariant (import_transaction customer) R Hrefl Htrans
             Htx _ _ _ _ _ Hrun). }
  destruct (String.eqb (UploadedFile.file_type uploaded_file) "investment").
  { exact (import_loop_invariant (import_investment customer) R Hrefl Htrans
             Hiv _ _ _ _ _ Hrun). }
  injection Hrun as _ <-. apply Hrefl.
Qed.

Lemma process_uploaded_file_keeps (uploaded_file : UploadedFile.t)
    (customer : Customer.t) (st st' : Store) (r : result Z) :
  process_uploaded_file uploaded_file customer st = (r, st') ->
  records_kept st st'.
Proof.
  apply (process_uploaded_file_invariant records_kept uploaded_file customer
           records_kept_refl records_kept_trans
           (fun row s r s1 => import_transaction_keeps customer row s s1 r)
           (fun row s r s1 => import_investment_keeps customer row s s1 r)).
Qed.

(** The run of [upload_file] once the customer is found. *)
Lemma upload_file_run (request : UploadRequest.t) (file : File.t)
    (customer : Customer.t) (st st2 : Store) (r : result Z) :
  UploadRequest.file request = Some file ->
  truthy_field (UploadRequest.file_type request) = true ->
  truthy_field (UploadRequest.customer_id request) = true ->
  customers st !! default ""%string (UploadRequest.customer_id request)
  = Some customer ->
  process_uploaded_file
    {| UploadedFile.file_name := File.name file;
       UploadedFile.file_type :=
         default ""%string (UploadRequest.file_type request);
       UploadedFile.file_path := file;
       UploadedFile.uploaded_by := Customer.customer_id customer;
       UploadedFile.processed := false;
       UploadedFile.records_imported := 0 |}
    customer
    (set_uploaded_files
       (fun l => l ++ [{| UploadedFile.file_name := File.name file;
                          UploadedFile.file_type :=
                            default ""%string (UploadRequest.file_type request);
                          UploadedFile.file_path := file;
                          UploadedFile.uploaded_by := Customer.customer_id customer;
                          UploadedFile.processed := false;
                          UploadedFile.records_imported := 0 |}]) st)
  = (r, st2) ->
  upload_file request st =
    match r with
    | Ok n =>
        (Ok {| Response.status := HTTP_201_CREATED;
               Response.body :=
                 UploadBody "File uploaded and processed successfully" n |},
         set_uploaded_files
           (fun _ => uploaded_files st
                     ++ [{| UploadedFile.file_name := File.name file;
                            UploadedFile.file_type :=
                              default ""%string (UploadRequest.file_type request);
                            UploadedFile.file_path := file;
                            UploadedFile.uploaded_by :=
                              Customer.customer_id customer;
                            UploadedFile.processed := true;
                            UploadedFile.records_imported := n |}]) st2)
    | Raise e =>
        (Ok {| Response.status := HTTP_500_INTERNAL_SERVER_ERROR;
               Response.body :=
                 ErrorBody ("Error processing file: " ++ exn_message e)%string |},
         st2)
    end.
Proof.
  intros Hfile Htype Hcid Hcustomer Hrun.
  pose proof (process_uploaded_file_keeps _ _ _ _ _ Hrun)
    as (_ & _ & _ & _ & _ & Hup).
  unfold upload_file. rewrite Hfile, Htype, Hcid. cbn [negb orb].
  unfold mbind, M_bind, mret, M_ret, gets. rewrite Hcustomer.
  unfold uploaded_file_create, try_except, uploaded_file_save, modify, gets,
    mbind, M_bind, mret, M_ret.
  rewrite Hrun. destruct r as [n|e]; [|reflexivity].
  f_equal. unfold set_uploaded_files at 1 2. f_equal.
  rewrite Hup. cbn [uploaded_files set_uploaded_files].
  apply list_insert_last.
Qed.

(** X26. An upload is always answered, never raised: it is refused with 400
    or 404 and nothing is stored, or exactly one upload record is appended,
    marked as processed with the imported count when the answer is 201 and
    left unprocessed with count 0 when the answer is 500. In every case the
    customers, conversations and messages are as before, and every stored
    transaction and investment is still stored unchanged under its key. *)
Theorem upload_file_outcomes (request : UploadRequest.t) (st : Store) :
  exists response st',
    upload_file request st = (Ok response, st')
    /\ customers st' = customers st
    /\ conversations st' = conversations st
    /\ messages st' = messages st
    /\ (forall k t, find_transaction k st = Some t ->
                    find_transaction k st' = Some t)
    /\ (forall k i, find_investment k st = Some i ->
                    find_investment k st' = Some i)
    /\ (((Response.status response = HTTP_400_BAD_REQUEST
          \/ Response.status response = HTTP_404_NOT_FOUND)
         /\ st' = st)
        \/ exists uploaded n,
             uploaded_files st' = uploaded_files st ++ [uploaded]
             /\ UploadedFile.records_imported uploaded = n
             /\ ((Response.status response = HTTP_201_CREATED
                  /\ Response.body response
                     = UploadBody "File uploaded and processed successfully" n
                  /\ UploadedFile.processed uploaded = true)
                 \/ (Response.status response = HTTP_500_INTERNAL_SERVER_ERROR
                     /\ n = 0%Z
                     /\ UploadedFile.processed uploaded = false))).
Proof.
  destruct (UploadRequest.file request) as [file|] eqn:Hfile.
  2:{ unfold upload_file. rewrite Hfile. eexists _, st.
      split; [reflexivity|]. repeat (split; [auto; fail|]). left. auto. }
  destruct (truthy_field (UploadRequest.file_type request)) eqn:Htype.
  2:{ unfold upload_file. rewrite Hfile, Htype. eexists _, st.
      split; [reflexivity|]. repeat (split; [auto; fail|]). left. auto. }
  destruct (truthy_field (UploadRequest.customer_id request)) eqn:Hcid.
  2:{ unfold upload_file. rewrite Hfile, Htype, Hcid. eexists _, st.
      split; [reflexivity|]. repeat (split; [auto; fail|]). left. auto. }
  destruct (customers st !! default ""%string (UploadRequest.customer_id request))
    as [customer|] eqn:Hcustomer.
  2:{ unfold upload_file. rewrite Hfile, Htype, Hcid. cbn [negb orb].
      unfold mbind, M_bind, mret, M_ret, gets. rewrite Hcustomer.
      eexists _, st.
      split; [reflexivity|]. repeat (split; [auto; fail|]). left. auto. }
  match goal with
  | |- context [upload_file request st] =>
      destruct (process_uploaded_file
                  {| UploadedFile.file_name := File.name file;
                     UploadedFile.file_type :=
                       default ""%string (UploadRequest.file_type request);
                     UploadedFile.file_path := file;
                     UploadedFile.uploaded_by := Customer.customer_id customer;
                     UploadedFile.processed := false;
                     UploadedFile.records_imported := 0 |}
                  customer
                  (set_uploaded_files
                     (fun l => l ++ [{| UploadedFile.file_name := File.name file;
                                        UploadedFile.file_type :=
                                          default ""%string
                                            (UploadRequest.file_type request);
                                        UploadedFile.file_path := file;
                                        UploadedFile.uploaded_by :=
                                          Customer.customer_id customer;
                                        UploadedFile.processed := false;
                                        UploadedFile.records_imported := 0 |}])
                     st))
        as [r st2] eqn:Hrun
  end.
  rewrite (upload_file_run request file customer st st2 r
             Hfile Htype Hcid Hcustomer Hrun).
  destruct (process_uploaded_file_keeps _ _ _ _ _ Hrun)
    as (Htx & Hiv & Hc & Hv & Hm & Hup).
  cbn [customers conversations messages uploaded_files set_uploaded_files]
    in Hc, Hv, Hm, Hup.
  assert (Htx' : forall k t, find_transaction k st = Some t ->
                             find_transaction k st2 = Some t)
    by (intros k t Hk; apply Htx; exact Hk).
  assert (Hiv' : forall k i, find_investment k st = Some i ->
                             find_investment k st2 = Some i)
    by (intros k i Hk; apply Hiv; exact Hk).
  destruct r as [n|e].
  - eexists _, _. split; [reflexivity|].
    cbn [customers conversations messages uploaded_files set_uploaded_files].
    repeat (split; [assumption|]). right. eexists _, n.
    split; [reflexivity|]. split; [reflexivity|]. left. auto.
  - eexists _, _. split; [reflexivity|].
    repeat (split; [assumption|]). right. eexists _, 0%Z.
    split; [exact Hup|]. split; [reflexivity|]. right. auto.
Qed.

Lemma import_loop_app (body : Row -> M unit) (rows1 rows2 : list Row)
    (n : Z) (st : Store) :
  import_loop body (rows1 ++ rows2) n st =
    match import_loop body rows1 n st with
    | (Ok m, st1) => import_loop body rows2 m st1
    | (Raise e, st1) => (Raise e, st1)
    end.
Proof.
  revert n st. induction rows1 as [|row rows1 IH]; intros n st; [reflexivity|].
  cbn [import_loop app]. unfold mbind, M_bind.
  destruct (body row st) as [[[]|e] st1]; [apply IH|reflexivity].
Qed.

(** A row of the transaction loop whose key is not stored yet: the loop body
    fails without storing anything, or appends the record made of the row's
    cells, of the defaults for the optional columns, and of the uploading
    customer. *)
Lemma import_transaction_created (customer : Customer.t) (row : Row)
    (k : string) (st st1 : Store) (r : result unit) :
  import_transaction customer row st = (r, st1) ->
  row !! "transaction_id" = Some (CStr k) ->
  find_transaction k st = None ->
  (st1 = st /\ exists e, r = Raise e)
  \/ exists t,
       r = Ok tt
       /\ st1 = set_transactions (fun ts => ts ++ [t]) st
       /\ Transaction.transaction_id t = k
       /\ Transaction.customer t = Customer.customer_id customer
       /\ row !! "date" = Some (CDate (Transaction.date t))
       /\ row !! "category" = Some (CStr (Transaction.category t))
       /\ row !! "merchant" = Some (CStr (Transaction.merchant t))
       /\ row !! "amount" = Some (CNum (Transaction.amount t))
       /\ row_get row "payment_method" (CStr "upi")
          = CStr (Transaction.payment_method t)
       /\ row_get row "description" (CStr "")
          = CStr (Transaction.description t).
Proof.
  unfold import_transaction, lift, row_item, mbind, M_bind, mret, M_ret.
  intros H Hid Hfind. rewrite Hid in H. cbv beta iota in H.
  destruct (row !! "date") as [date|] eqn:Hdate; cbv beta iota in H;
    [|left; injection H as <- <-; eauto].
  destruct (row !! "category") as [category|] eqn:Hcategory; cbv beta iota in H;
    [|left; injection H as <- <-; eauto].
  destruct (row !! "merchant") as [merchant|] eqn:Hmerchant; cbv beta iota in H;
    [|left; injection H as <- <-; eauto].
  destruct (row !! "amount") as [amount|] eqn:Hamount; cbv beta iota in H;
    [|left; injection H as <- <-; eauto].
  rewrite transaction_get_or_create_run in H. cbn [as_str] in H.
  rewrite Hfind in H. cbn [result_bind] in H.
  destruct date as [?|?|d]; cbn [as_date result_bind] in H;
    try (left; injection H as <- <-; eauto; fail).
  destruct category as [c|?|?]; cbn [as_str result_bind] in H;
    try (left; injection H as <- <-; eauto; fail).
  destruct merchant as [m|?|?]; cbn [as_str result_bind] in H;
    try (left; injection H as <- <-; eauto; fail).
  destruct amount as [?|a|?]; cbn [as_num result_bind] in H;
    try (left; injection H as <- <-; eauto; fail).
  destruct (row_get row "payment_method" (CStr "upi")) as [p|?|?] eqn:Hp;
    cbn [as_str result_bind] in H;
    try (left; injection H as <- <-; eauto; fail).
  destruct (row_get row "description" (CStr "")) as [s|?|?] eqn:Hs;
    cbn [as_str result_bind] in H;
    try (left; injection H as <- <-; eauto; fail).
  injection H as <- <-. right. eexists. split; [reflexivity|].
  split; [reflexivity|]. cbn. auto 10.
Qed.

Lemma import_investment_created (customer : Customer.t) (row : Row)
    (k : string) (st st1 : Store) (r : result unit) :
  import_investment customer row st = (r, st1) ->
  row !! "investment_id" = Some (CStr k) ->
  find_investment k st = None ->
  st1 = st
  \/ exists i,
       r = Ok tt
       /\ st1 = set_investments (fun l => l ++ [i]) st
       /\ Investment.investment_id i = k
       /\ Investment.customer i = Customer.customer_id customer.
Proof.
  unfold import_investment, lift, row_item, mbind, M_bind, mret, M_ret.
  intros H Hid Hfind. rewrite Hid in H. cbv beta iota in H.
  repeat match type of H with
         | context [row !! ?column] =>
             destruct (row !! column) as [?|]; cbv beta iota in H;
             [|left; injection H as _ <-; reflexivity]
         end.
  rewrite investment_get_or_create_run in H. cbn [as_str] in H.
  rewrite Hfind in H.
  match type of H with
  | context [match ?d with Ok _ => _ | Raise _ => _ end] =>
      destruct d as [i|e] eqn:Ed
  end; cbv beta iota in H; injection H as <- <-; [|left; reflexivity].
  right. exists i. split; [reflexivity|]. split; [reflexivity|].
  cbn [result_bind] in Ed.
  repeat match type of Ed with
         | result_bind _ _ _ ?x = _ =>
             destruct x; cbn [result_bind] in Ed; try discriminate Ed
         end.
  injection Ed as <-. split; reflexivity.
Qed.

Lemma find_transaction_appended (t : Transaction.t) (st : Store) :
  find_transaction (Transaction.transaction_id t) st = None ->
  find_transaction (Transaction.transaction_id t)
    (set_transactions (fun ts => ts ++ [t]) st) = Some t.
Proof.
  intros Hnone. unfold find_transaction in *. cbn [transactions set_transactions].
  rewrite find_app_last, Hnone, String.eqb_refl. reflexivity.
Qed.

Lemma import_loop_keeps (customer : Customer.t) (rows : list Row) (n : Z)
    (st st' : Store) (r : result Z) :
  import_loop (import_transaction customer) rows n st = (r, st') ->
  records_kept st st'.
Proof.
  apply (import_loop_invariant (import_transaction customer) records_kept
           records_kept_refl records_kept_trans
           (fun row s r s1 => import_transaction_keeps customer row s s1 r)).
Qed.




(** Rows that carry other keys leave the key [k] as absent as it was. *)
Lemma import_loop_absent (customer : Customer.t) (k : string)
    (rows : list Row) :
  Forall (fun row => row !! "transaction_id" <> Some (CStr k)) rows ->
  forall n st r st',
    import_loop (import_transaction customer) rows n st = (r, st') ->
    find_transaction k st = None -> find_transaction k st' = None.
Proof.
  induction 1 as [|row rows Hrow Hrows IH]; intros n st r st' Hrun Hnone.
  - injection Hrun as _ <-. exact Hnone.
  - cbn [import_loop] in Hrun. unfold mbind, M_bind in Hrun.
    destruct (import_transaction customer row st) as [[[]|e] st1] eqn:Hbody.
    + eapply IH; [exact Hrun|].
      apply import_transaction_inv in Hbody
        as [(e & _ & ->)|(k' & Hk' & _ & _ & [(_ & ->)|(_ & t & Ht & ->)])];
        try exact Hnone.
      unfold find_transaction in *. cbn [transactions set_transactions].
      rewrite find_app_last, Hnone.
      destruct (String.eqb_spec (Transaction.transaction_id t) k) as [E|_];
        [|reflexivity].
      exfalso. apply Hrow. rewrite Hk'. congruence.
    + injection Hrun as _ <-.
      apply import_transaction_inv in Hbody
        as [(e' & _ & ->)|(k' & _ & _ & Hr & _)]; [exact Hnone|discriminate Hr].
Qed.

(** X28. The first row wins. When an import of transactions has run to its
    end, a key that was not stored before is stored with the record made of
    the first row of the file that carries it: the row's date, category,
    merchant and amount, the uploading customer as owner, and for the
    optional columns the row's cell or else the payment method "upi" and
    the empty description. Later rows with the same key change nothing. *)
Theorem import_first_row_wins (uploaded_file : UploadedFile.t)
    (customer : Customer.t) (before after : list Row) (row : Row)
    (k : string) (st st' : Store) (n : Z) :
  UploadedFile.file_type uploaded_file = "transaction"%string ->
  File.read_csv (UploadedFile.file_path uploaded_file)
  = Ok (before ++ row :: after) ->
  Forall (fun r => r !! "transaction_id" <> Some (CStr k)) before ->
  row !! "transaction_id" = Some (CStr k) ->
  find_transaction k st = None ->
  process_uploaded_file uploaded_file customer st = (Ok n, st') ->
  exists t,
    find_transaction k st' = Some t
    /\ Transaction.transaction_id t = k
    /\ Transaction.customer t = Customer.customer_id customer
    /\ row !! "date" = Some (CDate (Transaction.date t))
    /\ row !! "category" = Some (CStr (Transaction.category t))
    /\ row !! "merchant" = Some (CStr (Transaction.merchant t))
    /\ row !! "amount" = Some (CNum (Transaction.amount t))
    /\ row_get row "payment_method" (CStr "upi")
       = CStr (Transaction.payment_method t)
    /\ row_get row "description" (CStr "")
       = CStr (Transaction.description t).
Proof.
  intros Htype Hcsv Hbefore Hk Hnone Hrun.
  unfold process_uploaded_file, lift, mbind, M_bind in Hrun.
  rewrite Hcsv, Htype in Hrun. cbn [String.eqb Ascii.eqb Bool.eqb] in Hrun.
  rewrite import_loop_app in Hrun.
  destruct (import_loop (import_transaction customer) before 0 st)
    as [[m|e] st1] eqn:Hfirst; [|discriminate Hrun].
  pose proof (import_loop_absent customer k before Hbefore _ _ _ _ Hfirst Hnone)
    as Hnone1.
  cbn [import_loop] in Hrun. unfold mbind, M_bind in Hrun.
  destruct (import_transaction customer row st1) as [[[]|e] st2] eqn:Hrow;
    [|discriminate Hrun].
  destruct (import_transaction_created customer row k st1 st2 _ Hrow Hk Hnone1)
    as [(_ & e & He)|(t & _ & -> & Hid & Hrest)]; [discriminate He|].
  exists t. split; [|split; [exact Hid|exact Hrest]].
  apply import_loop_keeps in Hrun as (Hkept & _). apply Hkept.
  rewrite <- Hid. apply find_transaction_appended. rewrite Hid. exact Hnone1.
Qed.

Lemma import_first_row_wins_witness :
  exists t,
    find_transaction "T7"
      (snd (process_uploaded_file
              (Sample.uploaded Fixture.repeated_csv "transaction")
              (Sample.customer "C1" "Asha") Sample.fortnight)) = Some t
    /\ Transaction.transaction_id t = "T7"%string
    /\ Transaction.customer t = "C1"%string
    /\ Sample.transaction_row "T7" 40 !! "date"
       = Some (CDate (Transaction.date t))
    /\ Sample.transaction_row "T7" 40 !! "category"
       = Some (CStr (Transaction.category t))
    /\ Sample.transaction_row "T7" 40 !! "merchant"
       = Some (CStr (Transaction.merchant t))
    /\ Sample.transaction_row "T7" 40 !! "amount"
       = Some (CNum (Transaction.amount t))
    /\ row_get (Sample.transaction_row "T7" 40) "payment_method" (CStr "upi")
       = CStr (Transaction.payment_method t)
    /\ row_get (Sample.transaction_row "T7" 40) "description" (CStr "")
       = CStr (Transaction.description t).
Proof.
  apply (import_first_row_wins
           (Sample.uploaded Fixture.repeated_csv "transaction")
           (Sample.customer "C1" "Asha")
           [] [Sample.transaction_row "T7" 5] (Sample.transaction_row "T7" 40)
           "T7" Sample.fortnight _ 2); try reflexivity.
  constructor.
Defined.

Lemma find_transaction_none (k : string) (st : Store) :
  find_transaction k st = None ->
  k ∉ map Transaction.transaction_id (transactions st).
Proof.
  unfold find_transaction. intros Hnone Hin.
  apply list_elem_of_fmap in Hin as (t & -> & Hin).
  apply list_elem_of_In in Hin.
  apply (find_none _ _ Hnone) in Hin. rewrite String.eqb_refl in Hin.
  discriminate Hin.
Qed.

Lemma find_investment_none (k : string) (st : Store) :
  find_investment k st = None ->
  k ∉ map Investment.investment_id (investments st).
Proof.
  unfold find_investment. intros Hnone Hin.
  apply list_elem_of_fmap in Hin as (i & -> & Hin).
  apply list_elem_of_In in Hin.
  apply (find_none _ _ Hnone) in Hin. rewrite String.eqb_refl in Hin.
  discriminate Hin.
Qed.

Lemma NoDup_snoc {A : Type} (l : list A) (x : A) :
  NoDup l -> x ∉ l -> NoDup (l ++ [x]).
Proof.
  intros Hl Hx. apply NoDup_app. split; [exact Hl|]. split.
  - intros y Hy Hin. apply list_elem_of_singleton in Hin as ->. exact (Hx Hy).
  - apply NoDup_singleton.
Qed.

(** The store is in order and the customer [c] is stored. *)
Lemma import_transaction_coherent (customer : Customer.t) (row : Row)
    (st st1 : Store) (r : result unit) :
  import_transaction customer row st = (r, st1) ->
  store_coherent st /\ is_Some (customers st !! Customer.customer_id customer) ->
  store_coherent st1
  /\ is_Some (customers st1 !! Customer.customer_id customer).
Proof.
  intros Hrow [Hcoh Hstored].
  pose proof Hrow as Hinv. apply import_transaction_inv in Hinv
    as [(e & _ & ->)|(k & Hk & _ & _ & [(_ & ->)|(Hnone & _)])]; auto.
  destruct (import_transaction_created customer row k st st1 r Hrow Hk Hnone)
    as [(-> & _)|(t & _ & -> & Hid & Hown & _)]; auto.
  split; [|exact Hstored].
  destruct Hcoh as (H1 & H2 & H3 & H4 & H5 & H6 & H7 & H8).
  unfold store_coherent.
  cbn [customers conversations messages transactions investments
       uploaded_files set_transactions].
  repeat (split; [assumption|]). split; [|split; [|auto]].
  - rewrite map_app. apply NoDup_snoc; [exact H4|]. cbn [map]. rewrite Hid.
    apply find_transaction_none. exact Hnone.
  - intros t' Hin. apply elem_of_app in Hin as [Hin|Hin]; [auto|].
    apply list_elem_of_singleton in Hin as ->. rewrite Hown. exact Hstored.
Qed.

Lemma import_investment_coherent (customer : Customer.t) (row : Row)
    (st st1 : Store) (r : result unit) :
  import_investment customer row st = (r, st1) ->
  store_coherent st /\ is_Some (customers st !! Customer.customer_id customer) ->
  store_coherent st1
  /\ is_Some (customers st1 !! Customer.customer_id customer).
Proof.
  intros Hrow [Hcoh Hstored].
  pose proof Hrow as Hinv. apply import_investment_inv in Hinv
    as [(e & _ & ->)|(k & Hk & _ & _ & [(_ & ->)|(Hnone & _)])]; auto.
  destruct (import_investment_created customer row k st st1 r Hrow Hk Hnone)
    as [->|(i & _ & -> & Hid & Hown)]; auto.
  split; [|exact Hstored].
  destruct Hcoh as (H1 & H2 & H3 & H4 & H5 & H6 & H7 & H8).
  unfold store_coherent.
  cbn [customers conversations messages transactions investments
       uploaded_files set_investments].
  repeat (split; [assumption|]). split; [|split; [|auto]].
  - rewrite map_app. apply NoDup_snoc; [exact H6|]. cbn [map]. rewrite Hid.
    apply find_investment_none. exact Hnone.
  - intros i' Hin. apply elem_of_app in Hin as [Hin|Hin]; [auto|].
    apply list_elem_of_singleton in Hin as ->. rewrite Hown. exact Hstored.
Qed.

(** X29. An upload keeps the store in order, whatever its outcome: if
    primary keys are unique and name their records and every reference
    points at a stored record before the upload, the same holds after it.
    No row of the file can store a second record under a key, and every
    record and the upload record it adds belong to the stored uploading
    customer. *)
Theorem upload_file_keeps_store_coherent (request : UploadRequest.t)
    (st : Store) :
  store_coherent st ->
  store_coherent (snd (upload_file request st)).
Proof.
  intros Hcoh.
  destruct (UploadRequest.file request) as [file|] eqn:Hfile.
  2:{ unfold upload_file. rewrite Hfile. exact Hcoh. }
  destruct (truthy_field (UploadRequest.file_type request)) eqn:Htype.
  2:{ unfold upload_file. rewrite Hfile, Htype. exact Hcoh. }
  destruct (truthy_field (UploadRequest.customer_id request)) eqn:Hcid.
  2:{ unfold upload_file. rewrite Hfile, Htype, Hcid. exact Hcoh. }
  destruct (customers st !! default ""%string (UploadRequest.customer_id request))
    as [customer|] eqn:Hcustomer.
  2:{ unfold upload_file. rewrite Hfile, Htype, Hcid. cbn [negb orb].
      unfold mbind, M_bind, mret, M_ret, gets. rewrite Hcustomer. exact Hcoh. }
  set (uploaded := {| UploadedFile.file_name := File.name file;
                      UploadedFile.file_type :=
                        default ""%string (UploadRequest.file_type request);
                      UploadedFile.file_path := file;
                      UploadedFile.uploaded_by := Customer.customer_id customer;
                      UploadedFile.processed := false;
                      UploadedFile.records_imported := 0 |}).
  destruct (process_uploaded_file uploaded customer
              (set_uploaded_files (fun l => l ++ [uploaded]) st))
    as [r st2] eqn:Hrun.
  rewrite (upload_file_run request file customer st st2 r
             Hfile Htype Hcid Hcustomer Hrun).
  assert (Hstored : is_Some (customers st !! Customer.customer_id customer)).
  { destruct Hcoh as (Hkeys & _). rewrite (Hkeys _ _ Hcustomer). eauto. }
  assert (Hcoh1 : store_coherent
                    (set_uploaded_files (fun l => l ++ [uploaded]) st)).
  { destruct Hcoh as (H1 & H2 & H3 & H4 & H5 & H6 & H7 & H8).
    unfold store_coherent.
    cbn [customers conversations messages transactions investments
         uploaded_files set_uploaded_files].
    repeat (split; [assumption|]).
    intros u Hin. apply elem_of_app in Hin as [Hin|Hin]; [auto|].
    apply list_elem_of_singleton in Hin as ->. exact Hstored. }
  pose proof (process_uploaded_file_keeps _ _ _ _ _ Hrun)
    as (_ & _ & Hc2 & _ & _ & Hup).
  destruct (process_uploaded_file_invariant
              (fun a b =>
                 store_coherent a
                 /\ is_Some (customers a !! Customer.customer_id customer) ->
                 store_coherent b
                 /\ is_Some (customers b !! Customer.customer_id customer))
              uploaded customer
              (fun s H => H)
              (fun a b c Hab Hbc H => Hbc (Hab H))
              (fun row s r s1 => import_transaction_coherent customer row s s1 r)
              (fun row s r s1 => import_investment_coherent customer row s s1 r)
              _ _ _ Hrun (conj Hcoh1 Hstored))
    as (Hcoh2 & Hstored2).
  destruct r as [n|e]; cbn [snd]; [|exact Hcoh2].
  destruct Hcoh2 as (H1 & H2 & H3 & H4 & H5 & H6 & H7 & H8).
  unfold store_coherent.
  cbn [customers conversations messages transactions investments
       uploaded_files set_uploaded_files].
  repeat (split; [assumption|]).
  intros u Hin. apply elem_of_app in Hin as [Hin|Hin].
  - apply H8. rewrite Hup. cbn [uploaded_files set_uploaded_files].
    apply elem_of_app. left. exact Hin.
  - apply list_elem_of_singleton in Hin as ->. exact Hstored2.
Qed.

Lemma upload_file_keeps_store_coherent_witness :
  store_coherent
    (snd (upload_file (Sample.upload_request Sample.transactions_csv "transaction")
            Sample.fortnight)).
Proof.
  apply (upload_file_keeps_store_coherent
           (Sample.upload_request Sample.transactions_csv "transaction")
           Sample.fortnight).
  exact fortnight_coherent.
Defined.

End Upload.
